(** * Kizuna P2P bridge: signed envelopes, task engine and control plane

    A shallow embedding of [pear_bridge/index.js] and of the
    [message/send] path of [pear_bridge/a2a-gateway.js].

    Conventions of the embedding.
    - A JavaScript string is represented by its UTF-8 encoding, a Rocq
      [string] whose characters are the bytes, so [Buffer.from(s)] is
      [list_ascii_of_string s].  A byte is an [ascii].  [s.length] counts
      UTF-16 code units ([js_length]); a string with an unpaired surrogate
      has no representation.
    - Numbers are integers ([Z]); times are milliseconds.
    - A JavaScript [Map] is an insertion-ordered association list
      ([JSMap]): iteration order is observable in the source (first
      matching peer, order of socket writes, order of clock readings).
    - [Date.now()], [generateTaskId()] are read from streams carried by the
      state; every call consumes one reading.
    - Handlers are modelled after [requireAuth] has called [next()].
    - A field of a request, frame or manifest whose type the code tests,
      or on which it calls a method or takes [||] without testing it, is a
      [JSValue]; the other fields are taken at the type the protocol
      documents, an absent one being [None] or the empty string.
    - Timers other than the reapers (heartbeat pings) and the endpoints
      that only read the tables are left out.
    - Node's [crypto], [JSON.parse], [JSON.stringify] and
      [String.prototype.toLowerCase] (which follows the Unicode case
      tables) are the fields of a [Platform] record; nothing is assumed
      about them unless a theorem says so.
    - A [TypeError] or [RangeError] raised by the code is a value: a
      handler that Express runs answers 500 through Express's error
      handler, a timer callback ends where the exception is raised with
      the state as it is then.  What Node does with the exception that
      escapes a timer callback lies outside the model. *)

From Stdlib Require Import List String Ascii ZArith NArith Lia Bool.
From Stdlib Require Import DecimalString.
From Stdlib Require DecimalNat DecimalFacts.
Import ListNotations.

Set Implicit Arguments.
Local Open Scope string_scope.
Local Open Scope Z_scope.

(* ------------------------------------------------------------------ *)
(** ** Insertion-ordered maps with string keys (JavaScript [Map]) *)

Module JSMap.

Section Ops.
Variable V : Type.

Definition t := list (string * V).

Definition empty : t := [].

(** [m.get(k)]: [None] models [undefined]. *)
Fixpoint get (k : string) (m : t) : option V :=
  match m with
  | [] => None
  | (k', v) :: r => if String.eqb k k' then Some v else get k r
  end.

Definition has (k : string) (m : t) : bool :=
  match get k m with Some _ => true | None => false end.

(** [m.set(k, v)]: an existing key keeps its position, a new key goes
    last. *)
Fixpoint set (k : string) (v : V) (m : t) : t :=
  match m with
  | [] => [(k, v)]
  | (k', v') :: r =>
      if String.eqb k k' then (k, v) :: r else (k', v') :: set k v r
  end.

(** [m.delete(k)]. *)
Fixpoint delete (k : string) (m : t) : t :=
  match m with
  | [] => []
  | (k', v') :: r =>
      if String.eqb k k' then delete k r else (k', v') :: delete k r
  end.

Definition keys (m : t) : list string := map fst m.
Definition values (m : t) : list V := map snd m.
Definition size (m : t) : Z := Z.of_nat (List.length m).

End Ops.

Arguments empty {V}.

End JSMap.

(* ------------------------------------------------------------------ *)
(** ** JavaScript values, buffers and hexadecimal strings *)

Definition bytes := list ascii.

(** The values a JSON field can hold, as far as the bridge looks at them.
    An object or array is represented by what [Buffer.from] makes of it:
    [Some b] for a Buffer or array-like holding the bytes [b], [None] when
    [Buffer.from] raises a [TypeError]. *)
Inductive JSValue : Type :=
| JUndefined
| JNull
| JBool (b : bool)
| JNum (n : Z)
| JStr (s : string)
| JObject (as_buffer : option bytes).

(** Truthiness, as tested by [if (v)], [a && b] and [a || b]. *)
Definition truthy (v : JSValue) : bool :=
  match v with
  | JUndefined | JNull => false
  | JBool b => b
  | JNum n => negb (n =? 0)
  | JStr s => negb (String.eqb s "")
  | JObject _ => true
  end.

Definition hex_digit (n : N) : ascii :=
  if (n <? 10)%N then ascii_of_N (48 + n) else ascii_of_N (87 + n).

(** Value of one hexadecimal character, upper or lower case. *)
Definition unhex (c : ascii) : option N :=
  let n := N_of_ascii c in
  if ((48 <=? n) && (n <=? 57))%N then Some (n - 48)%N
  else if ((97 <=? n) && (n <=? 102))%N then Some (n - 87)%N
  else if ((65 <=? n) && (n <=? 70))%N then Some (n - 55)%N
  else None.

(** [buf.toString('hex')]: two lower-case digits per byte. *)
Fixpoint toString_hex (b : bytes) : string :=
  match b with
  | [] => ""
  | c :: r =>
      String (hex_digit (N_of_ascii c / 16))
        (String (hex_digit (N_of_ascii c mod 16)) (toString_hex r))
  end.

(** [Buffer.from(s, 'hex')]: decodes pairs of hexadecimal characters and
    stops, without raising, at the first pair that is not hexadecimal or at
    a trailing single character. *)
Fixpoint Buffer_from_hex (s : string) : bytes :=
  match s with
  | String a (String b r) =>
      match unhex a, unhex b with
      | Some x, Some y => ascii_of_N (16 * x + y) :: Buffer_from_hex r
      | _, _ => []
      end
  | _ => []
  end.

Inductive Encoding := Utf8 | Hex.

(** [Buffer.from(v, enc)]; [None] models the [TypeError] raised for
    [undefined], [null], booleans and numbers. *)
Definition Buffer_from (v : JSValue) (enc : Encoding) : option bytes :=
  match v with
  | JStr s =>
      Some match enc with
           | Utf8 => list_ascii_of_string s
           | Hex => Buffer_from_hex s
           end
  | JObject o => o
  | _ => None
  end.

(** Text of a number inside a template string ([`${n}`]). *)
Definition Z_to_string (n : Z) : string :=
  NilZero.string_of_int (Z.to_int n).

Definition lower_char (c : ascii) : ascii :=
  let n := N_of_ascii c in
  if ((65 <=? n) && (n <=? 90))%N then ascii_of_N (n + 32) else c.

(** Case folding of the letters A-Z only: the [toLowerCase] of the small
    platform below, which agrees with JavaScript's on ASCII text. *)
Fixpoint toLowerCase_ascii (s : string) : string :=
  match s with
  | EmptyString => EmptyString
  | String c r => String (lower_char c) (toLowerCase_ascii r)
  end.

(** UTF-16 code units contributed by one byte of a UTF-8 encoding: one for
    an ASCII byte and for the first byte of a two- or three-byte character,
    two (a surrogate pair) for the first byte of a four-byte character,
    none for a continuation byte. *)
Definition units_of_byte (c : ascii) : nat :=
  let n := N_of_ascii c in
  if (n <? 128)%N then 1%nat
  else if (n <? 192)%N then 0%nat
  else if (n <? 240)%N then 1%nat
  else 2%nat.

(** [s.length] *)
Fixpoint js_length (s : string) : nat :=
  match s with
  | EmptyString => 0%nat
  | String c r => (units_of_byte c + js_length r)%nat
  end.

(** The exceptions the modelled code can raise. *)
Inductive Exn := TypeError | RangeError.

(** How a block of statements ends. *)
Inductive Completion := Normal | Abrupt (e : Exn).

(** [s.slice(-8)]: the last eight characters, or all of a shorter [s]. *)
Definition slice_last8 (s : string) : string :=
  substring (String.length s - 8) 8 s.

(** [s.substring(0, n)]. *)
Definition prefix (n : nat) (s : string) : string := substring 0 n s.

(** [parts.join(sep)]. *)
Fixpoint join (sep : string) (l : list string) : string :=
  match l with
  | [] => ""
  | [x] => x
  | x :: r => x ++ sep ++ join sep r
  end.

(** [typeof v === 'string'] *)
Definition is_string (v : JSValue) : bool :=
  match v with JStr _ => true | _ => false end.

(** [v === k] for a string constant [k]. *)
Definition is_str (k : string) (v : JSValue) : bool :=
  match v with JStr s => String.eqb s k | _ => false end.

(** [list.includes(v)] for a list of string constants. *)
Definition includes (l : list string) (v : JSValue) : bool :=
  match v with
  | JStr s => existsb (String.eqb s) l
  | _ => false
  end.

(** [v || d] where a truthy [v] is known to be a string. *)
Definition str_or (v : JSValue) (d : string) : string :=
  match v with
  | JStr s => if String.eqb s "" then d else s
  | _ => d
  end.

(* ------------------------------------------------------------------ *)
(** ** Records of the data model *)

(** The [skills] of a manifest: an array of JSON values, or a value that
    is not an array. *)
Inductive Skills :=
| SkillsArray (items : list JSValue)
| SkillsOther (v : JSValue).

(** A manifest.  The bridge stores the manifest of a handshake without
    looking at it, so [agent_id] and [role] are whatever JSON values the
    peer announced, [JUndefined] when absent; a manifest that is not an
    object behaves as an object without these fields. *)
Record Manifest := {
  role : JSValue;
  skills : Skills;
  agent_id : JSValue;
  specs : option string
}.

Module A2A.

(** One part of an A2A message.  [data], [uri] and [name] hold the JSON
    text of a truthy field. *)
Record Part := {
  kind : JSValue;
  text : JSValue;
  data : option string;
  uri : option string;
  name : option string
}.

(** [parts = None] when [message.parts] is not an array. *)
Record Message := {
  role : JSValue;
  parts : option (list Part)
}.

(** An element of [data_parts]: the JSON text of [part.data], or
    [{file: part.uri || part.name}]. *)
Inductive DataPart :=
| DData (json : string)
| DFile (file : option string).

(** [contextId] and [target] are not validated: they are whatever JSON
    values the request carries, [JUndefined] when absent. *)
Record SendParams := {
  message : option Message;
  contextId : JSValue;
  target : JSValue
}.

End A2A.

(** The [context] object of a task payload: the JSON text supplied on
    [/task/request], or the object built by [a2aMessageToKtpPayload]. *)
Inductive TaskContext :=
| CtxJson (json : string)
| CtxA2A (a2a_message : A2A.Message)
         (data_parts : option (list A2A.DataPart))
         (contextId : JSValue).

Record TaskPayload := {
  description : string;
  context : TaskContext;
  priority : string
}.

(** The inner JSON of an envelope, classified by its [type] field.
    [PNull] is the JSON value [null], the one value of which reading
    [.type] raises; [POther] is any other value whose [type] is none of the
    three the bridge knows. *)
Inductive Payload :=
| PNull
| PHandshake (manifest : option Manifest)
| PTaskRequest (task_id task_type : string) (payload : TaskPayload)
               (deadline : option Z) (sender : string)
| PTaskResponse (task_id status : string) (result error : JSValue)
                (responder : string)
| POther (json : string).

(** A frame on the wire: the envelope fields, and [type] for the bare
    [{type:'ping'}] heartbeat. *)
Record Frame := {
  type : JSValue;
  content : JSValue;
  senderKey : JSValue;
  signature : JSValue;
  timestamp : JSValue
}.

Record InboxMsg := {
  sender : string;
  senderShortId : string;
  msg_timestamp : Z;
  msg_content : Payload
}.

Record Peer := {
  lastSeen : Z;
  manifest : option Manifest
}.

Record Topic := {
  topicBuffer : bytes;
  hasSecret : bool;
  joinedAt : Z
}.

(** Entries of [sentTasks] and of [deadLetterTasks] (the same objects move
    between the two tables).  An absent property is [None], or
    [JUndefined] for [result] and [error]. *)
Module Sent.

Record t := mk {
  target : string;
  status : string;
  payload : TaskPayload;
  task_type : string;
  createdAt : Z;
  deadline : option Z;
  attemptCount : option Z;
  lastAttemptAt : option Z;
  nextRetryTime : option Z;
  peerWasOffline : bool;
  failureReason : option string;
  failedAt : option Z;
  result : JSValue;
  error : JSValue;
  completedAt : option Z;
  responder : option string;
  contextId : option JSValue;
  a2aSource : bool
}.

Definition set_status (v : string) (x : t) : t :=
  mk (target x) v (payload x) (task_type x) (createdAt x) (deadline x)
     (attemptCount x) (lastAttemptAt x) (nextRetryTime x) (peerWasOffline x)
     (failureReason x) (failedAt x) (result x) (error x) (completedAt x)
     (responder x) (contextId x) (a2aSource x).

Definition set_attemptCount (v : option Z) (x : t) : t :=
  mk (target x) (status x) (payload x) (task_type x) (createdAt x)
     (deadline x) v (lastAttemptAt x) (nextRetryTime x) (peerWasOffline x)
     (failureReason x) (failedAt x) (result x) (error x) (completedAt x)
     (responder x) (contextId x) (a2aSource x).

Definition set_lastAttemptAt (v : option Z) (x : t) : t :=
  mk (target x) (status x) (payload x) (task_type x) (createdAt x)
     (deadline x) (attemptCount x) v (nextRetryTime x) (peerWasOffline x)
     (failureReason x) (failedAt x) (result x) (error x) (completedAt x)
     (responder x) (contextId x) (a2aSource x).

Definition set_nextRetryTime (v : option Z) (x : t) : t :=
  mk (target x) (status x) (payload x) (task_type x) (createdAt x)
     (deadline x) (attemptCount x) (lastAttemptAt x) v (peerWasOffline x)
     (failureReason x) (failedAt x) (result x) (error x) (completedAt x)
     (responder x) (contextId x) (a2aSource x).

Definition set_peerWasOffline (v : bool) (x : t) : t :=
  mk (target x) (status x) (payload x) (task_type x) (createdAt x)
     (deadline x) (attemptCount x) (lastAttemptAt x) (nextRetryTime x) v
     (failureReason x) (failedAt x) (result x) (error x) (completedAt x)
     (responder x) (contextId x) (a2aSource x).

Definition set_failureReason (v : option string) (x : t) : t :=
  mk (target x) (status x) (payload x) (task_type x) (createdAt x)
     (deadline x) (attemptCount x) (lastAttemptAt x) (nextRetryTime x)
     (peerWasOffline x) v (failedAt x) (result x) (error x) (completedAt x)
     (responder x) (contextId x) (a2aSource x).

Definition set_failedAt (v : option Z) (x : t) : t :=
  mk (target x) (status x) (payload x) (task_type x) (createdAt x)
     (deadline x) (attemptCount x) (lastAttemptAt x) (nextRetryTime x)
     (peerWasOffline x) (failureReason x) v (result x) (error x)
     (completedAt x) (responder x) (contextId x) (a2aSource x).

Definition set_result (v : JSValue) (x : t) : t :=
  mk (target x) (status x) (payload x) (task_type x) (createdAt x)
     (deadline x) (attemptCount x) (lastAttemptAt x) (nextRetryTime x)
     (peerWasOffline x) (failureReason x) (failedAt x) v (error x)
     (completedAt x) (responder x) (contextId x) (a2aSource x).

Definition set_error (v : JSValue) (x : t) : t :=
  mk (target x) (status x) (payload x) (task_type x) (createdAt x)
     (deadline x) (attemptCount x) (lastAttemptAt x) (nextRetryTime x)
     (peerWasOffline x) (failureReason x) (failedAt x) (result x) v
     (completedAt x) (responder x) (contextId x) (a2aSource x).

Definition set_completedAt (v : option Z) (x : t) : t :=
  mk (target x) (status x) (payload x) (task_type x) (createdAt x)
     (deadline x) (attemptCount x) (lastAttemptAt x) (nextRetryTime x)
     (peerWasOffline x) (failureReason x) (failedAt x) (result x) (error x)
     v (responder x) (contextId x) (a2aSource x).

Definition set_responder (v : option string) (x : t) : t :=
  mk (target x) (status x) (payload x) (task_type x) (createdAt x)
     (deadline x) (attemptCount x) (lastAttemptAt x) (nextRetryTime x)
     (peerWasOffline x) (failureReason x) (failedAt x) (result x) (error x)
     (completedAt x) v (contextId x) (a2aSource x).

End Sent.

(** Entries of [receivedTasks]. *)
Module Received.

Record t := mk {
  from : string;
  fromShortId : string;
  status : string;
  payload : TaskPayload;
  task_type : string;
  createdAt : Z;
  deadline : option Z;
  result : JSValue;
  error : JSValue
}.

Definition set_status (v : string) (x : t) : t :=
  mk (from x) (fromShortId x) v (payload x) (task_type x) (createdAt x)
     (deadline x) (result x) (error x).

Definition set_result (v : JSValue) (x : t) : t :=
  mk (from x) (fromShortId x) (status x) (payload x) (task_type x)
     (createdAt x) (deadline x) v (error x).

Definition set_error (v : JSValue) (x : t) : t :=
  mk (from x) (fromShortId x) (status x) (payload x) (task_type x)
     (createdAt x) (deadline x) (result x) v.

End Received.

(* ------------------------------------------------------------------ *)
(** ** What the bridge takes from Node *)

Record Platform := {
  PublicKey : Type;
  PrivateKey : Type;
  (** [crypto.sign(null, data, key)] *)
  crypto_sign : PrivateKey -> bytes -> bytes;
  (** [crypto.verify(null, data, key, sig)]; [None] when it throws *)
  crypto_verify : PublicKey -> bytes -> bytes -> option bool;
  (** [crypto.createPublicKey({key, format:'der', type:'spki'})]; [None]
      when the bytes are not a key *)
  createPublicKey : bytes -> option PublicKey;
  (** [key.export({type:'spki', format:'der'})] *)
  export_spki : PublicKey -> bytes;
  (** [crypto.createHash('sha256').update(s).digest()] *)
  sha256 : bytes -> bytes;
  JSON_stringify : Payload -> string;
  (** [JSON.parse(v)]; [None] when it throws *)
  JSON_parse : JSValue -> option Payload;
  (** [s.toLowerCase()] *)
  toLowerCase : string -> string;
  (** the identity loaded or generated at startup *)
  publicKey : PublicKey;
  privateKey : PrivateKey
}.

(** The key pair of the node is a pair: what the private key signs, the
    public key verifies, and the public key survives its SPKI export. *)
Record KeyPairOk (P : Platform) : Prop := {
  sign_verify : forall data,
    crypto_verify P (publicKey P) data (crypto_sign P (privateKey P) data)
    = Some true;
  spki_import : createPublicKey P (export_spki P (publicKey P))
                = Some (publicKey P)
}.

(* ------------------------------------------------------------------ *)
(** ** Process state *)

Record World := mkWorld {
  clock : nat -> Z;              (* results of the coming [Date.now()] calls *)
  uuids : nat -> string;         (* results of the coming [generateTaskId()] calls *)
  peers : JSMap.t Peer;
  inbox : list InboxMsg;
  totalUniquePeers : list string;
  activeTopics : JSMap.t Topic;
  swarmTopics : list bytes;      (* topic hashes announced on the swarm *)
  sentTasks : JSMap.t Sent.t;
  receivedTasks : JSMap.t Received.t;
  deadLetterTasks : JSMap.t Sent.t;
  wire : list (string * Frame)   (* [socket.write] calls, oldest first *)
}.

Definition set_clock v w :=
  mkWorld v (uuids w) (peers w) (inbox w) (totalUniquePeers w)
    (activeTopics w) (swarmTopics w) (sentTasks w) (receivedTasks w)
    (deadLetterTasks w) (wire w).
Definition set_uuids v w :=
  mkWorld (clock w) v (peers w) (inbox w) (totalUniquePeers w)
    (activeTopics w) (swarmTopics w) (sentTasks w) (receivedTasks w)
    (deadLetterTasks w) (wire w).
Definition set_peers v w :=
  mkWorld (clock w) (uuids w) v (inbox w) (totalUniquePeers w)
    (activeTopics w) (swarmTopics w) (sentTasks w) (receivedTasks w)
    (deadLetterTasks w) (wire w).
Definition set_inbox v w :=
  mkWorld (clock w) (uuids w) (peers w) v (totalUniquePeers w)
    (activeTopics w) (swarmTopics w) (sentTasks w) (receivedTasks w)
    (deadLetterTasks w) (wire w).
Definition set_totalUniquePeers v w :=
  mkWorld (clock w) (uuids w) (peers w) (inbox w) v
    (activeTopics w) (swarmTopics w) (sentTasks w) (receivedTasks w)
    (deadLetterTasks w) (wire w).
Definition set_activeTopics v w :=
  mkWorld (clock w) (uuids w) (peers w) (inbox w) (totalUniquePeers w)
    v (swarmTopics w) (sentTasks w) (receivedTasks w)
    (deadLetterTasks w) (wire w).
Definition set_swarmTopics v w :=
  mkWorld (clock w) (uuids w) (peers w) (inbox w) (totalUniquePeers w)
    (activeTopics w) v (sentTasks w) (receivedTasks w)
    (deadLetterTasks w) (wire w).
Definition set_sentTasks v w :=
  mkWorld (clock w) (uuids w) (peers w) (inbox w) (totalUniquePeers w)
    (activeTopics w) (swarmTopics w) v (receivedTasks w)
    (deadLetterTasks w) (wire w).
Definition set_receivedTasks v w :=
  mkWorld (clock w) (uuids w) (peers w) (inbox w) (totalUniquePeers w)
    (activeTopics w) (swarmTopics w) (sentTasks w) v
    (deadLetterTasks w) (wire w).
Definition set_deadLetterTasks v w :=
  mkWorld (clock w) (uuids w) (peers w) (inbox w) (totalUniquePeers w)
    (activeTopics w) (swarmTopics w) (sentTasks w) (receivedTasks w)
    v (wire w).
Definition set_wire v w :=
  mkWorld (clock w) (uuids w) (peers w) (inbox w) (totalUniquePeers w)
    (activeTopics w) (swarmTopics w) (sentTasks w) (receivedTasks w)
    (deadLetterTasks w) v.

(** Handlers run to completion on the event loop: a handler is a state
    transformer returning its result. *)
Definition M (A : Type) : Type := World -> A * World.

Definition ret {A} (a : A) : M A := fun w => (a, w).

Definition bind {A B} (m : M A) (k : A -> M B) : M B :=
  fun w => let (a, w') := m w in k a w'.

Declare Scope bridge_scope.
Delimit Scope bridge_scope with bridge.
Notation "x <- m ;; k" := (bind m (fun x => k))
  (at level 61, m at next level, right associativity) : bridge_scope.
Notation "m ;; k" := (bind m (fun _ => k))
  (at level 61, right associativity) : bridge_scope.
Local Open Scope bridge_scope.

Definition modify (f : World -> World) : M unit := fun w => (tt, f w).
Definition gets {A} (f : World -> A) : M A := fun w => (f w, w).

(** [for (const x of l) body(x)] *)
Fixpoint forEach {A} (l : list A) (body : A -> M unit) : M unit :=
  match l with
  | [] => ret tt
  | x :: r => body x ;; forEach r body
  end.

(** [for (const x of l) body(x)] where the body can raise: the loop ends
    at the first iteration that does. *)
Fixpoint forEachC {A} (l : list A) (body : A -> M Completion)
  : M Completion :=
  match l with
  | [] => ret Normal
  | x :: r =>
      c <- body x ;;
      match c with
      | Normal => forEachC r body
      | Abrupt e => ret (Abrupt e)
      end
  end.

(** [Date.now()] *)
Definition Date_now : M Z :=
  fun w => (clock w 0%nat, set_clock (fun n => clock w (S n)) w).

(** [generateTaskId()]: a random UUID v4. *)
Definition generateTaskId : M string :=
  fun w => (uuids w 0%nat, set_uuids (fun n => uuids w (S n)) w).

(** [inbox.push(m)] *)
Definition inbox_push (m : InboxMsg) : M unit :=
  modify (fun w => set_inbox (inbox w ++ [m]) w).

(** [peer.socket.write(buffer)] on the socket of peer [key]. *)
Definition socket_write (key : string) (f : Frame) : M unit :=
  modify (fun w => set_wire (wire w ++ [(key, f)]) w).

(* ------------------------------------------------------------------ *)
(** ** Retry configuration and backoff *)

Module RETRY_CONFIG.
Definition maxAttempts : Z := 3.
Definition baseDelayMs : Z := 5000.
Definition maxDelayMs : Z := 60000.
Definition reaperIntervalMs : Z := 5000.
End RETRY_CONFIG.

(** [exponentialBackoff]; the bridge only calls it with a positive count. *)
Definition exponentialBackoff (attemptCount : Z) : Z :=
  let delay := RETRY_CONFIG.baseDelayMs * 2 ^ attemptCount in
  Z.min delay RETRY_CONFIG.maxDelayMs.

(** [task.attemptCount || 0] *)
Definition attemptCount_or_0 (task : Sent.t) : Z :=
  match Sent.attemptCount task with Some n => n | None => 0 end.

(** [queueTaskForRetry] and [moveToDeadLetter] assign to the properties of
    the object [task], which is the entry of [sentTasks] under [taskId]. *)
Definition queueTaskForRetry (taskId : string) (task : Sent.t) : M unit :=
  let task := Sent.set_status "queued_for_retry" task in
  let task := Sent.set_attemptCount (Some (attemptCount_or_0 task + 1)) task in
  t1 <- Date_now ;;
  let task := Sent.set_lastAttemptAt (Some t1) task in
  t2 <- Date_now ;;
  let task :=
    Sent.set_nextRetryTime
      (Some (t2 + exponentialBackoff (attemptCount_or_0 task))) task in
  modify (fun w => set_sentTasks (JSMap.set taskId task (sentTasks w)) w).

Definition moveToDeadLetter (taskId : string) (task : Sent.t)
    (reason : string) : M unit :=
  let task := Sent.set_status "failed" task in
  let task := Sent.set_failureReason (Some reason) task in
  t <- Date_now ;;
  let task := Sent.set_failedAt (Some t) task in
  modify (fun w =>
    set_deadLetterTasks (JSMap.set taskId task (deadLetterTasks w)) w) ;;
  modify (fun w => set_sentTasks (JSMap.delete taskId (sentTasks w)) w).

(* ------------------------------------------------------------------ *)
(** ** Requests and responses of the control plane *)

(** The body of [POST /task/request].  [context] is the JSON text of a
    truthy context and [deadline] a number, when present. *)
Module TaskRequest.
Record t := {
  task_type : JSValue;
  description : JSValue;
  context : option string;
  target : JSValue;
  priority : JSValue;
  deadline : option Z
}.
End TaskRequest.

(** The body of [POST /task/respond]; an empty [task_id] is an absent
    one. *)
Module TaskRespond.
Record t := {
  task_id : string;
  status : string;
  result : JSValue;
  error : JSValue
}.
End TaskRespond.

(** The A2A projection of a task built by [ktpTaskToA2ATask]; the time
    stamp is kept in milliseconds. *)
Module A2ATask.
Record t := {
  id : string;
  contextId : JSValue;
  state : JSValue;
  timestamp : Z;
  message : JSValue;
  artifact : option JSValue;
  direction : string;
  target : string;
  taskType : string;
  ktpStatus : string;
  createdAt : Z;
  completedAt : option Z;
  deadline : option Z;
  history : option (string * string)     (* role, text *)
}.
End A2ATask.

(** The JSON bodies the modelled endpoints answer with. *)
Inductive Body :=
| BError (error : string)
| BInbox (count : Z) (messages : list InboxMsg)
| BJoined (topic topicHash : string) (private : bool)
| BLeft (topic : string)
| BBroadcast (sent_to : Z)
| BTaskQueued (task_id target : string) (sent_to : Z) (message : string)
              (next_retry_at : Z)          (* status: 'queued_for_retry' *)
| BTaskSent (task_id target : string) (sent_to : Z)   (* status: 'sent' *)
| BResponded (task_id status : string) (sent_to_requester : bool)
| BRequeued (task_id : string)             (* status: 'queued_for_retry' *)
| BRpcError (id : JSValue) (code : Z) (message : string)
            (data : option string)
| BRpcTask (id : JSValue) (task : A2ATask.t)
| BUncaught (e : Exn).          (* the page of Express's error handler *)

Record Response := {
  code : Z;
  body : Body
}.

Definition json (b : Body) : Response := {| code := 200; body := b |}.
Definition status_json (c : Z) (b : Body) : Response :=
  {| code := c; body := b |}.

(** The answer to a request whose handler raised [e]: Express catches the
    exception and its default error handler answers 500. *)
Definition express_error (e : Exn) : Response :=
  {| code := 500; body := BUncaught e |}.

(* ------------------------------------------------------------------ *)
(** ** The bridge *)

Section Bridge.

Variable P : Platform.

(** *** Identity and envelope *)

(** The manifest sent in handshakes ([POST /manifest], which edits it, is
    not part of the model). *)
Definition myManifest : Manifest :=
  {| role := JStr "Generalist";
     skills := SkillsArray [JStr "chat"];
     agent_id := JStr "Agent-Zero";
     specs := None |}.

Definition myPeerId : string :=
  toString_hex (export_spki P (publicKey P)).

Definition getRawKeyHex (derHex : string) : string :=
  if (44 <? String.length derHex)%nat
  then substring 44 (String.length derHex - 44) derHex
  else derHex.

Definition myPeerIdRaw : string := getRawKeyHex myPeerId.

Definition signMessage (contentString : string) : M Frame :=
  let signature :=
    crypto_sign P (privateKey P) (list_ascii_of_string contentString) in
  t <- Date_now ;;
  ret {| type := JUndefined;
         content := JStr contentString;
         senderKey := JStr myPeerId;
         signature := JStr (toString_hex signature);
         timestamp := JNum t |}.

(** The body of the [try] block of [verifyMessage]; [None] is a raised
    exception. *)
Definition verifyMessage_try (message : Frame) : option bool :=
  match Buffer_from (senderKey message) Hex with
  | None => None
  | Some senderKeyBuffer =>
      match createPublicKey P senderKeyBuffer with
      | None => None
      | Some senderKeyObject =>
          match Buffer_from (content message) Utf8 with
          | None => None
          | Some data =>
              match Buffer_from (signature message) Hex with
              | None => None
              | Some sig => crypto_verify P senderKeyObject data sig
              end
          end
      end
  end.

Definition verifyMessage (message : Frame) : bool :=
  match verifyMessage_try message with
  | Some b => b
  | None => false        (* catch (e) { return false } *)
  end.

(** *** Topics *)

Definition defaultTopic : string := "agent-zero-swarm-poc".

Definition joinTopic (topicName secret : string) : M string :=
  let combined :=
    if String.eqb secret "" then topicName else topicName ++ ":" ++ secret in
  let hash := sha256 P (list_ascii_of_string combined) in
  topics <- gets activeTopics ;;
  match JSMap.get topicName topics with
  | Some info => ret (toString_hex (topicBuffer info))
  | None =>
      modify (fun w => set_swarmTopics (swarmTopics w ++ [hash]) w) ;;
      t <- Date_now ;;
      modify (fun w =>
        set_activeTopics
          (JSMap.set topicName
             {| topicBuffer := hash;
                hasSecret := negb (String.eqb secret "");
                joinedAt := t |}
             (activeTopics w)) w) ;;
      ret (toString_hex hash)
  end.

Definition bytes_eqb (a b : bytes) : bool :=
  String.eqb (string_of_list_ascii a) (string_of_list_ascii b).

(** [swarm.leave(topicBuffer)] *)
Definition swarm_leave (b : bytes) : M unit :=
  modify (fun w =>
    set_swarmTopics (filter (fun x => negb (bytes_eqb x b)) (swarmTopics w)) w).

Definition leaveTopic (topicName : string) : M bool :=
  topics <- gets activeTopics ;;
  match JSMap.get topicName topics with
  | None => ret false
  | Some info =>
      swarm_leave (topicBuffer info) ;;
      modify (fun w =>
        set_activeTopics (JSMap.delete topicName (activeTopics w)) w) ;;
      ret true
  end.

(** *** Peer sessions *)

Definition set_add (x : string) (s : list string) : list string :=
  if existsb (String.eqb x) s then s else s ++ [x].

Definition push_from (remoteKey : string) (payload : Payload) : M unit :=
  t <- Date_now ;;
  inbox_push {| sender := remoteKey;
                senderShortId := slice_last8 remoteKey;
                msg_timestamp := t;
                msg_content := payload |}.

(** [swarm.on('connection')]; the heartbeat timer is not modelled. *)
Definition onConnection (remoteKey : string) : M unit :=
  modify (fun w =>
    set_totalUniquePeers (set_add remoteKey (totalUniquePeers w)) w) ;;
  handshakeMsg <- signMessage (JSON_stringify P (PHandshake (Some myManifest))) ;;
  socket_write remoteKey handshakeMsg ;;
  t <- Date_now ;;
  modify (fun w =>
    set_peers
      (JSMap.set remoteKey {| lastSeen := t; manifest := None |} (peers w)) w).

Definition handleTaskRequestFrame (remoteKey task_id task_type : string)
    (payload : TaskPayload) (deadline : option Z) : M unit :=
  t <- Date_now ;;
  modify (fun w =>
    set_receivedTasks
      (JSMap.set task_id
         {| Received.from := remoteKey;
            Received.fromShortId := slice_last8 remoteKey;
            Received.status := "pending";
            Received.payload := payload;
            Received.task_type := task_type;
            Received.createdAt := t;
            Received.deadline := deadline;
            Received.result := JUndefined;
            Received.error := JUndefined |}
         (receivedTasks w)) w).

Definition handleTaskResponseFrame (remoteKey task_id status : string)
    (result error : JSValue) : M unit :=
  sent <- gets sentTasks ;;
  match JSMap.get task_id sent with
  | None => ret tt
  | Some task =>
      let task := Sent.set_status status task in
      let task := Sent.set_result result task in
      let task := Sent.set_error error task in
      t <- Date_now ;;
      let task := Sent.set_completedAt (Some t) task in
      let task := Sent.set_responder (Some (slice_last8 remoteKey)) task in
      modify (fun w => set_sentTasks (JSMap.set task_id task (sentTasks w)) w)
  end.

(** The dispatch of a verified envelope on the [type] of its payload. *)
Definition dispatch (remoteKey : string) (payload : Payload) : M unit :=
  match payload with
  | PNull => ret tt      (* [payload.type] raises; [catch (e) { }] *)
  | PHandshake m =>
      ps <- gets peers ;;
      match JSMap.get remoteKey ps with
      | None => ret tt
      | Some peer =>
          modify (fun w =>
            set_peers
              (JSMap.set remoteKey
                 {| lastSeen := lastSeen peer; manifest := m |}
                 (peers w)) w)
      end
  | PTaskRequest task_id task_type pl deadline _ =>
      handleTaskRequestFrame remoteKey task_id task_type pl deadline ;;
      push_from remoteKey payload
  | PTaskResponse task_id status result error _ =>
      handleTaskResponseFrame remoteKey task_id status result error ;;
      push_from remoteKey payload
  | POther _ => push_from remoteKey payload
  end.

(** [socket.on('data')] for the session of [remoteKey].  [frame = None]
    is a buffer that [JSON.parse] rejects or that is not an object: the
    exception is swallowed by the handler's [catch]. *)
Definition onData (remoteKey : string) (frame : option Frame) : M unit :=
  match frame with
  | None => ret tt
  | Some raw =>
      if is_str "ping" (type raw) then
        ps <- gets peers ;;
        match JSMap.get remoteKey ps with
        | None => ret tt
        | Some peer =>
            t <- Date_now ;;
            modify (fun w =>
              set_peers
                (JSMap.set remoteKey
                   {| lastSeen := t; manifest := manifest peer |}
                   (peers w)) w)
        end
      else if truthy (signature raw) && truthy (senderKey raw) then
        if negb (verifyMessage raw) then ret tt
        else
          match JSON_parse P (content raw) with
          | None => ret tt
          | Some payload => dispatch remoteKey payload
          end
      else ret tt
  end.

Definition cleanupPeer (key : string) : M unit :=
  modify (fun w => set_peers (JSMap.delete key (peers w)) w).

(** *** Reapers *)

(** One iteration of the timeout reaper's loop.  A key whose entry is gone
    is no longer visited by the [Map] iterator. *)
Definition timeoutPeer (now : Z) (key : string) : M unit :=
  ps <- gets peers ;;
  match JSMap.get key ps with
  | None => ret tt
  | Some peer => if 10000 <? now - lastSeen peer then cleanupPeer key else ret tt
  end.

Definition timeoutReaper : M unit :=
  now <- Date_now ;;
  ps <- gets peers ;;
  forEach (JSMap.keys ps) (timeoutPeer now).

(** [peer.manifest?.agent_id], and [(peer.manifest || {}).agent_id] *)
Definition agent_id_of (m : option Manifest) : JSValue :=
  match m with
  | Some mf => agent_id mf
  | None => JUndefined
  end.

(** [v?.toLowerCase()]: [undefined] for [undefined] and [null], the folded
    string for a string; for any other value [v.toLowerCase] is not a
    function and the call raises a [TypeError] ([None]). *)
Definition opt_toLowerCase (v : JSValue) : option JSValue :=
  match v with
  | JUndefined | JNull => Some JUndefined
  | JStr s => Some (JStr (toLowerCase P s))
  | _ => None
  end.

(** [peer.manifest?.agent_id?.toLowerCase() === target.toLowerCase()] for
    a string [target]; [None] when the left operand raises. *)
Definition agentIdMatches (m : option Manifest) (target : string)
  : option bool :=
  match opt_toLowerCase (agent_id_of m) with
  | Some a => Some (is_str (toLowerCase P target) a)
  | None => None
  end.

(** The test of the retry reaper's peer search; [None] when it raises. *)
Definition reaperMatches (target : string) (kp : string * Peer)
  : option bool :=
  if String.eqb target "*" || String.eqb (slice_last8 (fst kp)) target
  then Some true
  else agentIdMatches (manifest (snd kp)) target.

(** The test of the peer search of [/task/request], whose target is a
    string. *)
Definition requestMatches (target : string) (kp : string * Peer)
  : option bool :=
  if String.eqb (slice_last8 (fst kp)) target then Some true
  else agentIdMatches (manifest (snd kp)) target.

(** The test of the peer search of [message/send], whose target is not
    validated: after the left operand, [target.toLowerCase()] raises for a
    target that is not a string. *)
Definition sendMatches (target : JSValue) (kp : string * Peer)
  : option bool :=
  if is_str (slice_last8 (fst kp)) target then Some true
  else
    match opt_toLowerCase (agent_id_of (manifest (snd kp))), target with
    | Some a, JStr t => Some (is_str (toLowerCase P t) a)
    | _, _ => None
    end.

(** The outcome of a search loop over [peers.entries()]. *)
Inductive Search :=
| Found (kp : string * Peer)
| NotFound
| Threw (e : Exn).

(** [for (const [key, peer] of peers.entries()) if (test) { ...; break }]:
    the first entry that passes the test, unless the test raises on an
    entry before it. *)
Fixpoint findPeer (test : string * Peer -> option bool) (ps : JSMap.t Peer)
  : Search :=
  match ps with
  | [] => NotFound
  | kp :: r =>
      match test kp with
      | None => Threw TypeError
      | Some true => Found kp
      | Some false => findPeer test r
      end
  end.

Definition deadlinePassed (task : Sent.t) (now : Z) : bool :=
  match Sent.deadline task with
  | Some d => negb (d =? 0) && (d <? now)     (* task.deadline && ... *)
  | None => false
  end.

Definition notReady (task : Sent.t) (now : Z) : bool :=
  match Sent.nextRetryTime task with
  | Some n => negb (n =? 0) && (now <? n)     (* task.nextRetryTime && ... *)
  | None => false
  end.

Definition attemptsExhausted (task : Sent.t) : bool :=
  match Sent.attemptCount task with
  | Some n => RETRY_CONFIG.maxAttempts <=? n
  | None => false                             (* undefined >= 3 *)
  end.

Definition attemptCount_text (task : Sent.t) : string :=
  match Sent.attemptCount task with
  | Some n => Z_to_string n
  | None => "undefined"
  end.

(** One iteration of the retry reaper's loop over [sentTasks.entries()].
    The loop only deletes the entry it is visiting, so the iterator visits
    the keys present at the start, each with its current object.  The
    iteration ends abruptly when the peer search raises. *)
Definition retryTask (now : Z) (taskId : string) : M Completion :=
  sent <- gets sentTasks ;;
  match JSMap.get taskId sent with
  | None => ret Normal
  | Some task =>
      if negb (String.eqb (Sent.status task) "queued_for_retry")
         && negb (String.eqb (Sent.status task) "pending")
      then ret Normal
      else if deadlinePassed task now
      then moveToDeadLetter taskId task "Deadline exceeded" ;; ret Normal
      else if negb (String.eqb (Sent.status task) "queued_for_retry")
      then ret Normal
      else if notReady task now then ret Normal
      else
        ps <- gets peers ;;
        match findPeer (reaperMatches (Sent.target task)) ps with
        | Threw e => ret (Abrupt e)
        | Found targetPeer =>
            let taskPayload :=
              PTaskRequest taskId (Sent.task_type task) (Sent.payload task)
                (Sent.deadline task) (prefix 8 myPeerIdRaw) in
            signedMsg <- signMessage (JSON_stringify P taskPayload) ;;
            socket_write (fst targetPeer) signedMsg ;;
            let task := Sent.set_status "pending" task in
            let task := Sent.set_lastAttemptAt (Some now) task in
            modify (fun w =>
              set_sentTasks (JSMap.set taskId task (sentTasks w)) w) ;;
            ret Normal
        | NotFound =>
            (if attemptsExhausted task
             then moveToDeadLetter taskId task
                    ("Peer offline after " ++ attemptCount_text task
                     ++ " attempts")
             else queueTaskForRetry taskId task) ;;
            ret Normal
        end
  end.

(** The callback of the retry reaper's timer; it ends abruptly when an
    iteration does, leaving the entries after that one unvisited. *)
Definition retryReaper : M Completion :=
  now <- Date_now ;;
  sent <- gets sentTasks ;;
  forEachC (JSMap.keys sent) (retryTask now).

(** *** HTTP control plane *)

(** [GET /inbox] *)
Definition getInbox : M Response :=
  messages <- gets inbox ;;
  modify (set_inbox []) ;;
  ret (json (BInbox (Z.of_nat (List.length messages)) messages)).

(** [POST /join]; an empty [topic] or [secret] is an absent one. *)
Definition postJoin (topic secret : string) : M Response :=
  if String.eqb topic "" then ret (status_json 400 (BError "Missing topic"))
  else
    topicHash <- joinTopic topic secret ;;
    ret (json (BJoined topic topicHash (negb (String.eqb secret "")))).

(** [POST /leave] *)
Definition postLeave (topic : string) : M Response :=
  if String.eqb topic "" then ret (status_json 400 (BError "Missing topic"))
  else
    success <- leaveTopic topic ;;
    if negb success then ret (status_json 404 (BError "Not in topic"))
    else ret (json (BLeft topic)).

(** [for (const peer of peers.values()) { peer.socket.write(m); n++ }] *)
Definition writeAll (m : Frame) : M Z :=
  ps <- gets peers ;;
  forEach (JSMap.keys ps) (fun key => socket_write key m) ;;
  ret (Z.of_nat (List.length ps)).

(** [POST /broadcast] *)
Definition postBroadcast (content : Payload) : M Response :=
  signedMsg <- signMessage (JSON_stringify P content) ;;
  sentCount <- writeAll signedMsg ;;
  t <- Date_now ;;
  inbox_push {| sender := myPeerId;
                senderShortId := prefix 8 myPeerIdRaw;
                msg_timestamp := t;
                msg_content := content |} ;;
  ret (json (BBroadcast sentCount)).

Definition VALID_TASK_TYPES : list string :=
  ["general"; "analysis"; "code_review"; "research"; "test"; "other"].
Definition VALID_PRIORITIES : list string :=
  ["low"; "medium"; "high"; "critical"].
Definition MAX_DESCRIPTION_LENGTH : Z := 10000.
Definition MAX_CONTEXT_SIZE : Z := 50000.

(** The first failing check of [/task/request], if any. *)
Definition validateTaskRequest (b : TaskRequest.t) : option string :=
  if negb (truthy (TaskRequest.description b))
  then Some "description is required"
  else
    match TaskRequest.description b with
    | JStr description =>
        if MAX_DESCRIPTION_LENGTH <? Z.of_nat (js_length description)
        then Some "description exceeds max length of 10000"
        else if match TaskRequest.target b with
                | JUndefined | JStr _ => false
                | _ => true
                end
        then Some "target must be a string"
        else if truthy (TaskRequest.task_type b)
                && negb (includes VALID_TASK_TYPES (TaskRequest.task_type b))
        then Some "task_type must be one of: general, analysis, code_review, research, test, other"
        else if truthy (TaskRequest.priority b)
                && negb (includes VALID_PRIORITIES (TaskRequest.priority b))
        then Some "priority must be one of: low, medium, high, critical"
        else if match TaskRequest.context b with
                | Some c => MAX_CONTEXT_SIZE <? Z.of_nat (js_length c)
                | None => false
                end
        then Some "context exceeds max size of 50000 bytes"
        else None
    | _ => Some "description must be a string"
    end.

(** [deadline || null] *)
Definition or_null (d : option Z) : option Z :=
  match d with
  | Some n => if n =? 0 then None else Some n
  | None => None
  end.

(** [targetPeer || '*'] *)
Definition or_star (targetPeer : option string) : string :=
  match targetPeer with
  | Some s => if String.eqb s "" then "*" else s
  | None => "*"
  end.

Definition newSentTask (target status : string) (payload : TaskPayload)
    (task_type : string) (createdAt : Z) (deadline : option Z) : Sent.t :=
  {| Sent.target := target;
     Sent.status := status;
     Sent.payload := payload;
     Sent.task_type := task_type;
     Sent.createdAt := createdAt;
     Sent.deadline := deadline;
     Sent.attemptCount := None;
     Sent.lastAttemptAt := None;
     Sent.nextRetryTime := None;
     Sent.peerWasOffline := false;
     Sent.failureReason := None;
     Sent.failedAt := None;
     Sent.result := JUndefined;
     Sent.error := JUndefined;
     Sent.completedAt := None;
     Sent.responder := None;
     Sent.contextId := None;
     Sent.a2aSource := false |}.

(** [POST /task/request] *)
Definition postTaskRequest (b : TaskRequest.t) : M Response :=
  match validateTaskRequest b with
  | Some err => ret (status_json 400 (BError err))
  | None =>
      task_id <- generateTaskId ;;
      let task_type := str_or (TaskRequest.task_type b) "general" in
      let payload :=
        {| description := str_or (TaskRequest.description b) "";
           context :=
             CtxJson match TaskRequest.context b with
                     | Some c => c
                     | None => "{}"
                     end;
           priority := str_or (TaskRequest.priority b) "medium" |} in
      let deadline := or_null (TaskRequest.deadline b) in
      let taskPayload :=
        PTaskRequest task_id task_type payload deadline
          (prefix 8 myPeerIdRaw) in
      signedMsg <- signMessage (JSON_stringify P taskPayload) ;;
      let target := str_or (TaskRequest.target b) "" in
      if truthy (TaskRequest.target b) && negb (String.eqb target "*") then
        ps <- gets peers ;;
        match findPeer (requestMatches target) ps with
        | Threw e => ret (express_error e)
        | Found kp =>
            socket_write (fst kp) signedMsg ;;
            let targetPeer := slice_last8 (fst kp) in
            t <- Date_now ;;
            modify (fun w =>
              set_sentTasks
                (JSMap.set task_id
                   (newSentTask (or_star (Some targetPeer)) "pending" payload
                      task_type t deadline)
                   (sentTasks w)) w) ;;
            ret (json (BTaskSent task_id (or_star (Some targetPeer)) 1))
        | NotFound =>
            t1 <- Date_now ;;
            t2 <- Date_now ;;
            t3 <- Date_now ;;
            let task := newSentTask target "queued_for_retry" payload
                          task_type t1 deadline in
            let task := Sent.set_attemptCount (Some 1) task in
            let task := Sent.set_lastAttemptAt (Some t2) task in
            let task :=
              Sent.set_nextRetryTime (Some (t3 + exponentialBackoff 1)) task in
            let task := Sent.set_peerWasOffline true task in
            modify (fun w =>
              set_sentTasks (JSMap.set task_id task (sentTasks w)) w) ;;
            t4 <- Date_now ;;
            ret (status_json 202
                   (BTaskQueued task_id target 0
                      ("Peer '" ++ target ++ "' offline, queued for retry")
                      (t4 + exponentialBackoff 1)))
        end
      else
        sentCount <- writeAll signedMsg ;;
        t <- Date_now ;;
        modify (fun w =>
          set_sentTasks
            (JSMap.set task_id
               (newSentTask (or_star None) "pending" payload task_type t
                  deadline)
               (sentTasks w)) w) ;;
        ret (json (BTaskSent task_id (or_star None) sentCount))
  end.

(** [POST /task/respond] *)
Definition postTaskRespond (b : TaskRespond.t) : M Response :=
  let task_id := TaskRespond.task_id b in
  let status := TaskRespond.status b in
  if String.eqb task_id ""
  then ret (status_json 400 (BError "task_id is required"))
  else if negb (existsb (String.eqb status)
                  ["accepted"; "rejected"; "in_progress"; "completed";
                   "failed"])
  then ret (status_json 400 (BError "status must be one of: accepted, rejected, in_progress, completed, failed"))
  else
    received <- gets receivedTasks ;;
    match JSMap.get task_id received with
    | None => ret (status_json 404 (BError "Task not found in received tasks"))
    | Some task =>
        let task := Received.set_status status task in
        let task :=
          match TaskRespond.result b with
          | JUndefined => task
          | r => Received.set_result r task
          end in
        let task :=
          match TaskRespond.error b with
          | JUndefined => task
          | e => Received.set_error e task
          end in
        modify (fun w =>
          set_receivedTasks (JSMap.set task_id task (receivedTasks w)) w) ;;
        let or_JNull v := match v with JUndefined => JNull | _ => v end in
        let responsePayload :=
          PTaskResponse task_id status (or_JNull (TaskRespond.result b))
            (or_JNull (TaskRespond.error b)) (prefix 8 myPeerIdRaw) in
        signedMsg <- signMessage (JSON_stringify P responsePayload) ;;
        ps <- gets peers ;;
        match find (fun kp => String.eqb (fst kp) (Received.from task)) ps with
        | Some kp =>
            socket_write (fst kp) signedMsg ;;
            ret (json (BResponded task_id status true))
        | None => ret (json (BResponded task_id status false))
        end
    end.

(** [POST /tasks/retry/:task_id] *)
Definition postTasksRetry (task_id : string) : M Response :=
  dead <- gets deadLetterTasks ;;
  match JSMap.get task_id dead with
  | None =>
      ret (status_json 404 (BError "Task not found in dead letter queue"))
  | Some task =>
      let task := Sent.set_status "queued_for_retry" task in
      let task := Sent.set_attemptCount (Some 0) task in
      t <- Date_now ;;
      let task := Sent.set_nextRetryTime (Some t) task in
      let task := Sent.set_failureReason None task in
      let task := Sent.set_failedAt None task in
      modify (fun w => set_sentTasks (JSMap.set task_id task (sentTasks w)) w) ;;
      modify (fun w =>
        set_deadLetterTasks (JSMap.delete task_id (deadLetterTasks w)) w) ;;
      ret (json (BRequeued task_id))
  end.

(** *** A2A gateway: [message/send] *)

Definition index_text (i : nat) : string :=
  NilZero.string_of_uint (Nat.to_uint i).

Fixpoint validateParts (i : nat) (parts : list A2A.Part) : option string :=
  match parts with
  | [] => None
  | part :: r =>
      if negb (truthy (A2A.kind part)) || negb (is_string (A2A.kind part))
      then Some ("message.parts[" ++ index_text i ++ "].kind is required")
      else if is_str "text" (A2A.kind part)
              && negb (is_string (A2A.text part))
      then Some ("message.parts[" ++ index_text i
                 ++ "].text is required for text parts")
      else validateParts (S i) r
  end.

(** [validateMessageSendParams]; the error text when invalid. *)
Definition validateMessageSendParams (params : option A2A.SendParams)
  : option string :=
  match params with
  | None => Some "params is required and must be an object"
  | Some p =>
      match A2A.message p with
      | None => Some "message is required and must be an object"
      | Some message =>
          if negb (truthy (A2A.role message))
             || negb (is_string (A2A.role message))
          then Some "message.role is required and must be a string"
          else
            match A2A.parts message with
            | None => Some "message.parts is required and must be an array"
            | Some parts => validateParts 0 parts
            end
      end
  end.

Definition textOf (part : A2A.Part) : list string :=
  if is_str "text" (A2A.kind part) && truthy (A2A.text part)
  then [str_or (A2A.text part) ""] else [].

Definition dataOf (part : A2A.Part) : list A2A.DataPart :=
  if is_str "text" (A2A.kind part) && truthy (A2A.text part) then []
  else
    match A2A.data part with
    | Some d =>
        if is_str "data" (A2A.kind part) then [A2A.DData d]
        else if is_str "file" (A2A.kind part)
        then [A2A.DFile match A2A.uri part with
                        | Some u => Some u
                        | None => A2A.name part
                        end]
        else []
    | None =>
        if is_str "file" (A2A.kind part)
        then [A2A.DFile match A2A.uri part with
                        | Some u => Some u
                        | None => A2A.name part
                        end]
        else []
    end.

Definition a2aMessageToKtpPayload (message : A2A.Message)
    (contextId : JSValue) : TaskPayload :=
  let parts := match A2A.parts message with Some l => l | None => [] end in
  let textParts := flat_map textOf parts in
  let dataParts := flat_map dataOf parts in
  {| description :=
       let d := join (String "010" "") textParts in
       if String.eqb d "" then "A2A task" else d;
     context :=
       CtxA2A message
         (match dataParts with [] => None | _ => Some dataParts end)
         contextId;
     priority := "medium" |}.

(** The properties every object literal inherits from
    [Object.prototype]; each is a function, or an object for
    [__proto__]. *)
Definition Object_prototype_members : list string :=
  ["constructor"; "__defineGetter__"; "__defineSetter__"; "hasOwnProperty";
   "__lookupGetter__"; "__lookupSetter__"; "isPrototypeOf";
   "propertyIsEnumerable"; "toString"; "valueOf"; "__proto__";
   "toLocaleString"].

(** [KTP_TO_A2A_STATE[ktpStatus] || 'submitted']: the lookup in the object
    literal finds the seven states, and for the name of an inherited
    member that member, which is truthy and not a string. *)
Definition ktpToA2AState (ktpStatus : string) : JSValue :=
  if String.eqb ktpStatus "pending" then JStr "submitted"
  else if String.eqb ktpStatus "queued_for_retry" then JStr "working"
  else if String.eqb ktpStatus "accepted" then JStr "working"
  else if String.eqb ktpStatus "in_progress" then JStr "working"
  else if String.eqb ktpStatus "completed" then JStr "completed"
  else if String.eqb ktpStatus "failed" then JStr "failed"
  else if String.eqb ktpStatus "rejected" then JStr "rejected"
  else if existsb (String.eqb ktpStatus) Object_prototype_members
  then JObject None
  else JStr "submitted".

Definition ktpTaskToA2ATask (ktpTask : Sent.t) (taskId direction : string)
  : M A2ATask.t :=
  let a2aState := ktpToA2AState (Sent.status ktpTask) in
  ts <- (if Sent.createdAt ktpTask =? 0 then Date_now
         else ret (Sent.createdAt ktpTask)) ;;
  ret {| A2ATask.id := taskId;
         A2ATask.contextId :=
           match Sent.contextId ktpTask with
           | Some c => if truthy c then c else JStr taskId
           | None => JStr taskId
           end;
         A2ATask.state := a2aState;
         A2ATask.timestamp := ts;
         A2ATask.message :=
           match Sent.failureReason ktpTask with
           | Some r =>
               if String.eqb r ""
               then (if truthy (Sent.error ktpTask) then Sent.error ktpTask
                     else JUndefined)
               else JStr r
           | None =>
               if truthy (Sent.error ktpTask) then Sent.error ktpTask
               else JUndefined
           end;
         A2ATask.artifact :=
           match Sent.result ktpTask with
           | JUndefined | JNull => None
           | r => Some r
           end;
         A2ATask.direction := direction;
         A2ATask.target := Sent.target ktpTask;
         A2ATask.taskType := Sent.task_type ktpTask;
         A2ATask.ktpStatus := Sent.status ktpTask;
         A2ATask.createdAt := Sent.createdAt ktpTask;
         A2ATask.completedAt := Sent.completedAt ktpTask;
         A2ATask.deadline := Sent.deadline ktpTask;
         A2ATask.history :=
           if String.eqb (description (Sent.payload ktpTask)) "" then None
           else Some (if String.eqb direction "sent" then "user"
                      else "assistant",
                      description (Sent.payload ktpTask)) |}.

Definition INVALID_PARAMS : Z := -32602.

(** The delivery block of [handleMessageSend]: [sentCount] and
    [targetPeer] after it, or the exception raised by the peer search. *)
Definition messageSend_deliver (target : JSValue) (signedMsg : Frame)
  : M (Z * option string + Exn) :=
  if truthy target && negb (is_str "*" target) then
    ps <- gets peers ;;
    match findPeer (sendMatches target) ps with
    | Threw e => ret (inr e)
    | Found kp =>
        socket_write (fst kp) signedMsg ;;
        ret (inl (1, Some (slice_last8 (fst kp))))
    | NotFound => ret (inl (0, None))
    end
  else
    n <- writeAll signedMsg ;; ret (inl (n, None)).

(** [handleMessageSend(id, params, res)] of the JSON-RPC dispatcher. *)
Definition handleMessageSend (id : JSValue) (params : option A2A.SendParams)
  : M Response :=
  match validateMessageSendParams params with
  | Some err =>
      ret (json (BRpcError (if truthy id then id else JNull) INVALID_PARAMS
                   "Invalid params" (Some err)))
  | None =>
      let contextId :=
        match params with
        | Some p => A2A.contextId p
        | None => JUndefined
        end in
      let target :=
        match params with Some p => A2A.target p | None => JUndefined end in
      (* validation has checked that [params.message] is an object *)
      let message :=
        match params with
        | Some {| A2A.message := Some m |} => m
        | _ => {| A2A.role := JUndefined; A2A.parts := None |}
        end in
      let ktpPayload := a2aMessageToKtpPayload message contextId in
      taskId <- generateTaskId ;;
      let taskRequest :=
        PTaskRequest taskId "general" ktpPayload None (prefix 8 myPeerIdRaw) in
      signedMsg <- signMessage (JSON_stringify P taskRequest) ;;
      sent <- messageSend_deliver target signedMsg ;;
      match sent with
      | inr e => ret (express_error e)
      | inl (sentCount, targetPeer) =>
      t <- Date_now ;;
      let task :=
        {| Sent.target := or_star targetPeer;
           Sent.status :=
             if 0 <? sentCount then "pending" else "queued_for_retry";
           Sent.payload := ktpPayload;
           Sent.task_type := "general";
           Sent.createdAt := t;
           Sent.deadline := None;
           Sent.attemptCount := None;
           Sent.lastAttemptAt := None;
           Sent.nextRetryTime := None;
           Sent.peerWasOffline := false;
           Sent.failureReason := None;
           Sent.failedAt := None;
           Sent.result := JUndefined;
           Sent.error := JUndefined;
           Sent.completedAt := None;
           Sent.responder := None;
           Sent.contextId :=
             Some (if truthy contextId then contextId else JStr taskId);
           Sent.a2aSource := true |} in
      modify (fun w => set_sentTasks (JSMap.set taskId task (sentTasks w)) w) ;;
      a2aTask <- ktpTaskToA2ATask task taskId "sent" ;;
      ret (json (BRpcTask id a2aTask))
      end
  end.

(** *** Start-up and the event loop *)

(** The state after the module body of [index.js] has run: empty tables,
    the node's own id in the observed-peers set, the default topic
    joined.  [clock0] starts after the reading kept in [startedAt]. *)
Definition boot (clock0 : nat -> Z) (uuids0 : nat -> string) : World :=
  let w0 :=
    {| clock := clock0;
       uuids := uuids0;
       peers := JSMap.empty;
       inbox := [];
       totalUniquePeers := [myPeerId];
       activeTopics := JSMap.empty;
       swarmTopics := [];
       sentTasks := JSMap.empty;
       receivedTasks := JSMap.empty;
       deadLetterTasks := JSMap.empty;
       wire := [] |} in
  snd (joinTopic defaultTopic "" w0).

(** What the event loop can run next.  Closing or erroring sockets, and
    the entropy reaper, which drops random peers, are [EvClose]. *)
Inductive Event :=
| EvConnection (remoteKey : string)
| EvData (remoteKey : string) (frame : option Frame)
| EvClose (remoteKey : string)
| EvTimeoutReaper
| EvRetryReaper
| EvGetInbox
| EvJoin (topic secret : string)
| EvLeave (topic : string)
| EvBroadcast (content : Payload)
| EvTaskRequest (b : TaskRequest.t)
| EvTaskRespond (b : TaskRespond.t)
| EvTasksRetry (task_id : string)
| EvMessageSend (id : JSValue) (params : option A2A.SendParams).

Definition step (e : Event) (w : World) : World :=
  match e with
  | EvConnection k => snd (onConnection k w)
  | EvData k f => snd (onData k f w)
  | EvClose k => snd (cleanupPeer k w)
  | EvTimeoutReaper => snd (timeoutReaper w)
  | EvRetryReaper => snd (retryReaper w)
  | EvGetInbox => snd (getInbox w)
  | EvJoin t s => snd (postJoin t s w)
  | EvLeave t => snd (postLeave t w)
  | EvBroadcast c => snd (postBroadcast c w)
  | EvTaskRequest b => snd (postTaskRequest b w)
  | EvTaskRespond b => snd (postTaskRespond b w)
  | EvTasksRetry i => snd (postTasksRetry i w)
  | EvMessageSend i p => snd (handleMessageSend i p w)
  end.

(** The state after a sequence of events, first event first. *)
Definition run (evs : list Event) (w : World) : World :=
  fold_left (fun w e => step e w) evs w.

End Bridge.

(* ------------------------------------------------------------------ *)
(** ** A small platform to run the model on

    Keys are byte strings, a signature is the key followed by the signed
    bytes, an SPKI export is the twelve-byte Ed25519 header followed by
    the key; the JSON codec knows one-letter tags.  It stands in for Node
    wherever a statement is evaluated on concrete data. *)

Module Toy.

Definition spki_header : bytes :=
  Buffer_from_hex "302a300506032b6570032100".

Definition key : bytes := list_ascii_of_string "0123456789abcdef0123456789abcdef".

Definition import (b : bytes) : option bytes :=
  if bytes_eqb (firstn 12 b) spki_header && (List.length b =? 44)%nat
  then Some (skipn 12 b) else None.

Definition somePayload : TaskPayload :=
  {| description := "x"; context := CtxJson "{}"; priority := "medium" |}.

(** The manifest [{agent_id: 7}]. *)
Definition numbered : Manifest :=
  {| role := JUndefined;
     skills := SkillsOther JUndefined;
     agent_id := JNum 7;
     specs := None |}.

Definition stringify (p : Payload) : string :=
  match p with
  | PNull => "null"
  | PHandshake _ => "H"
  | PTaskRequest task_id _ _ _ _ => "Q" ++ task_id
  | PTaskResponse task_id status _ _ _ =>
      (if String.eqb status "accepted" then "A" else "C") ++ task_id
  | POther json => json
  end.

Definition parse (v : JSValue) : option Payload :=
  match v with
  | JStr (String "Q" id) => Some (PTaskRequest id "general" somePayload None "")
  | JStr (String "A" id) => Some (PTaskResponse id "accepted" JNull JNull "")
  | JStr (String "C" id) => Some (PTaskResponse id "completed" JNull JNull "")
  | JStr "H" => Some (PHandshake None)
  | JStr "N" => Some (PHandshake (Some numbered))
  | JStr "null" => Some PNull
  | JStr s => Some (POther s)
  | _ => None
  end.

Definition platform : Platform :=
  {| PublicKey := bytes;
     PrivateKey := bytes;
     crypto_sign := fun k data => (k ++ data)%list;
     crypto_verify := fun k data sig => Some (bytes_eqb sig (k ++ data)%list);
     createPublicKey := import;
     export_spki := fun k => (spki_header ++ k)%list;
     sha256 := fun b => b;
     JSON_stringify := stringify;
     JSON_parse := parse;
     toLowerCase := toLowerCase_ascii;
     publicKey := key;
     privateKey := key |}.

(** A clock that advances by 100 s between readings, and task ids
    [task-0], [task-1], ... *)
Definition clock0 (n : nat) : Z := 100000 * (Z.of_nat n + 1).
Definition uuids0 (n : nat) : string := "task-" ++ index_text n.

Definition world0 : World := boot platform clock0 uuids0.

End Toy.


(* ------------------------------------------------------------------ *)
(** ** Predicates used in the statements *)

(** Every character of [s] is a hexadecimal digit and they come in
    pairs. *)
Definition is_hex (s : string) : bool :=
  forallb (fun c => match unhex c with Some _ => true | None => false end)
    (list_ascii_of_string s)
  && Nat.even (String.length s).

(** A field that is absent or of a type [Buffer.from] rejects. *)
Definition unusable (v : JSValue) : bool :=
  match Buffer_from v Utf8 with Some _ => false | None => true end.

(** The envelope cannot be decoded into a key, a message and a signature:
    a field is unusable, or the bytes read from [senderKey] are not an
    SPKI-DER key. *)
Definition undecodable (P : Platform) (m : Frame) : bool :=
  unusable (content m) || unusable (senderKey m) || unusable (signature m)
  || match Buffer_from (senderKey m) Hex with
     | Some b =>
         match createPublicKey P b with Some _ => false | None => true end
     | None => true
     end.

(** A [senderKey] or [signature] string with a character that is not a
    hexadecimal digit. *)
Definition non_hex (v : JSValue) : bool :=
  match v with JStr s => negb (is_hex s) | _ => false end.

(** The entry is in a state the retry reaper looks at. *)
Definition retryable (task : Sent.t) : bool :=
  String.eqb (Sent.status task) "queued_for_retry"
  || String.eqb (Sent.status task) "pending".

(** [attemptCount <= maxAttempts] on every entry of a task table, an
    absent count being [0]. *)
Definition attemptsBounded (m : JSMap.t Sent.t) : Prop :=
  forall id task,
    JSMap.get id m = Some task ->
    attemptCount_or_0 task <= RETRY_CONFIG.maxAttempts.


(** Concrete requests and frames on the toy platform. *)
Module Sample.

(** The envelope of ["hello"] signed by the node, with two characters
    that are not hexadecimal digits appended to its signature. *)
Definition tampered : Frame :=
  let e := fst (signMessage Toy.platform "hello" Toy.world0) in
  {| type := type e;
     content := content e;
     senderKey := senderKey e;
     signature :=
       match signature e with JStr s => JStr (s ++ "zz") | v => v end;
     timestamp := timestamp e |}.

(** An envelope without [content]. *)
Definition no_content : Frame :=
  {| type := JUndefined;
     content := JUndefined;
     senderKey := JStr (myPeerId Toy.platform);
     signature := JStr "00";
     timestamp := JNum 0 |}.

(** [{description: 'x', target: <target>, deadline: <deadline>}] *)
Definition request (target : JSValue) (deadline : option Z)
  : TaskRequest.t :=
  {| TaskRequest.task_type := JUndefined;
     TaskRequest.description := JStr "x";
     TaskRequest.context := None;
     TaskRequest.target := target;
     TaskRequest.priority := JUndefined;
     TaskRequest.deadline := deadline |}.

(** The signed handshake of a peer that announces [{agent_id: 7}]. *)
Definition numbered_handshake : Frame :=
  fst (signMessage Toy.platform "N" Toy.world0).


End Sample.


(** The entry [task] of [sentTasks] under [id] has been moved to
    [deadLetterTasks] by [moveToDeadLetter] with the given reason. *)
Definition deadLettered (id : string) (task : Sent.t) (reason : string)
    (w : World) : Prop :=
  JSMap.get id (sentTasks w) = None
  /\ exists failedAt,
       JSMap.get id (deadLetterTasks w) =
         Some (Sent.set_failedAt (Some failedAt)
                 (Sent.set_failureReason (Some reason)
                    (Sent.set_status "failed" task))).


(** Scenarios on the toy platform. *)
Module Scenario.

(** The signed [task_response] with status accepted for [task-0]. *)
Definition accepted_frame : Frame :=
  fst (signMessage Toy.platform
         (JSON_stringify Toy.platform
            (PTaskResponse "task-0" "accepted" JNull JNull ""))
         Toy.world0).

(** A peer connects, a task with deadline 5 is broadcast, the peer
    accepts it. *)
Definition accepted_overdue : World :=
  run Toy.platform
    [EvConnection "00000000peer0001";
     EvTaskRequest (Sample.request JUndefined (Some 5));
     EvData "00000000peer0001" (Some accepted_frame)]
    Toy.world0.

(** A task for an absent peer is submitted; two reaper ticks find nobody. *)
Definition three_attempts : World :=
  run Toy.platform
    [EvTaskRequest (Sample.request (JStr "nobody") None);
     EvRetryReaper; EvRetryReaper]
    Toy.world0.

(** A task for an absent peer is queued, a task with deadline 5 is
    broadcast, then a peer connects and announces [{agent_id: 7}]. *)
Definition overdue_behind_odd_peer : World :=
  run Toy.platform
    [EvTaskRequest (Sample.request (JStr "nobody") None);
     EvTaskRequest (Sample.request JUndefined (Some 5));
     EvConnection "00000000peer0001";
     EvData "00000000peer0001" (Some Sample.numbered_handshake)]
    Toy.world0.

End Scenario.


(** More scenarios on the toy platform. *)
Module Scenario2.

(** [{message: {role: 'user', parts: [{kind: 'text', text: 'Do X'}]}}] *)
Definition send_params : A2A.SendParams :=
  {| A2A.message :=
       Some {| A2A.role := JStr "user";
               A2A.parts :=
                 Some [ {| A2A.kind := JStr "text";
                           A2A.text := JStr "Do X";
                           A2A.data := None;
                           A2A.uri := None;
                           A2A.name := None |} ] |};
     A2A.contextId := JUndefined;
     A2A.target := JUndefined |}.

(** The signed [task_request] with id [t1]. *)
Definition request_frame : Frame :=
  fst (signMessage Toy.platform
         (JSON_stringify Toy.platform
            (PTaskRequest "t1" "general" Toy.somePayload None ""))
         Toy.world0).

(** A peer connects and sends the request [t1]; the local agent completes
    it. *)
Definition completed_t1 : World :=
  run Toy.platform
    [EvConnection "00000000peer0001";
     EvData "00000000peer0001" (Some request_frame);
     EvTaskRespond {| TaskRespond.task_id := "t1";
                      TaskRespond.status := "completed";
                      TaskRespond.result := JStr "done";
                      TaskRespond.error := JUndefined |}]
    Toy.world0.

End Scenario2.


(* ------------------------------------------------------------------ *)
(** ** Further parts of the control plane *)

(** [s.split(sep)] for a one-character separator. *)
Fixpoint split_on (sep : ascii) (s : string) : list string :=
  match s with
  | EmptyString => [EmptyString]
  | String c r =>
      if Ascii.eqb c sep then EmptyString :: split_on sep r
      else
        match split_on sep r with
        | h :: t => String c h :: t
        | [] => [String c EmptyString]
        end
  end.

(** [hay.includes(needle)] *)
Fixpoint str_includes (needle hay : string) : bool :=
  String.prefix needle hay
  || match hay with
     | EmptyString => false
     | String _ r => str_includes needle r
     end.

(** What [requireAuth] does with a request: call [next()], answer with a
    status code and [{error, message}], or raise. *)
Inductive AuthResult :=
| AuthNext
| AuthReject (code : Z) (error message : string)
| AuthThrow (e : Exn).

(** [requireAuth], given the configured [API_KEY] (empty when unset) and
    the [authorization] header (absent or a string).  The token is
    compared by [crypto.timingSafeEqual], which raises a [RangeError] when
    its two buffers differ in byte length; the guard before it compares
    the lengths in UTF-16 code units. *)
Definition requireAuth (P : Platform) (API_KEY : string)
    (authorization : option string) : AuthResult :=
  if String.eqb API_KEY "" then AuthNext
  else
    match authorization with
    | None => AuthReject 401 "Unauthorized" "Bearer token required"
    | Some authHeader =>
        if String.eqb authHeader ""
        then AuthReject 401 "Unauthorized" "Bearer token required"
        else
          let fields := split_on " " authHeader in
          let type := nth 0 fields "" in
          match nth_error fields 1 with
          | None =>
              AuthReject 401 "Unauthorized" "Invalid authorization format"
          | Some token =>
              if negb (String.eqb (toLowerCase P type) "bearer")
                 || String.eqb token ""
              then AuthReject 401 "Unauthorized"
                     "Invalid authorization format"
              else if negb (js_length token =? js_length API_KEY)%nat
              then AuthReject 403 "Forbidden" "Invalid API key"
              else if negb (String.length token =? String.length API_KEY)%nat
              then AuthThrow RangeError
              else if negb (String.eqb token API_KEY)
              then AuthReject 403 "Forbidden" "Invalid API key"
              else AuthNext
          end
    end.

(** One element of [matches] in the answer of [/capabilities/search]. *)
Record CapabilityMatch := {
  peer_id : string;
  full_id : string;
  match_agent_id : JSValue;
  match_role : JSValue;
  match_skills : Skills
}.

(** [manifest.skills || []] and [manifest.role || ''] of
    [peer.manifest || {}] *)
Definition peerSkills_of (m : option Manifest) : Skills :=
  match m with
  | Some mf =>
      match skills mf with
      | SkillsOther v => if truthy v then SkillsOther v else SkillsArray []
      | SkillsArray l => SkillsArray l
      end
  | None => SkillsArray []
  end.

Definition peerRole_of (m : option Manifest) : JSValue :=
  match m with
  | Some mf => if truthy (role mf) then role mf else JStr ""
  | None => JStr ""
  end.

(** [l.some(test)] for a test that can raise ([None]). *)
Fixpoint some (test : JSValue -> option bool) (l : list JSValue)
  : option bool :=
  match l with
  | [] => Some false
  | x :: r =>
      match test x with
      | None => None
      | Some true => Some true
      | Some false => some test r
      end
  end.

(** [hay.toLowerCase().includes(needle.toLowerCase())]: a [TypeError] when
    [hay], then when [needle], is not a string. *)
Definition includes_folded (P : Platform) (needle hay : JSValue)
  : option bool :=
  match hay, needle with
  | JStr h, JStr n => Some (str_includes (toLowerCase P n) (toLowerCase P h))
  | _, _ => None
  end.

(** [skill && peerSkills.some(s => ...)]; [peerSkills.some] is not a
    function when [peerSkills] is not an array. *)
Definition bySkill (P : Platform) (skill : JSValue) (peerSkills : Skills)
  : option bool :=
  if truthy skill then
    match peerSkills with
    | SkillsArray l => some (includes_folded P skill) l
    | SkillsOther _ => None
    end
  else Some false.

(** [role && peerRole.toLowerCase().includes(role.toLowerCase())] *)
Definition byRole (P : Platform) (wanted : JSValue) (peerRole : JSValue)
  : option bool :=
  if truthy wanted then includes_folded P wanted peerRole else Some false.

(** The loop body of [GET /capabilities/search]: the entry pushed for a
    peer, if any; [None] when the body raises.  [skill] and [wanted] are
    the query parameters [skill] and [role]: a string, [JUndefined] when
    absent, an object when the query repeats or nests the parameter. *)
Definition capabilityMatch (P : Platform) (skill wanted : JSValue)
    (kp : string * Peer) : option (option CapabilityMatch) :=
  let key := fst kp in
  let peerSkills := peerSkills_of (manifest (snd kp)) in
  let peerRole := peerRole_of (manifest (snd kp)) in
  match bySkill P skill peerSkills with
  | None => None
  | Some m1 =>
      match byRole P wanted peerRole with
      | None => None
      | Some m2 =>
          Some
            (if m1 || m2 || (negb (truthy skill) && negb (truthy wanted))
             then Some {| peer_id := slice_last8 key;
                          full_id := key;
                          match_agent_id :=
                            (let a := agent_id_of (manifest (snd kp)) in
                             if truthy a then a else JStr "Anonymous");
                          match_role :=
                            if truthy peerRole then peerRole
                            else JStr "Unknown";
                          match_skills := peerSkills |}
             else None)
      end
  end.

(** The loop over [peers.entries()]: the matches in table order, or
    [None] when an iteration raises. *)
Fixpoint capabilityMatches (P : Platform) (skill wanted : JSValue)
    (ps : JSMap.t Peer) : option (list CapabilityMatch) :=
  match ps with
  | [] => Some []
  | kp :: r =>
      match capabilityMatch P skill wanted kp with
      | None => None
      | Some here =>
          match capabilityMatches P skill wanted r with
          | None => None
          | Some rest =>
              Some match here with
                   | Some m => m :: rest
                   | None => rest
                   end
          end
      end
  end.

(** [GET /capabilities/search]: [count] and [matches], or the exception
    that Express answers with 500. *)
Definition capabilitiesSearch (P : Platform) (skill wanted : JSValue)
    (w : World) : Exn + Z * list CapabilityMatch :=
  match capabilityMatches P skill wanted (peers w) with
  | Some matches => inr (Z.of_nat (List.length matches), matches)
  | None => inl TypeError
  end.

(** Every connected peer has announced a manifest of the documented
    types, or none: [agent_id] absent or a string, [role] absent (or
    otherwise falsy) or a string, [skills] absent or an array of strings. *)
Definition agentIdTyped (p : Peer) : bool :=
  match agent_id_of (manifest p) with
  | JUndefined | JNull | JStr _ => true
  | _ => false
  end.

Definition agentIdsTyped (ps : JSMap.t Peer) : bool :=
  forallb (fun kp => agentIdTyped (snd kp)) ps.

Definition manifestTyped (p : Peer) : bool :=
  agentIdTyped p
  && is_string (peerRole_of (manifest p))
  && match peerSkills_of (manifest p) with
     | SkillsArray l => forallb is_string l
     | SkillsOther _ => false
     end.

(** The task tables are consistent with the stream of task ids: the ids
    still to be generated are distinct and in neither table, and no id is
    in both [sentTasks] and [deadLetterTasks]. *)
Definition tablesConsistent (u : nat -> string) (sent dead : JSMap.t Sent.t)
  : Prop :=
  (forall n m, u n = u m -> n = m)
  /\ (forall n, JSMap.get (u n) sent = None /\ JSMap.get (u n) dead = None)
  /\ (forall id, JSMap.get id sent <> None -> JSMap.get id dead = None).

Definition tasksConsistent (w : World) : Prop :=
  tablesConsistent (uuids w) (sentTasks w) (deadLetterTasks w).


(** Events that change which peers are connected, and reaper ticks. *)
Definition presenceOrTick (e : Event) : bool :=
  match e with
  | EvConnection _ | EvClose _ | EvTimeoutReaper | EvRetryReaper => true
  | _ => false
  end.


(** What the timeout reaper makes of a peer entry at time [now]. *)
Definition keepFresh (now : Z) (entry : option Peer) : option Peer :=
  match entry with
  | Some p => if 10000 <? now - lastSeen p then None else Some p
  | None => None
  end.


(** The statuses [POST /task/respond] accepts. *)
Definition validStatuses : list string :=
  ["accepted"; "rejected"; "in_progress"; "completed"; "failed"].

(** [v !== undefined ? v : old] *)
Definition or_old (v old : JSValue) : JSValue :=
  match v with JUndefined => old | _ => v end.

(** [v !== undefined ? v : null] *)
Definition or_JNull (v : JSValue) : JSValue :=
  match v with JUndefined => JNull | _ => v end.


(** The string has no space character. *)
Definition no_space (s : string) : bool :=
  forallb (fun c => negb (Ascii.eqb c " ")) (list_ascii_of_string s).


(** A message part that [validateMessageSendParams] accepts: its kind is
    a non-empty string, and a part of kind text has a string as text. *)
Definition partOk (part : A2A.Part) : Prop :=
  exists k, A2A.kind part = JStr k /\ k <> ""
            /\ (k = "text" -> exists t, A2A.text part = JStr t).

(** The texts that make up the description: the non-empty texts of the
    parts of kind text, in order. *)
Definition textsOf (parts : list A2A.Part) : list string :=
  flat_map textOf parts.

(* ================================================================== *)
(** * Properties *)

(** ** Map and buffer facts *)

Module JSMapFacts.
Import JSMap.

Section Facts.
Variable V : Type.
Implicit Types (m : JSMap.t V) (k : string) (v : V).

Lemma get_set_eq k v m : get k (set k v m) = Some v.
Proof.
  induction m as [|[k' v'] r IH]; simpl.
  - now rewrite String.eqb_refl.
  - destruct (String.eqb k k') eqn:E; simpl.
    + now rewrite String.eqb_refl.
    + now rewrite E.
Qed.

Lemma get_set_ne k k' v m : k <> k' -> get k (set k' v m) = get k m.
Proof.
  intros Hne. induction m as [|[k0 v0] r IH]; simpl.
  - destruct (String.eqb_spec k k'); congruence.
  - destruct (String.eqb_spec k' k0) as [->|Hn]; simpl.
    + destruct (String.eqb_spec k k0); congruence.
    + destruct (String.eqb_spec k k0); congruence.
Qed.

Lemma get_delete_eq k m : get k (delete k m) = None.
Proof.
  induction m as [|[k' v'] r IH]; simpl; auto.
  destruct (String.eqb k k') eqn:E; simpl; auto.
  now rewrite E.
Qed.

Lemma get_delete_ne k k' m : k <> k' -> get k (delete k' m) = get k m.
Proof.
  intros Hne. induction m as [|[k0 v0] r IH]; simpl; auto.
  destruct (String.eqb_spec k' k0) as [->|Hn]; simpl.
  - destruct (String.eqb_spec k k0); congruence.
  - destruct (String.eqb_spec k k0); congruence.
Qed.

Lemma get_set k k' v m :
  get k (set k' v m) = if String.eqb k k' then Some v else get k m.
Proof.
  destruct (String.eqb_spec k k') as [->|Hne].
  - apply get_set_eq.
  - now apply get_set_ne.
Qed.

Lemma get_delete k k' m :
  get k (delete k' m) = if String.eqb k k' then None else get k m.
Proof.
  destruct (String.eqb_spec k k') as [->|Hne].
  - apply get_delete_eq.
  - now apply get_delete_ne.
Qed.

Lemma get_In_keys k v m : get k m = Some v -> In k (keys m).
Proof.
  induction m as [|[k' v'] r IH]; simpl; [discriminate|].
  destruct (String.eqb_spec k k') as [->|Hne]; auto.
Qed.
End Facts.

End JSMapFacts.

Lemma hex_byte_roundtrip (c : ascii) :
  match unhex (hex_digit (N_of_ascii c / 16)),
        unhex (hex_digit (N_of_ascii c mod 16)) with
  | Some x, Some y => ascii_of_N (16 * x + y) = c
  | _, _ => False
  end.
Proof.
  destruct c as [[] [] [] [] [] [] [] []]; vm_compute; reflexivity.
Qed.

Lemma Buffer_from_hex_toString (b : bytes) :
  Buffer_from_hex (toString_hex b) = b.
Proof.
  induction b as [|c r IH]; [reflexivity|].
  cbn [toString_hex Buffer_from_hex].
  pose proof (hex_byte_roundtrip c) as H.
  destruct (unhex (hex_digit (N_of_ascii c / 16))); [|contradiction].
  destruct (unhex (hex_digit (N_of_ascii c mod 16))); [|contradiction].
  now rewrite H, IH.
Qed.

(** Characters after a complete hexadecimal prefix are ignored when the
    first of them is not a hexadecimal digit. *)
Lemma Buffer_from_hex_app_garbage (b : bytes) (g : ascii) (rest : string) :
  unhex g = None ->
  Buffer_from_hex (toString_hex b ++ String g rest) = b.
Proof.
  intros Hg. induction b as [|c r IH].
  - simpl. destruct rest; [reflexivity|]. now rewrite Hg.
  - cbn [toString_hex Buffer_from_hex append].
    pose proof (hex_byte_roundtrip c) as H.
    destruct (unhex (hex_digit (N_of_ascii c / 16))); [|contradiction].
    destruct (unhex (hex_digit (N_of_ascii c mod 16))); [|contradiction].
    now rewrite H, IH.
Qed.

Lemma bytes_eqb_refl (b : bytes) : bytes_eqb b b = true.
Proof. unfold bytes_eqb. apply String.eqb_refl. Qed.

Lemma toy_keypair_ok : KeyPairOk Toy.platform.
Proof.
  split.
  - intros data. simpl. now rewrite bytes_eqb_refl.
  - reflexivity.
Qed.

(** ** Envelope *)

Lemma verifyMessage_strings (P : Platform) (m : Frame) (c k sg : string) :
  content m = JStr c -> senderKey m = JStr k -> signature m = JStr sg ->
  verifyMessage P m =
    match createPublicKey P (Buffer_from_hex k) with
    | Some key =>
        match crypto_verify P key (list_ascii_of_string c)
                (Buffer_from_hex sg) with
        | Some b => b
        | None => false
        end
    | None => false
    end.
Proof.
  intros Hc Hk Hs. unfold verifyMessage, verifyMessage_try.
  rewrite Hc, Hk, Hs. simpl.
  destruct (createPublicKey P (Buffer_from_hex k)); reflexivity.
Qed.

(** C1.  Signature round trip: the envelope that [signMessage] builds for
    a payload string [s] carries [s] verbatim as its [content] and the
    node's id as its [senderKey], and [verifyMessage] accepts it; and
    [verifyMessage] on string fields is the signature check of the UTF-8
    bytes of [content] under the key decoded from [senderKey]. *)
Theorem sign_verify_roundtrip (P : Platform) (HP : KeyPairOk P)
    (s : string) (w : World) :
  let envelope := fst (signMessage P s w) in
  content envelope = JStr s
  /\ senderKey envelope = JStr (myPeerId P)
  /\ verifyMessage P envelope = true
  /\ (forall m c k sg,
        content m = JStr c -> senderKey m = JStr k -> signature m = JStr sg ->
        verifyMessage P m =
          match createPublicKey P (Buffer_from_hex k) with
          | Some key =>
              match crypto_verify P key (list_ascii_of_string c)
                      (Buffer_from_hex sg) with
              | Some b => b
              | None => false
              end
          | None => false
          end).
Proof.
  cbn. repeat split.
  - erewrite verifyMessage_strings by reflexivity.
    unfold myPeerId. rewrite !Buffer_from_hex_toString.
    now rewrite (spki_import HP), (sign_verify HP).
  - intros. now apply verifyMessage_strings.
Qed.

Lemma sign_verify_roundtrip_witness :
  KeyPairOk Toy.platform
  /\ verifyMessage Toy.platform
       (fst (signMessage Toy.platform "hello" Toy.world0)) = true.
Proof.
  split; [exact toy_keypair_ok|].
  apply (sign_verify_roundtrip toy_keypair_ok "hello" Toy.world0).
Defined.

(** Whatever the platform, garbage appended to the hexadecimal signature of
    a signed envelope is not seen by [verifyMessage]. *)
Lemma verifyMessage_ignores_trailing_garbage (P : Platform)
    (HP : KeyPairOk P) (s : string) (w : World) (g : ascii) (rest : string) :
  unhex g = None ->
  let e := fst (signMessage P s w) in
  forall m sg,
    content m = content e -> senderKey m = senderKey e ->
    signature e = JStr sg -> signature m = JStr (sg ++ String g rest) ->
    verifyMessage P m = true.
Proof.
  intros Hg e m sg Hc Hk He Hs. cbn in Hc, Hk, He.
  injection He as <-.
  erewrite verifyMessage_strings by eassumption.
  unfold myPeerId. rewrite Buffer_from_hex_toString.
  rewrite Buffer_from_hex_app_garbage by assumption.
  now rewrite (spki_import HP), (sign_verify HP).
Qed.

(** C10 as stated fails: an envelope whose signature is not a hexadecimal
    string is accepted. *)
Lemma verifyMessage_accepts_non_hex_signature :
  ~ (forall m : Frame,
       undecodable Toy.platform m || non_hex (senderKey m)
       || non_hex (signature m) = true ->
       verifyMessage Toy.platform m = false).
Proof.
  intros H. specialize (H Sample.tampered).
  assert (Ht : verifyMessage Toy.platform Sample.tampered = true)
    by (vm_compute; reflexivity).
  rewrite H in Ht; [discriminate|].
  vm_compute; reflexivity.
Qed.

(** C10, amended.  [verifyMessage] returns a boolean on every record and
    never throws: when a field is absent or of a type [Buffer.from]
    rejects, or when the bytes decoded from [senderKey] are not an
    SPKI-DER key, the [try] block raises and the result is [false]. *)
Theorem verifyMessage_rejects_undecodable (P : Platform) (m : Frame) :
  undecodable P m = true ->
  verifyMessage_try P m = None /\ verifyMessage P m = false.
Proof.
  unfold undecodable, unusable, verifyMessage, verifyMessage_try.
  intros H.
  destruct (Buffer_from (senderKey m) Hex) as [kb|] eqn:Hk; [|now split].
  destruct (createPublicKey P kb) as [key|]; [|now split].
  destruct (content m) as [| | | | c | [cb|]]; simpl; try now split.
  - destruct (signature m) as [| | | | sg | [sb|]]; simpl; try now split.
    + destruct (senderKey m) as [| | | | k | [kb'|]]; discriminate.
    + destruct (senderKey m) as [| | | | k | [kb'|]]; discriminate.
  - destruct (signature m) as [| | | | sg | [sb|]]; simpl; try now split.
    + destruct (senderKey m) as [| | | | k | [kb'|]]; discriminate.
    + destruct (senderKey m) as [| | | | k | [kb'|]]; discriminate.
Qed.

Lemma verifyMessage_rejects_undecodable_witness :
  undecodable Toy.platform Sample.no_content = true
  /\ verifyMessage Toy.platform Sample.no_content = false.
Proof.
  split; [reflexivity|].
  apply (verifyMessage_rejects_undecodable Toy.platform Sample.no_content).
  reflexivity.
Defined.

(** ** Control plane *)

(** C7.  Reading the inbox drains it: a read returns the buffered
    messages, each once and in order, and leaves the inbox empty; a second
    read with no arrival in between returns zero messages. *)
Theorem inbox_read_drains (w : World) :
  let r1 := fst (getInbox w) in
  let w1 := snd (getInbox w) in
  let r2 := fst (getInbox w1) in
  let w2 := snd (getInbox w1) in
  r1 = json (BInbox (Z.of_nat (List.length (inbox w))) (inbox w))
  /\ inbox w1 = []
  /\ r2 = json (BInbox 0 [])
  /\ inbox w2 = [].
Proof. cbn. repeat split. Qed.

(** C8 fails on the code: [leaveTopic] has no guard for the default
    topic.  After start-up, when ['agent-zero-swarm-poc'] is joined,
    [leaveTopic] returns [true] for it, [POST /leave] answers 200 with
    [{status:'left'}], the topic is gone from [activeTopics] and its hash
    is no longer announced on the swarm. *)
Theorem leave_default_topic_succeeds (P : Platform) (c : nat -> Z)
    (u : nat -> string) :
  let w := boot P c u in
  defaultTopic = "agent-zero-swarm-poc"
  /\ JSMap.has defaultTopic (activeTopics w) = true
  /\ fst (leaveTopic defaultTopic w) = true
  /\ fst (postLeave defaultTopic w) = json (BLeft defaultTopic)
  /\ JSMap.has defaultTopic (activeTopics (snd (postLeave defaultTopic w)))
     = false
  /\ swarmTopics (snd (postLeave defaultTopic w)) = [].
Proof.
  cbn. rewrite bytes_eqb_refl. repeat split.
Qed.

(** ** Task submission *)


Lemma exponentialBackoff_1 : exponentialBackoff 1 = 10000.
Proof. reflexivity. Qed.



(** ** The retry reaper *)

Lemma forEach_preserves {A} (I : World -> Prop) (body : A -> M unit)
    (l : list A) :
  (forall x w, I w -> I (snd (body x w))) ->
  forall w, I w -> I (snd (forEach l body w)).
Proof.
  intros Hb. induction l as [|x r IH]; intros w Hw; cbn.
  - exact Hw.
  - unfold bind. specialize (Hb x w Hw).
    destruct (body x w) as [u w1]. now apply IH.
Qed.

(** What every iteration keeps, a loop keeps, however it ends. *)
Lemma forEachC_preserves {A} (I : World -> Prop) (body : A -> M Completion)
    (l : list A) :
  (forall x w, I w -> I (snd (body x w))) ->
  forall w, I w -> I (snd (forEachC l body w)).
Proof.
  intros Hb. induction l as [|x r IH]; intros w Hw; cbn.
  - exact Hw.
  - unfold bind. specialize (Hb x w Hw).
    destruct (body x w) as [[|e] w1]; [now apply IH|exact Hb].
Qed.

Ltac run_monad :=
  unfold moveToDeadLetter, queueTaskForRetry, signMessage, socket_write,
    inbox_push, bind, gets, modify, Date_now, generateTaskId, ret;
  cbn.

(** The steps of [retryTask] up to the peer search. *)
Ltac retryTask_cases x task w :=
  unfold retryTask; run_monad;
  destruct (JSMap.get x (sentTasks w)) as [task|] eqn:?;
    [destruct (negb (Sent.status task =? "queued_for_retry")%string
               && negb (Sent.status task =? "pending")%string) eqn:?;
       [|destruct (deadlinePassed task _) eqn:?;
           [|destruct (negb (Sent.status task =? "queued_for_retry")%string)
               eqn:?;
               [|destruct (notReady task _) eqn:?;
                   [|destruct (findPeer (reaperMatches _ (Sent.target task))
                                (peers w)) as [kp| |exn] eqn:?;
                       [| destruct (attemptsExhausted task) eqn:? |]]]]]
    |]; cbn.

(** An iteration on another key leaves the tables alone at [id], and no
    iteration touches the peer table. *)
Lemma retryTask_frame (P : Platform) (now : Z) (x id : string) (w : World) :
  let w' := snd (retryTask P now x w) in
  peers w' = peers w
  /\ (x <> id ->
      JSMap.get id (sentTasks w') = JSMap.get id (sentTasks w)
      /\ JSMap.get id (deadLetterTasks w') = JSMap.get id (deadLetterTasks w)).
Proof.
  retryTask_cases x task w; (split; [reflexivity|]); intros Hne;
    rewrite ?JSMapFacts.get_delete_ne, ?JSMapFacts.get_set_ne by congruence;
    now split.
Qed.

Lemma retryTask_absent (P : Platform) (now : Z) (id : string) (w : World) :
  JSMap.get id (sentTasks w) = None -> snd (retryTask P now id w) = w.
Proof. intros H. unfold retryTask, bind, gets. cbn. now rewrite H. Qed.

Lemma deadLettered_stable (P : Platform) (now : Z) (id : string)
    (task : Sent.t) (reason : string) (x : string) (w : World) :
  deadLettered id task reason w ->
  deadLettered id task reason (snd (retryTask P now x w)).
Proof.
  intros [Hs Hd]. destruct (String.eqb_spec x id) as [->|Hne].
  - rewrite retryTask_absent by assumption. now split.
  - destruct (retryTask_frame P now x id w) as [_ Hf].
    destruct (Hf Hne) as [Hf1 Hf2]. unfold deadLettered.
    now rewrite Hf1, Hf2.
Qed.

(** A pass over keys that include [id], when it runs to its end,
    dead-letters the entry when the iteration on [id] does, whatever the
    iterations before it did to the other entries. *)
Lemma retry_pass_deadLetters (P : Platform) (now : Z) (id : string)
    (task : Sent.t) (reason : string) (ps : JSMap.t Peer) (l : list string) :
  (forall w, JSMap.get id (sentTasks w) = Some task -> peers w = ps ->
             deadLettered id task reason (snd (retryTask P now id w))) ->
  In id l ->
  forall w, JSMap.get id (sentTasks w) = Some task -> peers w = ps ->
            fst (forEachC l (retryTask P now) w) = Normal ->
            deadLettered id task reason (snd (forEachC l (retryTask P now) w)).
Proof.
  intros Hstep. induction l as [|x r IH]; intros Hin w Hget Hps.
  - destruct Hin.
  - cbn. unfold bind.
    destruct (String.eqb_spec x id) as [->|Hne].
    + specialize (Hstep w Hget Hps).
      destruct (retryTask P now id w) as [[|e] w1]; cbn in Hstep;
        [|discriminate].
      intros _. apply forEachC_preserves; [|assumption].
      intros y w2. apply deadLettered_stable.
    + destruct (retryTask_frame P now x id w) as [Hp Hf].
      destruct (Hf Hne) as [Hf1 _].
      destruct (retryTask P now x w) as [[|e] w1]; cbn in Hp, Hf1;
        [|discriminate].
      apply IH.
      * destruct Hin; [contradiction|assumption].
      * congruence.
      * congruence.
Qed.

(** Whether or not the pass runs to its end, the entry is dead-lettered
    when its iteration does that, or else is as it was. *)
Lemma retry_pass_deadLetters_or_not (P : Platform) (now : Z) (id : string)
    (task : Sent.t) (reason : string) (dead : option Sent.t)
    (l : list string) :
  (forall w, JSMap.get id (sentTasks w) = Some task ->
             deadLettered id task reason (snd (retryTask P now id w))) ->
  forall w, JSMap.get id (sentTasks w) = Some task ->
            JSMap.get id (deadLetterTasks w) = dead ->
            let w' := snd (forEachC l (retryTask P now) w) in
            deadLettered id task reason w'
            \/ (JSMap.get id (sentTasks w') = Some task
                /\ JSMap.get id (deadLetterTasks w') = dead).
Proof.
  intros Hstep w Hget Hdead.
  pose (I := fun w1 : World =>
               deadLettered id task reason w1
               \/ (JSMap.get id (sentTasks w1) = Some task
                   /\ JSMap.get id (deadLetterTasks w1) = dead)).
  apply (@forEachC_preserves _ I); [|now right].
  intros x w1 [H|[H1 H2]]; unfold I.
  - left. now apply deadLettered_stable.
  - destruct (String.eqb_spec x id) as [->|Hne].
    + left. now apply Hstep.
    + right. destruct (retryTask_frame P now x id w1) as [_ Hf].
      destruct (Hf Hne) as [Hf1 Hf2]. now rewrite Hf1, Hf2.
Qed.

Lemma retryTask_deadline (P : Platform) (now : Z) (id : string)
    (task : Sent.t) (w : World) :
  JSMap.get id (sentTasks w) = Some task ->
  retryable task = true -> deadlinePassed task now = true ->
  deadLettered id task "Deadline exceeded" (snd (retryTask P now id w)).
Proof.
  intros Hget Hr Hd. unfold retryTask. run_monad. rewrite Hget.
  unfold retryable in Hr.
  destruct (Sent.status task =? "queued_for_retry")%string;
    destruct (Sent.status task =? "pending")%string; try discriminate;
    cbn; rewrite Hd; cbn;
    (split; [apply JSMapFacts.get_delete_eq
            | eexists; apply JSMapFacts.get_set_eq]).
Qed.

Lemma retryTask_skips (P : Platform) (now : Z) (id : string)
    (task : Sent.t) (w : World) :
  JSMap.get id (sentTasks w) = Some task ->
  retryable task = false ->
  snd (retryTask P now id w) = w.
Proof.
  intros Hget Hr. unfold retryTask. run_monad. rewrite Hget.
  unfold retryable in Hr.
  destruct (Sent.status task =? "queued_for_retry")%string;
    destruct (Sent.status task =? "pending")%string; try discriminate.
  reflexivity.
Qed.

Lemma retryReaper_unfold (P : Platform) (w : World) :
  retryReaper P w =
    forEachC (JSMap.keys (sentTasks w)) (retryTask P (clock w 0%nat))
      (set_clock (fun n => clock w (S n)) w).
Proof. reflexivity. Qed.

Lemma agentIdMatches_typed (P : Platform) (target : string) (p : Peer) :
  agentIdTyped p = true ->
  agentIdMatches P (manifest p) target <> None.
Proof.
  unfold agentIdTyped, agentIdMatches.
  destruct (agent_id_of (manifest p)); cbn; discriminate.
Qed.

(** A search whose test raises on no entry does not raise. *)
Lemma findPeer_total (test : string * Peer -> option bool)
    (ps : JSMap.t Peer) (e : Exn) :
  (forall kp, In kp ps -> test kp <> None) ->
  findPeer test ps <> Threw e.
Proof.
  induction ps as [|kp r IH]; intros H; cbn; [discriminate|].
  pose proof (H kp (or_introl eq_refl)) as Hk.
  destruct (test kp) as [[|]|]; [discriminate| |contradiction].
  apply IH. intros kp' Hin. apply H. now right.
Qed.

(** The peer search does not raise when every connected peer has
    announced a string as agent_id, or none. *)
Lemma findPeer_typed (P : Platform) (target : string) (ps : JSMap.t Peer)
    (e : Exn) :
  agentIdsTyped ps = true ->
  findPeer (reaperMatches P target) ps <> Threw e
  /\ findPeer (requestMatches P target) ps <> Threw e.
Proof.
  unfold agentIdsTyped. rewrite forallb_forall. intros H.
  split; apply findPeer_total; intros [k p] Hin;
    specialize (H _ Hin); cbn in H;
    unfold reaperMatches, requestMatches; cbn [fst snd];
    match goal with
    | |- context [if ?c then _ else _] => destruct c
    end; try discriminate; now apply agentIdMatches_typed.
Qed.

(** So a tick over such peers runs to its end. *)
Lemma retry_pass_completes (P : Platform) (now : Z) (l : list string) :
  forall w, agentIdsTyped (peers w) = true ->
            fst (forEachC l (retryTask P now) w) = Normal.
Proof.
  induction l as [|x r IH]; intros w H; cbn; [reflexivity|].
  unfold bind.
  destruct (retryTask_frame P now x x w) as [Hp _].
  assert (Hc : fst (retryTask P now x w) = Normal).
  { retryTask_cases x task w; try reflexivity.
    destruct (@findPeer_typed P (Sent.target task) _ exn H) as [Hn _].
    contradiction. }
  destruct (retryTask P now x w) as [c w1]. cbn in Hp, Hc. subst c.
  apply IH. now rewrite Hp.
Qed.

(** C3 as stated fails: an accepted task whose deadline has passed is
    left in [sentTasks] by the reaper and does not reach the dead-letter
    table; and a pending task whose deadline has passed is left there by
    a tick that is cut short before it, the peer search for an earlier
    task having raised on a peer that announced the agent_id [7]. *)
Lemma retry_reaper_skips_accepted_overdue :
  (let w := Scenario.accepted_overdue in
   let w' := snd (retryReaper Toy.platform w) in
   option_map Sent.status (JSMap.get "task-0" (sentTasks w))
   = Some "accepted"
   /\ option_map Sent.deadline (JSMap.get "task-0" (sentTasks w))
      = Some (Some 5)
   /\ 5 < clock w 0%nat
   /\ JSMap.get "task-0" (sentTasks w') = JSMap.get "task-0" (sentTasks w)
   /\ JSMap.get "task-0" (deadLetterTasks w') = None)
  /\ (let w := Scenario.overdue_behind_odd_peer in
      let w' := snd (retryReaper Toy.platform w) in
      JSMap.keys (sentTasks w) = ["task-0"; "task-1"]
      /\ option_map Sent.status (JSMap.get "task-1" (sentTasks w))
         = Some "pending"
      /\ option_map Sent.deadline (JSMap.get "task-1" (sentTasks w))
         = Some (Some 5)
      /\ 5 < clock w 0%nat
      /\ fst (retryReaper Toy.platform w) = Abrupt TypeError
      /\ JSMap.get "task-1" (sentTasks w') = JSMap.get "task-1" (sentTasks w)
      /\ JSMap.get "task-1" (deadLetterTasks w') = None).
Proof. vm_compute. repeat split. Qed.

(** C3, amended.  A sent task whose status is pending or queued_for_retry
    and whose deadline is a non-zero time earlier than the tick's reading
    of the clock is moved to the dead-letter table by a tick that runs to
    its end: it leaves [sentTasks] and its entry, otherwise unchanged,
    has status failed, failureReason "Deadline exceeded" and a [failedAt],
    whatever its attemptCount.  A tick that is cut short by an exception
    has either done the same or left the task as it was.  A tick runs to
    its end whenever every connected peer has announced a string as
    agent_id, or none.  A task in any other status, accepted and
    in_progress included, is skipped by every tick: it stays in
    [sentTasks] unchanged. *)
Theorem retry_reaper_deadline (P : Platform) (w : World) (id : string)
    (task : Sent.t) :
  JSMap.get id (sentTasks w) = Some task ->
  let now := clock w 0%nat in
  let w' := snd (retryReaper P w) in
  (retryable task = true ->
   forall d, Sent.deadline task = Some d -> d <> 0 -> d < now ->
     (fst (retryReaper P w) = Normal ->
      deadLettered id task "Deadline exceeded" w'
      /\ exists dead,
           JSMap.get id (deadLetterTasks w') = Some dead
           /\ Sent.status dead = "failed"
           /\ Sent.failureReason dead = Some "Deadline exceeded"
           /\ Sent.attemptCount dead = Sent.attemptCount task)
     /\ (deadLettered id task "Deadline exceeded" w'
         \/ (JSMap.get id (sentTasks w') = Some task
             /\ JSMap.get id (deadLetterTasks w')
                = JSMap.get id (deadLetterTasks w))))
  /\ (retryable task = false ->
      JSMap.get id (sentTasks w') = Some task
      /\ JSMap.get id (deadLetterTasks w') = JSMap.get id (deadLetterTasks w))
  /\ (agentIdsTyped (peers w) = true -> fst (retryReaper P w) = Normal).
Proof.
  intros Hget now w'. subst w'. rewrite retryReaper_unfold.
  remember (clock w 0%nat) as t0 eqn:Et0. subst now. split; [|split].
  - intros Hr d Hd Hnz Hlt.
    assert (Hp : deadlinePassed task t0 = true).
    { unfold deadlinePassed. rewrite Hd.
      apply andb_true_intro. split.
      - apply negb_true_iff, Z.eqb_neq, Hnz.
      - apply Z.ltb_lt, Hlt. }
    split.
    + intros Hc.
      assert (Hdl : deadLettered id task "Deadline exceeded"
                      (snd (forEachC (JSMap.keys (sentTasks w))
                              (retryTask P t0)
                              (set_clock (fun n => clock w (S n)) w)))).
      { apply (@retry_pass_deadLetters P t0 id task "Deadline exceeded"
                 (peers w)); try assumption; try reflexivity.
        - intros w1 H1 _. now apply retryTask_deadline.
        - eapply JSMapFacts.get_In_keys; eassumption. }
      split; [exact Hdl|]. destruct Hdl as [_ [t Hdl]].
      eexists. split; [eassumption|]. now cbn.
    + apply retry_pass_deadLetters_or_not; try assumption; try reflexivity.
      intros w1 H1. now apply retryTask_deadline.
  - intros Hr.
    pose (I := fun w1 : World =>
                 JSMap.get id (sentTasks w1) = Some task
                 /\ JSMap.get id (deadLetterTasks w1)
                    = JSMap.get id (deadLetterTasks w)).
    apply (@forEachC_preserves _ I); [|now split].
    intros x w1 [H1 H2]. unfold I.
    destruct (String.eqb_spec x id) as [->|Hne].
    + rewrite retryTask_skips with (task := task); auto.
    + destruct (retryTask_frame P t0 x id w1) as [_ Hf].
      destruct (Hf Hne) as [Hf1 Hf2]. rewrite Hf1, Hf2. now split.
  - intros Ht. now apply retry_pass_completes.
Qed.

Lemma retry_reaper_deadline_witness :
  let w := run Toy.platform
             [EvTaskRequest (Sample.request (JStr "nobody") (Some 5))]
             Toy.world0 in
  JSMap.get "task-0" (sentTasks (snd (retryReaper Toy.platform w))) = None.
Proof.
  cbv zeta.
  refine (proj1 (proj1 (proj1 (proj1
            (@retry_reaper_deadline Toy.platform _ "task-0" _ _)
            _ 5 _ _ _) _))).
  - vm_compute. reflexivity.
  - reflexivity.
  - reflexivity.
  - discriminate.
  - vm_compute. reflexivity.
  - vm_compute. reflexivity.
Defined.

(** ** The attempt budget *)

Lemma forEach_socket_write (m : Frame) (l : list string) (w : World) :
  forEach l (fun key => socket_write key m) w =
    (tt, set_wire (wire w ++ map (fun k => (k, m)) l) w).
Proof.
  revert w. induction l as [|k r IH]; intros w.
  - cbn. unfold ret, set_wire. rewrite app_nil_r. now destruct w.
  - cbn. unfold bind, socket_write, modify. rewrite IH. cbn.
    unfold set_wire. cbn. now rewrite <- app_assoc.
Qed.

Lemma writeAll_spec (m : Frame) (w : World) :
  writeAll m w =
    (Z.of_nat (List.length (peers w)),
     set_wire (wire w ++ map (fun k => (k, m)) (JSMap.keys (peers w))) w).
Proof.
  unfold writeAll, bind, gets. cbn. now rewrite forEach_socket_write.
Qed.

Arguments writeAll : simpl never.
Arguments ktpTaskToA2ATask : simpl never.

Lemma attemptsBounded_set (m : JSMap.t Sent.t) (id : string) (task : Sent.t) :
  attemptsBounded m ->
  attemptCount_or_0 task <= RETRY_CONFIG.maxAttempts ->
  attemptsBounded (JSMap.set id task m).
Proof.
  intros Hm Ht k t. rewrite JSMapFacts.get_set.
  destruct (String.eqb k id).
  - intros [= <-]. exact Ht.
  - apply Hm.
Qed.

Lemma attemptsBounded_delete (m : JSMap.t Sent.t) (id : string) :
  attemptsBounded m -> attemptsBounded (JSMap.delete id m).
Proof.
  intros Hm k t. rewrite JSMapFacts.get_delete.
  destruct (String.eqb k id); [discriminate|apply Hm].
Qed.

Lemma retryTask_bounded (P : Platform) (now : Z) (x : string) (w : World) :
  attemptsBounded (sentTasks w) ->
  attemptsBounded (sentTasks (snd (retryTask P now x w))).
Proof.
  intros H.
  retryTask_cases x task w; try exact H;
    try (now apply attemptsBounded_delete);
    match goal with
    | Hget : JSMap.get x (sentTasks w) = Some ?t |- _ =>
        pose proof (H _ _ Hget) as Hle
    end.
  - now apply attemptsBounded_set.
  - apply attemptsBounded_set; [assumption|].
    match goal with
    | Hex : attemptsExhausted ?t = false |- _ =>
        unfold attemptsExhausted in Hex; unfold attemptCount_or_0 in *; cbn;
        unfold RETRY_CONFIG.maxAttempts in *;
        destruct (Sent.attemptCount t) as [n|];
        [apply Z.leb_gt in Hex; lia | lia]
    end.
Qed.

Lemma timeoutPeer_sentTasks (now : Z) (key : string) (w : World) :
  sentTasks (snd (timeoutPeer now key w)) = sentTasks w.
Proof.
  unfold timeoutPeer, cleanupPeer. run_monad.
  destruct (JSMap.get key (peers w)) as [p|]; [|reflexivity].
  now destruct (10000 <? now - lastSeen p).
Qed.

Lemma onData_bounded (P : Platform) (k : string) (f : option Frame)
    (w : World) :
  attemptsBounded (sentTasks w) ->
  attemptsBounded (sentTasks (snd (onData P k f w))).
Proof.
  intros H. unfold onData.
  destruct f as [raw|]; [|exact H].
  destruct (is_str "ping" (type raw)).
  { run_monad. now destruct (JSMap.get k (peers w)). }
  destruct (truthy (signature raw) && truthy (senderKey raw)); [|exact H].
  destruct (negb (verifyMessage P raw)); [exact H|].
  destruct (JSON_parse P (content raw)) as [[|m|i ty pl dl s|i st r e s|j]|];
    unfold dispatch, handleTaskRequestFrame, handleTaskResponseFrame,
      push_from;
    run_monad; try exact H.
  - now destruct (JSMap.get k (peers w)).
  - destruct (JSMap.get i (sentTasks w)) as [task|] eqn:Hget; cbn;
      [|exact H].
    apply attemptsBounded_set; [assumption|]. exact (H _ _ Hget).
Qed.

Lemma postTaskRequest_bounded (P : Platform) (b : TaskRequest.t) (w : World) :
  attemptsBounded (sentTasks w) ->
  attemptsBounded (sentTasks (snd (postTaskRequest P b w))).
Proof.
  intros H. unfold postTaskRequest.
  destruct (validateTaskRequest b); [exact H|].
  run_monad.
  destruct (truthy (TaskRequest.target b)
            && negb (str_or (TaskRequest.target b) "" =? "*")%string).
  - cbn.
    destruct (findPeer (requestMatches P (str_or (TaskRequest.target b) ""))
                (peers w)); cbn; try exact H;
      (apply attemptsBounded_set; [assumption|]);
      unfold attemptCount_or_0, RETRY_CONFIG.maxAttempts; cbn; lia.
  - rewrite writeAll_spec. cbn.
    apply attemptsBounded_set; [assumption|].
    unfold attemptCount_or_0, RETRY_CONFIG.maxAttempts; cbn; lia.
Qed.

Lemma postTasksRetry_bounded (i : string) (w : World) :
  attemptsBounded (sentTasks w) ->
  attemptsBounded (sentTasks (snd (postTasksRetry i w))).
Proof.
  intros H. unfold postTasksRetry. run_monad.
  destruct (JSMap.get i (deadLetterTasks w)); [|exact H].
  cbn. apply attemptsBounded_set; [assumption|].
  unfold attemptCount_or_0, RETRY_CONFIG.maxAttempts; cbn; lia.
Qed.

Lemma ktpTaskToA2ATask_sentTasks (task : Sent.t) (i d : string) (w : World) :
  sentTasks (snd (ktpTaskToA2ATask task i d w)) = sentTasks w.
Proof.
  unfold ktpTaskToA2ATask. run_monad.
  now destruct (Sent.createdAt task =? 0).
Qed.

(** The four ways the delivery block of [message/send] ends. *)
Lemma messageSend_deliver_cases (P : Platform) (target : JSValue)
    (f : Frame) (w : World) :
  let targeted := truthy target && negb (is_str "*" target) in
  (exists e,
     messageSend_deliver P target f w = (inr e, w)
     /\ targeted = true
     /\ findPeer (sendMatches P target) (peers w) = Threw e)
  \/ (exists kp,
        messageSend_deliver P target f w =
          (inl (1, Some (slice_last8 (fst kp))),
           set_wire (wire w ++ [(fst kp, f)]) w)
        /\ targeted = true
        /\ findPeer (sendMatches P target) (peers w) = Found kp)
  \/ (messageSend_deliver P target f w = (inl (0, None), w)
      /\ targeted = true
      /\ findPeer (sendMatches P target) (peers w) = NotFound)
  \/ (messageSend_deliver P target f w =
        (inl (Z.of_nat (List.length (peers w)), None),
         set_wire (wire w ++ map (fun k => (k, f)) (JSMap.keys (peers w))) w)
      /\ targeted = false).
Proof.
  cbv zeta. unfold messageSend_deliver.
  destruct (truthy target && negb (is_str "*" target)).
  - run_monad.
    destruct (findPeer (sendMatches P target) (peers w)) as [kp| |e]; cbn.
    + right. left. exists kp. repeat split.
    + right. right. left. repeat split.
    + left. exists e. repeat split.
  - right. right. right. unfold bind. rewrite writeAll_spec. cbn.
    repeat split.
Qed.

Arguments messageSend_deliver : simpl never.

(** [handleMessageSend] on valid params, after the id is generated and
    the request signed. *)
Lemma handleMessageSend_valid (P : Platform) (i : JSValue)
    (params : option A2A.SendParams) (w : World) :
  validateMessageSendParams params = None ->
  exists p m, params = Some p /\ A2A.message p = Some m
  /\ let taskId := uuids w 0%nat in
     let ktpPayload := a2aMessageToKtpPayload m (A2A.contextId p) in
     let w1 := set_clock (fun n => clock w (S n))
                 (set_uuids (fun n => uuids w (S n)) w) in
     let f := fst (signMessage P
                     (JSON_stringify P
                        (PTaskRequest taskId "general" ktpPayload None
                           (prefix 8 (myPeerIdRaw P)))) w) in
     handleMessageSend P i params w =
       let (sent, w2) := messageSend_deliver P (A2A.target p) f w1 in
       match sent with
       | inr e => (express_error e, w2)
       | inl (sentCount, targetPeer) =>
           let task :=
             {| Sent.target := or_star targetPeer;
                Sent.status :=
                  if 0 <? sentCount then "pending" else "queued_for_retry";
                Sent.payload := ktpPayload;
                Sent.task_type := "general";
                Sent.createdAt := clock w2 0%nat;
                Sent.deadline := None;
                Sent.attemptCount := None;
                Sent.lastAttemptAt := None;
                Sent.nextRetryTime := None;
                Sent.peerWasOffline := false;
                Sent.failureReason := None;
                Sent.failedAt := None;
                Sent.result := JUndefined;
                Sent.error := JUndefined;
                Sent.completedAt := None;
                Sent.responder := None;
                Sent.contextId :=
                  Some (if truthy (A2A.contextId p) then A2A.contextId p
                        else JStr taskId);
                Sent.a2aSource := true |} in
           let w3 :=
             set_sentTasks (JSMap.set taskId task (sentTasks w2))
               (set_clock (fun n => clock w2 (S n)) w2) in
           let (a2a, w4) := ktpTaskToA2ATask task taskId "sent" w3 in
           (json (BRpcTask i a2a), w4)
       end.
Proof.
  intros Hv. destruct params as [p|]; [|discriminate Hv].
  destruct p as [[m|] ctx target]; [|discriminate Hv].
  exists {| A2A.message := Some m; A2A.contextId := ctx;
            A2A.target := target |}, m.
  split; [reflexivity|]. split; [reflexivity|].
  cbv zeta. unfold handleMessageSend. rewrite Hv.
  cbn [A2A.message A2A.contextId A2A.target].
  unfold bind at 1. unfold generateTaskId at 1.
  unfold bind at 1. unfold signMessage at 1. run_monad.
  destruct (messageSend_deliver P target _ _) as [[[n tp]|e] w2];
    reflexivity.
Qed.

(** The entry [message/send] stores under the fresh id, unless the peer
    search raises, which an empty peer table excludes. *)
Lemma handleMessageSend_sentTasks (P : Platform) (i : JSValue)
    (params : option A2A.SendParams) (w : World) :
  validateMessageSendParams params = None ->
  let w' := snd (handleMessageSend P i params w) in
  (sentTasks w' = sentTasks w /\ peers w <> [])
  \/ exists task,
       sentTasks w' = JSMap.set (uuids w 0%nat) task (sentTasks w)
       /\ Sent.attemptCount task = None
       /\ Sent.nextRetryTime task = None
       /\ (peers w = [] -> Sent.status task = "queued_for_retry").
Proof.
  intros Hv. cbv zeta.
  destruct (handleMessageSend_valid P i params w Hv) as (p & m & -> & Hm & ->).
  match goal with
  | |- context [messageSend_deliver P ?t ?f ?w1] =>
      destruct (messageSend_deliver_cases P t f w1)
        as [(e & -> & _ & Hf)|[(kp & -> & _ & Hf)|[(-> & _)|(-> & _)]]]
  end; cbv beta iota zeta.
  - left. split; [reflexivity|]. cbn in Hf. intros Hp. rewrite Hp in Hf.
    discriminate.
  - right. cbn in Hf.
    match goal with
    | |- context [ktpTaskToA2ATask ?t ?a ?b ?w0] =>
        pose proof (ktpTaskToA2ATask_sentTasks t a b w0) as Hk;
        destruct (ktpTaskToA2ATask t a b w0) as [a2a w4]
    end.
    cbn in Hk |- *. rewrite Hk. eexists. split; [reflexivity|].
    cbn. repeat split. intros Hp. rewrite Hp in Hf. discriminate.
  - right.
    match goal with
    | |- context [ktpTaskToA2ATask ?t ?a ?b ?w0] =>
        pose proof (ktpTaskToA2ATask_sentTasks t a b w0) as Hk;
        destruct (ktpTaskToA2ATask t a b w0) as [a2a w4]
    end.
    cbn in Hk |- *. rewrite Hk. eexists. split; [reflexivity|].
    cbn. repeat split.
  - right.
    match goal with
    | |- context [ktpTaskToA2ATask ?t ?a ?b ?w0] =>
        pose proof (ktpTaskToA2ATask_sentTasks t a b w0) as Hk;
        destruct (ktpTaskToA2ATask t a b w0) as [a2a w4]
    end.
    cbn in Hk |- *. rewrite Hk. eexists. split; [reflexivity|].
    cbn. repeat split. now intros ->.
Qed.

Lemma handleMessageSend_bounded (P : Platform) (i : JSValue)
    (params : option A2A.SendParams) (w : World) :
  attemptsBounded (sentTasks w) ->
  attemptsBounded (sentTasks (snd (handleMessageSend P i params w))).
Proof.
  intros H.
  destruct (validateMessageSendParams params) as [err|] eqn:Hv.
  - unfold handleMessageSend. now rewrite Hv.
  - destruct (handleMessageSend_sentTasks P i params w Hv)
      as [[-> _]|(task & -> & Ha & _)]; [exact H|].
    apply attemptsBounded_set; [assumption|].
    unfold attemptCount_or_0. rewrite Ha.
    unfold RETRY_CONFIG.maxAttempts. lia.
Qed.

Lemma step_bounded (P : Platform) (e : Event) (w : World) :
  attemptsBounded (sentTasks w) ->
  attemptsBounded (sentTasks (step P e w)).
Proof.
  intros H. destruct e; cbn [step].
  - exact H.
  - now apply onData_bounded.
  - exact H.
  - unfold timeoutReaper. run_monad.
    apply (@forEach_preserves _ (fun w => attemptsBounded (sentTasks w)));
      [|exact H].
    intros x w1 H1. now rewrite timeoutPeer_sentTasks.
  - rewrite retryReaper_unfold.
    apply (@forEachC_preserves _ (fun w => attemptsBounded (sentTasks w)));
      [|exact H].
    intros x w1. apply retryTask_bounded.
  - exact H.
  - unfold postJoin. destruct (topic =? "")%string; [exact H|].
    unfold joinTopic. run_monad.
    now destruct (JSMap.get topic (activeTopics w)).
  - unfold postLeave. destruct (topic =? "")%string; [exact H|].
    unfold leaveTopic, swarm_leave. run_monad.
    now destruct (JSMap.get topic (activeTopics w)).
  - unfold postBroadcast. run_monad. rewrite writeAll_spec. exact H.
  - now apply postTaskRequest_bounded.
  - unfold postTaskRespond.
    destruct (TaskRespond.task_id b =? "")%string; [exact H|].
    match goal with |- context [if ?c then _ else _] => destruct c end;
      [exact H|].
    run_monad.
    destruct (JSMap.get (TaskRespond.task_id b) (receivedTasks w));
      [|exact H].
    cbn. match goal with |- context [find ?f ?l] => destruct (find f l) end;
      exact H.
  - now apply postTasksRetry_bounded.
  - now apply handleMessageSend_bounded.
Qed.

Lemma run_bounded (P : Platform) (evs : list Event) (w : World) :
  attemptsBounded (sentTasks w) ->
  attemptsBounded (sentTasks (run P evs w)).
Proof.
  revert w. induction evs as [|e r IH]; intros w H; cbn.
  - exact H.
  - apply IH. now apply step_bounded.
Qed.

Lemma boot_sentTasks (P : Platform) (c : nat -> Z) (u : nat -> string) :
  sentTasks (boot P c u) = [].
Proof. reflexivity. Qed.

(** C4.  After any sequence of events from start-up (submissions, reaper
    ticks, manual requeues, and every other modelled event), every entry
    of [sentTasks] has [attemptCount <= maxAttempts = 3]. *)
Theorem attemptCount_le_maxAttempts (P : Platform) (c : nat -> Z)
    (u : nat -> string) (evs : list Event) (id : string) (task : Sent.t) :
  JSMap.get id (sentTasks (run P evs (boot P c u))) = Some task ->
  RETRY_CONFIG.maxAttempts = 3
  /\ match Sent.attemptCount task with
     | Some n => n <= RETRY_CONFIG.maxAttempts
     | None => True
     end.
Proof.
  intros Hget. split; [reflexivity|].
  assert (H : attemptsBounded (sentTasks (run P evs (boot P c u)))).
  { apply run_bounded. rewrite boot_sentTasks. intros k t. discriminate. }
  specialize (H _ _ Hget). unfold attemptCount_or_0 in H.
  now destruct (Sent.attemptCount task).
Qed.

Lemma attemptCount_le_maxAttempts_witness :
  exists task,
    JSMap.get "task-0" (sentTasks Scenario.three_attempts) = Some task
    /\ Sent.attemptCount task = Some 3
    /\ match Sent.attemptCount task with
       | Some n => n <= RETRY_CONFIG.maxAttempts
       | None => True
       end.
Proof.
  eexists. split; [vm_compute; reflexivity|]. split; [reflexivity|].
  match goal with
  | |- match Sent.attemptCount ?t with _ => _ end =>
      exact (proj2 (@attemptCount_le_maxAttempts Toy.platform Toy.clock0
                      Toy.uuids0
                      [EvTaskRequest (Sample.request (JStr "nobody") None);
                       EvRetryReaper; EvRetryReaper]
                      "task-0" t ltac:(vm_compute; reflexivity)))
  end.
Defined.

(** C5 fails on the code: [message/send] with no peer connected stores
    an entry with status queued_for_retry and no [nextRetryTime] (and no
    [attemptCount]), where [/task/request], [queueTaskForRetry] and the
    manual requeue store a [nextRetryTime] with that status. *)
Theorem message_send_queued_without_nextRetryTime (P : Platform)
    (i : JSValue) (params : option A2A.SendParams) (w : World) :
  validateMessageSendParams params = None ->
  peers w = [] ->
  exists task,
    JSMap.get (uuids w 0%nat)
      (sentTasks (snd (handleMessageSend P i params w))) = Some task
    /\ Sent.status task = "queued_for_retry"
    /\ Sent.nextRetryTime task = None.
Proof.
  intros Hv Hp.
  destruct (handleMessageSend_sentTasks P i params w Hv)
    as [[_ Hne]|(task & -> & _ & Hn & Hs)]; [contradiction|].
  exists task. split; [apply JSMapFacts.get_set_eq|]. auto.
Qed.

Lemma message_send_queued_without_nextRetryTime_witness :
  exists task,
    JSMap.get "task-0"
      (sentTasks (snd (handleMessageSend Toy.platform (JNum 1)
                         (Some Scenario2.send_params) Toy.world0)))
    = Some task
    /\ Sent.status task = "queued_for_retry"
    /\ Sent.nextRetryTime task = None.
Proof.
  apply (@message_send_queued_without_nextRetryTime Toy.platform (JNum 1)
           (Some Scenario2.send_params) Toy.world0); reflexivity.
Defined.

Lemma retryTask_exhausted (P : Platform) (now : Z) (id : string)
    (task : Sent.t) (w : World) :
  JSMap.get id (sentTasks w) = Some task ->
  Sent.status task = "queued_for_retry" ->
  deadlinePassed task now = false ->
  notReady task now = false ->
  findPeer (reaperMatches P (Sent.target task)) (peers w) = NotFound ->
  attemptsExhausted task = true ->
  deadLettered id task
    ("Peer offline after " ++ attemptCount_text task ++ " attempts")
    (snd (retryTask P now id w)).
Proof.
  intros Hget Hs Hd Hn Hf He. unfold retryTask. run_monad.
  rewrite Hget, Hs. cbn. rewrite Hd, Hn, Hf, He. cbn.
  split; [apply JSMapFacts.get_delete_eq
         | eexists; apply JSMapFacts.get_set_eq].
Qed.

(** A search that ends without a match has evaluated its test on every
    peer, so every peer has announced a string as agent_id, or none. *)
Lemma findPeer_NotFound_typed (P : Platform) (target : string)
    (ps : JSMap.t Peer) :
  findPeer (reaperMatches P target) ps = NotFound
  \/ findPeer (requestMatches P target) ps = NotFound ->
  agentIdsTyped ps = true.
Proof.
  unfold agentIdsTyped.
  induction ps as [|[k p] r IH]; intros H; cbn; [reflexivity|].
  cbn in H. unfold reaperMatches, requestMatches in H. cbn [fst snd] in H.
  assert (Hp : agentIdMatches P (manifest p) target <> None
               /\ (findPeer (reaperMatches P target) r = NotFound
                   \/ findPeer (requestMatches P target) r = NotFound)).
  { destruct H as [H|H];
      match type of H with
      | context [if ?c then _ else _] => destruct c; [discriminate|]
      end;
      destruct (agentIdMatches P (manifest p) target) as [[|]|];
      try discriminate; (split; [discriminate|]); [now left|now right]. }
  destruct Hp as [Hp Hr]. rewrite (IH Hr), andb_true_r.
  unfold agentIdMatches in Hp. unfold agentIdTyped.
  destruct (agent_id_of (manifest p)); cbn in Hp; congruence.
Qed.

(** C6.  In a state reached from start-up, when a reaper tick comes to a
    queued_for_retry task whose [nextRetryTime] has passed, the peer
    search ends without a match (the deadline check before the search did
    not fire) and the task's [attemptCount] is at least 3, the tick runs
    to its end, the task leaves [sentTasks] and is in the dead-letter
    table, otherwise unchanged, with status failed, failureReason
    "Peer offline after 3 attempts" and a [failedAt]. *)
Theorem retry_reaper_exhausted (P : Platform) (c : nat -> Z)
    (u : nat -> string) (evs : list Event) (id : string) (task : Sent.t)
    (n next : Z) :
  let w := run P evs (boot P c u) in
  let now := clock w 0%nat in
  JSMap.get id (sentTasks w) = Some task ->
  Sent.status task = "queued_for_retry" ->
  Sent.nextRetryTime task = Some next -> next <= now ->
  deadlinePassed task now = false ->
  findPeer (reaperMatches P (Sent.target task)) (peers w) = NotFound ->
  Sent.attemptCount task = Some n -> 3 <= n ->
  let w' := snd (retryReaper P w) in
  fst (retryReaper P w) = Normal
  /\ JSMap.get id (sentTasks w') = None
  /\ exists failedAt,
       JSMap.get id (deadLetterTasks w') =
         Some (Sent.set_failedAt (Some failedAt)
                 (Sent.set_failureReason
                    (Some "Peer offline after 3 attempts")
                    (Sent.set_status "failed" task))).
Proof.
  intros w now Hget Hs Hnext Hle Hd Hf Hn H3 w'.
  assert (Hb : attemptsBounded (sentTasks w)).
  { apply run_bounded. rewrite boot_sentTasks. intros k t. discriminate. }
  pose proof (Hb _ _ Hget) as Hn3. unfold attemptCount_or_0 in Hn3.
  rewrite Hn in Hn3. unfold RETRY_CONFIG.maxAttempts in Hn3.
  assert (n = 3) by lia. subst n.
  assert (Hnr : notReady task now = false).
  { unfold notReady. rewrite Hnext. apply andb_false_iff. right.
    apply Z.ltb_ge, Hle. }
  assert (Hex : attemptsExhausted task = true).
  { unfold attemptsExhausted. now rewrite Hn. }
  assert (Htxt : ("Peer offline after " ++ attemptCount_text task
                  ++ " attempts")%string = "Peer offline after 3 attempts").
  { unfold attemptCount_text. now rewrite Hn. }
  assert (Hc : fst (retryReaper P w) = Normal).
  { rewrite retryReaper_unfold. apply retry_pass_completes. cbn.
    apply (@findPeer_NotFound_typed P (Sent.target task)). now left. }
  split; [exact Hc|].
  subst w'. rewrite retryReaper_unfold in *. fold now in Hc |- *.
  apply (@retry_pass_deadLetters P now id task
           "Peer offline after 3 attempts" (peers w)
           (JSMap.keys (sentTasks w))); try assumption; try reflexivity.
  - intros w1 H1 Hp. rewrite <- Htxt.
    apply retryTask_exhausted; try assumption. now rewrite Hp.
  - eapply JSMapFacts.get_In_keys; eassumption.
Qed.

Lemma retry_reaper_exhausted_witness :
  option_map Sent.failureReason
    (JSMap.get "task-0"
       (deadLetterTasks
          (snd (retryReaper Toy.platform Scenario.three_attempts))))
  = Some (Some "Peer offline after 3 attempts").
Proof.
  destruct (@retry_reaper_exhausted Toy.platform Toy.clock0 Toy.uuids0
              [EvTaskRequest (Sample.request (JStr "nobody") None);
               EvRetryReaper; EvRetryReaper]
              "task-0"
              (Sent.mk "nobody" "queued_for_retry" Toy.somePayload "general"
                 300000 None (Some 3) (Some 1100000) (Some 1240000) true
                 None None JUndefined JUndefined None None None false)
              3 1240000)
    as (_ & _ & failedAt & Hd).
  - vm_compute. reflexivity.
  - reflexivity.
  - reflexivity.
  - vm_compute. discriminate.
  - reflexivity.
  - vm_compute. reflexivity.
  - reflexivity.
  - lia.
  - unfold Scenario.three_attempts, Toy.world0.
    rewrite Hd. reflexivity.
Defined.

(** ** Received tasks *)

(** C9.  A verified [task_request] frame whose [task_id] is already in
    [receivedTasks] overwrites the entry: the new entry has status pending
    and [createdAt] the current time, and carries no result or error,
    whatever the old entry recorded. *)
Theorem task_request_overwrites_received (P : Platform) (w : World)
    (remoteKey : string) (raw : Frame) (id ty : string) (pl : TaskPayload)
    (dl : option Z) (s : string) (old : Received.t) :
  is_str "ping" (type raw) = false ->
  truthy (signature raw) = true -> truthy (senderKey raw) = true ->
  verifyMessage P raw = true ->
  JSON_parse P (content raw) = Some (PTaskRequest id ty pl dl s) ->
  JSMap.get id (receivedTasks w) = Some old ->
  JSMap.get id (receivedTasks (snd (onData P remoteKey (Some raw) w))) =
    Some {| Received.from := remoteKey;
            Received.fromShortId := slice_last8 remoteKey;
            Received.status := "pending";
            Received.payload := pl;
            Received.task_type := ty;
            Received.createdAt := clock w 0%nat;
            Received.deadline := dl;
            Received.result := JUndefined;
            Received.error := JUndefined |}.
Proof.
  intros Hping Hsig Hkey Hver Hparse _.
  unfold onData. rewrite Hping, Hsig, Hkey, Hver, Hparse. cbn.
  unfold handleTaskRequestFrame, push_from. run_monad.
  apply JSMapFacts.get_set_eq.
Qed.

Lemma task_request_overwrites_received_witness :
  let w := Scenario2.completed_t1 in
  let w' := snd (onData Toy.platform "00000000peer0001"
                   (Some Scenario2.request_frame) w) in
  option_map Received.status (JSMap.get "t1" (receivedTasks w))
  = Some "completed"
  /\ option_map Received.status (JSMap.get "t1" (receivedTasks w'))
     = Some "pending".
Proof.
  cbv zeta. split; [vm_compute; reflexivity|].
  rewrite (@task_request_overwrites_received Toy.platform
             Scenario2.completed_t1 "00000000peer0001"
             Scenario2.request_frame "t1" "general" Toy.somePayload None ""
             (Received.mk "00000000peer0001" "peer0001" "completed"
                Toy.somePayload "general" 400000 None (JStr "done")
                JUndefined)).
  - reflexivity.
  - reflexivity.
  - reflexivity.
  - reflexivity.
  - vm_compute. reflexivity.
  - reflexivity.
  - vm_compute. reflexivity.
Defined.

(* ================================================================== *)
(** * Further properties of the bridge *)

(** ** Backoff schedule *)

(** The retry delay, for a count that is not negative, lies between 5 s
    and 60 s, doubles up to the third attempt (10 s, 20 s, 40 s for the
    counts 1, 2, 3 the bridge uses), is 60 s from the fourth on, and never
    decreases with the count. *)
Theorem exponentialBackoff_schedule (n : Z) :
  0 <= n ->
  5000 <= exponentialBackoff n <= 60000
  /\ (n <= 3 -> exponentialBackoff n = 5000 * 2 ^ n)
  /\ (4 <= n -> exponentialBackoff n = 60000)
  /\ (forall m, n <= m -> exponentialBackoff n <= exponentialBackoff m)
  /\ exponentialBackoff 1 = 10000
  /\ exponentialBackoff 2 = 20000
  /\ exponentialBackoff 3 = 40000.
Proof.
  intros Hn. unfold exponentialBackoff, RETRY_CONFIG.baseDelayMs,
    RETRY_CONFIG.maxDelayMs.
  assert (H1 : 0 < 2 ^ n) by (apply Z.pow_pos_nonneg; lia).
  repeat split; try reflexivity.
  - lia.
  - lia.
  - intros H3.
    assert (2 ^ n <= 2 ^ 3) by (apply Z.pow_le_mono_r; lia).
    change (2 ^ 3) with 8 in *. lia.
  - intros H4.
    assert (2 ^ 4 <= 2 ^ n) by (apply Z.pow_le_mono_r; lia).
    change (2 ^ 4) with 16 in *. lia.
  - intros m Hm.
    assert (2 ^ n <= 2 ^ m) by (apply Z.pow_le_mono_r; lia).
    lia.
Qed.

Lemma exponentialBackoff_schedule_witness :
  0 <= 2 /\ 5000 <= exponentialBackoff 2 <= 60000.
Proof.
  split; [lia|].
  apply (@exponentialBackoff_schedule 2). lia.
Defined.

(** ** More on the retry reaper *)

Lemma forEach_preserves_in {A} (I : World -> Prop) (body : A -> M unit)
    (l : list A) :
  (forall x w, In x l -> I w -> I (snd (body x w))) ->
  forall w, I w -> I (snd (forEach l body w)).
Proof.
  induction l as [|x r IH]; intros Hb w Hw; cbn.
  - exact Hw.
  - unfold bind. pose proof (Hb x w (or_introl eq_refl) Hw) as H1.
    destruct (body x w) as [u w1]. apply IH; [|exact H1].
    intros y w2 Hy. apply Hb. now right.
Qed.

Lemma forEachC_preserves_in {A} (I : World -> Prop)
    (body : A -> M Completion) (l : list A) :
  (forall x w, In x l -> I w -> I (snd (body x w))) ->
  forall w, I w -> I (snd (forEachC l body w)).
Proof.
  induction l as [|x r IH]; intros Hb w Hw; cbn.
  - exact Hw.
  - unfold bind. pose proof (Hb x w (or_introl eq_refl) Hw) as H1.
    destruct (body x w) as [[|e] w1]; [|exact H1].
    apply IH; [|exact H1].
    intros y w2 Hy. apply Hb. now right.
Qed.

(** A pass over keys among which [id] occurs, when it runs to its end,
    establishes [Q] when the iteration on [id] does and the other
    iterations keep it.  [J] holds facts that the iterations before that
    one keep. *)
Lemma retry_pass_stable (P : Platform) (now : Z) (id : string)
    (task : Sent.t) (ps : JSMap.t Peer) (J Q : World -> Prop)
    (l : list string) :
  (forall x w, x <> id -> J w -> J (snd (retryTask P now x w))) ->
  (forall w, JSMap.get id (sentTasks w) = Some task -> peers w = ps ->
             J w -> Q (snd (retryTask P now id w))) ->
  (forall x w, Q w -> Q (snd (retryTask P now x w))) ->
  In id l ->
  forall w, JSMap.get id (sentTasks w) = Some task -> peers w = ps ->
            J w -> fst (forEachC l (retryTask P now) w) = Normal ->
            Q (snd (forEachC l (retryTask P now) w)).
Proof.
  intros HJ Hstep Hst. induction l as [|x r IH]; intros Hin w Hget Hps Hj.
  - destruct Hin.
  - cbn. unfold bind.
    destruct (String.eqb_spec x id) as [->|Hne].
    + specialize (Hstep w Hget Hps Hj).
      destruct (retryTask P now id w) as [[|e] w1]; cbn in Hstep;
        [|discriminate].
      intros _. now apply forEachC_preserves.
    + destruct (retryTask_frame P now x id w) as [Hp Hf].
      destruct (Hf Hne) as [Hf1 _].
      specialize (HJ x w Hne Hj).
      destruct (retryTask P now x w) as [[|e] w1]; cbn in Hp, Hf1, HJ;
        [|discriminate].
      apply IH; try assumption.
      * destruct Hin; [contradiction|assumption].
      * congruence.
      * congruence.
Qed.

(** The same when the keys are distinct, as the keys of a [Map] are; the
    iterations after the one on [id] are then on other keys. *)
Lemma retry_pass_once (P : Platform) (now : Z) (id : string)
    (task : Sent.t) (ps : JSMap.t Peer) (J Q : World -> Prop)
    (l : list string) :
  (forall x w, x <> id -> J w -> J (snd (retryTask P now x w))) ->
  (forall w, JSMap.get id (sentTasks w) = Some task -> peers w = ps ->
             J w -> Q (snd (retryTask P now id w))) ->
  (forall x w, x <> id -> Q w -> Q (snd (retryTask P now x w))) ->
  NoDup l -> In id l ->
  forall w, JSMap.get id (sentTasks w) = Some task -> peers w = ps ->
            J w -> fst (forEachC l (retryTask P now) w) = Normal ->
            Q (snd (forEachC l (retryTask P now) w)).
Proof.
  intros HJ Hstep Hother.
  induction l as [|x r IH]; intros Hnd Hin w Hget Hps Hj.
  - destruct Hin.
  - cbn. unfold bind. apply NoDup_cons_iff in Hnd as [Hx Hr].
    destruct (String.eqb_spec x id) as [->|Hne].
    + specialize (Hstep w Hget Hps Hj).
      destruct (retryTask P now id w) as [[|e] w1]; cbn in Hstep;
        [|discriminate].
      intros _. apply forEachC_preserves_in; [|assumption].
      intros y w2 Hy. apply Hother. intros ->. contradiction.
    + destruct (retryTask_frame P now x id w) as [Hp Hf].
      destruct (Hf Hne) as [Hf1 _].
      specialize (HJ x w Hne Hj).
      destruct (retryTask P now x w) as [[|e] w1]; cbn in Hp, Hf1, HJ;
        [|discriminate].
      apply IH; try assumption.
      * destruct Hin; [contradiction|assumption].
      * congruence.
      * congruence.
Qed.

(** An iteration leaves alone a task that is pending, or queued and not
    yet due, when its deadline has not passed. *)
Lemma retryTask_idle (P : Platform) (now : Z) (id : string)
    (task : Sent.t) (w : World) :
  JSMap.get id (sentTasks w) = Some task ->
  deadlinePassed task now = false ->
  Sent.status task = "pending"
  \/ (Sent.status task = "queued_for_retry" /\ notReady task now = true) ->
  snd (retryTask P now id w) = w.
Proof.
  intros Hget Hd Hs. unfold retryTask. run_monad. rewrite Hget.
  destruct Hs as [Hs|[Hs Hn]]; rewrite Hs; cbn; rewrite Hd; cbn.
  - reflexivity.
  - now rewrite Hn.
Qed.

(** The tick respects the backoff: a queued task whose [nextRetryTime] is
    still in the future, and a pending task, are left exactly as they are
    while their deadline has not passed, whatever happens to the other
    tasks. *)
Theorem retry_reaper_leaves_idle (P : Platform) (w : World) (id : string)
    (task : Sent.t) :
  let now := clock w 0%nat in
  JSMap.get id (sentTasks w) = Some task ->
  deadlinePassed task now = false ->
  Sent.status task = "pending"
  \/ (Sent.status task = "queued_for_retry"
      /\ exists next, Sent.nextRetryTime task = Some next
                      /\ next <> 0 /\ now < next) ->
  let w' := snd (retryReaper P w) in
  JSMap.get id (sentTasks w') = Some task
  /\ JSMap.get id (deadLetterTasks w') = JSMap.get id (deadLetterTasks w).
Proof.
  intros now Hget Hd Hs w'. subst w'. rewrite retryReaper_unfold.
  fold now.
  assert (Hs' : Sent.status task = "pending"
                \/ (Sent.status task = "queued_for_retry"
                    /\ notReady task now = true)).
  { destruct Hs as [Hs|(Hs & next & Hn & Hnz & Hlt)]; [now left|right].
    split; [assumption|]. unfold notReady. rewrite Hn.
    apply andb_true_intro. split.
    - now apply negb_true_iff, Z.eqb_neq.
    - now apply Z.ltb_lt. }
  pose (I := fun w1 : World =>
               JSMap.get id (sentTasks w1) = Some task
               /\ JSMap.get id (deadLetterTasks w1)
                  = JSMap.get id (deadLetterTasks w)).
  apply (@forEachC_preserves _ I); [|now split].
  intros x w1 [H1 H2]. unfold I.
  destruct (String.eqb_spec x id) as [->|Hne].
  - rewrite retryTask_idle with (task := task); auto.
  - destruct (retryTask_frame P now x id w1) as [_ Hf].
    destruct (Hf Hne) as [Hf1 Hf2]. rewrite Hf1, Hf2. now split.
Qed.

Lemma retry_reaper_leaves_idle_witness :
  let w := run Toy.platform
             [EvTaskRequest (Sample.request (JStr "nobody") None)]
             (boot Toy.platform (fun _ => 7) Toy.uuids0) in
  option_map Sent.attemptCount
    (JSMap.get "task-0" (sentTasks (snd (retryReaper Toy.platform w))))
  = Some (Some 1).
Proof.
  cbv zeta.
  match goal with
  | |- option_map _ (JSMap.get _ (sentTasks (snd (retryReaper _ ?w)))) = _ =>
      destruct (@retry_reaper_leaves_idle Toy.platform w "task-0"
                  (Sent.mk "nobody" "queued_for_retry" Toy.somePayload
                     "general" 7 None (Some 1) (Some 7) (Some 10007) true
                     None None JUndefined JUndefined None None None false))
        as [H _]
  end.
  - vm_compute. reflexivity.
  - reflexivity.
  - right. split; [reflexivity|]. exists 10007. repeat split.
    discriminate.
  - rewrite H. reflexivity.
Defined.

(** An envelope built by [signMessage] verifies. *)
Lemma sign_verify_envelope (P : Platform) (HP : KeyPairOk P) (s : string)
    (w : World) :
  verifyMessage P (fst (signMessage P s w)) = true.
Proof.
  cbn. erewrite verifyMessage_strings by reflexivity.
  unfold myPeerId. rewrite !Buffer_from_hex_toString.
  now rewrite (spki_import HP), (sign_verify HP).
Qed.

Lemma retryTask_wire (P : Platform) (now : Z) (x : string) (w : World)
    (e : string * Frame) :
  In e (wire w) -> In e (wire (snd (retryTask P now x w))).
Proof.
  intros H. retryTask_cases x task w; try exact H.
  apply in_or_app. now left.
Qed.

(** The clock after an iteration is the clock before it, some readings
    later. *)
Lemma retryTask_clock (P : Platform) (now : Z) (x : string) (w : World) :
  exists j, forall n,
    clock (snd (retryTask P now x w)) n = clock w (j + n)%nat.
Proof.
  retryTask_cases x task w;
    first [now exists 0%nat | now exists 1%nat | now exists 2%nat].
Qed.

Lemma retryTask_resend (P : Platform) (now : Z) (id : string)
    (task : Sent.t) (kp : string * Peer) (w : World) :
  JSMap.get id (sentTasks w) = Some task ->
  Sent.status task = "queued_for_retry" ->
  deadlinePassed task now = false ->
  notReady task now = false ->
  findPeer (reaperMatches P (Sent.target task)) (peers w) = Found kp ->
  let w' := snd (retryTask P now id w) in
  sentTasks w' =
    JSMap.set id (Sent.set_lastAttemptAt (Some now)
                    (Sent.set_status "pending" task)) (sentTasks w)
  /\ deadLetterTasks w' = deadLetterTasks w
  /\ wire w' =
       (wire w ++
        [(fst kp,
          fst (signMessage P
                 (JSON_stringify P
                    (PTaskRequest id (Sent.task_type task)
                       (Sent.payload task) (Sent.deadline task)
                       (prefix 8 (myPeerIdRaw P)))) w))])%list.
Proof.
  intros Hget Hs Hd Hn Hf. unfold retryTask. run_monad.
  rewrite Hget, Hs. cbn. rewrite Hd, Hn, Hf. cbn. repeat split.
Qed.

(** When the peer is back, the tick re-sends: for a queued task that is
    due, whose deadline has not passed and for which the peer search finds
    a peer (the first one the test passes on: any peer for ['*'], else by
    short id or by a string agent_id equal after [toLowerCase], no test
    before it raising), a tick that runs to its end, as it does when
    every connected peer has announced a string as agent_id or none,
    makes the task pending with [lastAttemptAt] the tick's time and its
    [attemptCount] unchanged,
    does not dead-letter it, and writes a signed [task_request] carrying
    the same [task_id] to that peer; the envelope verifies when the node's
    key pair is sound. *)
Theorem retry_reaper_resends (P : Platform) (w : World) (id : string)
    (task : Sent.t) (kp : string * Peer) :
  let now := clock w 0%nat in
  JSMap.get id (sentTasks w) = Some task ->
  Sent.status task = "queued_for_retry" ->
  deadlinePassed task now = false ->
  notReady task now = false ->
  findPeer (reaperMatches P (Sent.target task)) (peers w) = Found kp ->
  agentIdsTyped (peers w) = true \/ fst (retryReaper P w) = Normal ->
  let w' := snd (retryReaper P w) in
  JSMap.get id (sentTasks w') =
    Some (Sent.set_lastAttemptAt (Some now) (Sent.set_status "pending" task))
  /\ JSMap.get id (deadLetterTasks w') = JSMap.get id (deadLetterTasks w)
  /\ exists f,
       In (fst kp, f) (wire w')
       /\ content f =
            JStr (JSON_stringify P
                    (PTaskRequest id (Sent.task_type task)
                       (Sent.payload task) (Sent.deadline task)
                       (prefix 8 (myPeerIdRaw P))))
       /\ (KeyPairOk P -> verifyMessage P f = true).
Proof.
  intros now Hget Hs Hd Hn Hf Hrun w'. subst w'.
  rewrite retryReaper_unfold in *. fold now in Hrun |- *.
  assert (Hrun' : fst (forEachC (JSMap.keys (sentTasks w)) (retryTask P now)
                         (set_clock (fun n => clock w (S n)) w)) = Normal)
    by (destruct Hrun as [Ht|Hrun]; [now apply retry_pass_completes|exact Hrun]).
  clear Hrun.
  set (task' := Sent.set_lastAttemptAt (Some now)
                  (Sent.set_status "pending" task)).
  set (c := JSON_stringify P
              (PTaskRequest id (Sent.task_type task) (Sent.payload task)
                 (Sent.deadline task) (prefix 8 (myPeerIdRaw P)))).
  pose (Q := fun w1 : World =>
               JSMap.get id (sentTasks w1) = Some task'
               /\ JSMap.get id (deadLetterTasks w1)
                  = JSMap.get id (deadLetterTasks w)
               /\ exists f,
                    In (fst kp, f) (wire w1)
                    /\ content f = JStr c
                    /\ (KeyPairOk P -> verifyMessage P f = true)).
  pose (J := fun w1 : World =>
               JSMap.get id (deadLetterTasks w1)
               = JSMap.get id (deadLetterTasks w)).
  apply (@retry_pass_stable P now id task (peers w) J Q
           (JSMap.keys (sentTasks w))); try reflexivity; try assumption.
  - intros x w1 Hne Hj. unfold J.
    destruct (retryTask_frame P now x id w1) as [_ Hfr].
    destruct (Hfr Hne) as [_ Hf2]. now rewrite Hf2.
  - (* the iteration on [id] *)
    intros w1 H1 Hp Hj.
    assert (Hf1 : findPeer (reaperMatches P (Sent.target task)) (peers w1)
                  = Found kp) by now rewrite Hp.
    destruct (@retryTask_resend P now id task kp w1 H1 Hs Hd Hn Hf1)
      as (Hsent & Hdead & Hwire).
    unfold Q. rewrite Hsent, Hdead, Hwire. split; [|split].
    + apply JSMapFacts.get_set_eq.
    + exact Hj.
    + eexists. split; [apply in_or_app; right; left; reflexivity|].
      split; [reflexivity|].
      intros HP. apply (sign_verify_envelope HP).
  - (* later iterations *)
    intros x w1 (H1 & H2 & f & Hin & Hc & Hv). unfold Q.
    destruct (String.eqb_spec x id) as [->|Hne].
    + rewrite (@retryTask_idle P now id task' w1 H1 Hd (or_introl eq_refl)).
      split; [assumption|]. split; [assumption|]. now exists f.
    + destruct (retryTask_frame P now x id w1) as [_ Hfr].
      destruct (Hfr Hne) as [Hf1 Hf2]. rewrite Hf1, Hf2.
      split; [assumption|]. split; [assumption|].
      exists f. split; [now apply retryTask_wire|]. now split.
  - eapply JSMapFacts.get_In_keys; eassumption.
Qed.

Lemma retry_reaper_resends_witness :
  let w := run Toy.platform
             [EvTaskRequest (Sample.request (JStr "peer0001") None);
              EvConnection "00000000peer0001"]
             Toy.world0 in
  option_map Sent.status
    (JSMap.get "task-0" (sentTasks (snd (retryReaper Toy.platform w))))
  = Some "pending".
Proof.
  cbv zeta.
  match goal with
  | |- option_map _ (JSMap.get _ (sentTasks (snd (retryReaper _ ?w)))) = _ =>
      destruct (@retry_reaper_resends Toy.platform w "task-0"
                  (Sent.mk "peer0001" "queued_for_retry" Toy.somePayload
                     "general" 300000 None (Some 1) (Some 400000)
                     (Some 510000) true None None JUndefined JUndefined
                     None None None false)
                  ("00000000peer0001",
                   {| lastSeen := 800000; manifest := None |}))
        as [H _]
  end.
  - vm_compute. reflexivity.
  - reflexivity.
  - reflexivity.
  - vm_compute. reflexivity.
  - vm_compute. reflexivity.
  - left. vm_compute. reflexivity.
  - rewrite H. reflexivity.
Defined.

Lemma retryTask_reschedule (P : Platform) (now : Z) (id : string)
    (task : Sent.t) (w : World) :
  JSMap.get id (sentTasks w) = Some task ->
  Sent.status task = "queued_for_retry" ->
  deadlinePassed task now = false ->
  notReady task now = false ->
  findPeer (reaperMatches P (Sent.target task)) (peers w) = NotFound ->
  attemptsExhausted task = false ->
  let w' := snd (retryTask P now id w) in
  sentTasks w' =
    JSMap.set id
      (Sent.set_nextRetryTime
         (Some (clock w 1%nat + exponentialBackoff (attemptCount_or_0 task + 1)))
         (Sent.set_lastAttemptAt (Some (clock w 0%nat))
            (Sent.set_attemptCount (Some (attemptCount_or_0 task + 1))
               (Sent.set_status "queued_for_retry" task))))
      (sentTasks w)
  /\ deadLetterTasks w' = deadLetterTasks w.
Proof.
  intros Hget Hs Hd Hn Hf He. unfold retryTask. run_monad.
  rewrite Hget, Hs. cbn. rewrite Hd, Hn, Hf, He. cbn. repeat split.
Qed.

(** While the peer stays away and the budget lasts, the tick reschedules:
    a due queued task with fewer than three attempts for which the peer
    search ends without a match stays queued with its [attemptCount]
    incremented, [lastAttemptAt] a reading [t] of the clock taken during
    the tick and [nextRetryTime] the next reading plus the backoff of the
    new count; its target, payload and deadline are kept and it is not
    dead-lettered.  Such a tick runs to its end: a search that ends
    without a match has raised on no peer. *)
Theorem retry_reaper_reschedules (P : Platform) (w : World) (id : string)
    (task : Sent.t) :
  let now := clock w 0%nat in
  NoDup (JSMap.keys (sentTasks w)) ->
  JSMap.get id (sentTasks w) = Some task ->
  Sent.status task = "queued_for_retry" ->
  deadlinePassed task now = false ->
  notReady task now = false ->
  findPeer (reaperMatches P (Sent.target task)) (peers w) = NotFound ->
  attemptCount_or_0 task < RETRY_CONFIG.maxAttempts ->
  let w' := snd (retryReaper P w) in
  fst (retryReaper P w) = Normal
  /\ exists task' k,
    (1 <= k)%nat
    /\ JSMap.get id (sentTasks w') = Some task'
    /\ Sent.status task' = "queued_for_retry"
    /\ Sent.attemptCount task' = Some (attemptCount_or_0 task + 1)
    /\ Sent.lastAttemptAt task' = Some (clock w k)
    /\ Sent.nextRetryTime task' =
         Some (clock w (S k)
               + exponentialBackoff (attemptCount_or_0 task + 1))
    /\ Sent.target task' = Sent.target task
    /\ Sent.payload task' = Sent.payload task
    /\ Sent.deadline task' = Sent.deadline task
    /\ JSMap.get id (deadLetterTasks w') = JSMap.get id (deadLetterTasks w).
Proof.
  intros now Hnd Hget Hs Hd Hn Hf Hlt w'. subst w'.
  assert (Hrun : fst (retryReaper P w) = Normal).
  { rewrite retryReaper_unfold. apply retry_pass_completes. cbn.
    apply (@findPeer_NotFound_typed P (Sent.target task)). now left. }
  split; [exact Hrun|].
  rewrite retryReaper_unfold in *. fold now in Hrun |- *.
  assert (He : attemptsExhausted task = false).
  { unfold attemptsExhausted. unfold attemptCount_or_0 in Hlt.
    destruct (Sent.attemptCount task); [|reflexivity].
    now apply Z.leb_gt. }
  pose (J := fun w1 : World =>
               JSMap.get id (deadLetterTasks w1)
               = JSMap.get id (deadLetterTasks w)
               /\ exists k, (1 <= k)%nat
                    /\ forall n, clock w1 n = clock w (k + n)%nat).
  pose (Q := fun w1 : World =>
    exists task' k,
      (1 <= k)%nat
      /\ JSMap.get id (sentTasks w1) = Some task'
      /\ Sent.status task' = "queued_for_retry"
      /\ Sent.attemptCount task' = Some (attemptCount_or_0 task + 1)
      /\ Sent.lastAttemptAt task' = Some (clock w k)
      /\ Sent.nextRetryTime task' =
           Some (clock w (S k)
                 + exponentialBackoff (attemptCount_or_0 task + 1))
      /\ Sent.target task' = Sent.target task
      /\ Sent.payload task' = Sent.payload task
      /\ Sent.deadline task' = Sent.deadline task
      /\ JSMap.get id (deadLetterTasks w1)
         = JSMap.get id (deadLetterTasks w)).
  apply (@retry_pass_once P now id task (peers w) J Q
           (JSMap.keys (sentTasks w))); try reflexivity; try assumption.
  - intros x w1 Hne [Hj (k & Hk & Hc)]. split.
    + destruct (retryTask_frame P now x id w1) as [_ Hfr].
      destruct (Hfr Hne) as [_ Hf2]. now rewrite Hf2.
    + destruct (retryTask_clock P now x w1) as [j Hjc].
      exists (k + j)%nat. split; [lia|]. intros n.
      rewrite Hjc, Hc. f_equal. lia.
  - intros w1 H1 Hp [Hj (k & Hk & Hc)].
    assert (Hf1 : findPeer (reaperMatches P (Sent.target task)) (peers w1)
                  = NotFound) by now rewrite Hp.
    destruct (@retryTask_reschedule P now id task w1 H1 Hs Hd Hn Hf1 He)
      as [Hsent Hdead].
    unfold Q. eexists. exists k. rewrite Hsent, Hdead.
    split; [assumption|].
    split; [apply JSMapFacts.get_set_eq|]. cbn.
    rewrite !Hc. replace (k + 0)%nat with k by lia.
    replace (k + 1)%nat with (S k) by lia.
    repeat split. exact Hj.
  - intros x w1 Hne (task' & k & Hk & H1 & Hrest). unfold Q.
    destruct (retryTask_frame P now x id w1) as [_ Hfr].
    destruct (Hfr Hne) as [Hf1 Hf2].
    exists task', k. rewrite Hf1, Hf2. now split.
  - eapply JSMapFacts.get_In_keys; eassumption.
  - split; [reflexivity|]. exists 1%nat. split; [lia|]. reflexivity.
Qed.

Lemma retry_reaper_reschedules_witness :
  let w := run Toy.platform
             [EvTaskRequest (Sample.request (JStr "nobody") None)]
             Toy.world0 in
  exists task',
    JSMap.get "task-0" (sentTasks (snd (retryReaper Toy.platform w)))
    = Some task'
    /\ Sent.attemptCount task' = Some 2.
Proof.
  cbv zeta.
  match goal with
  | |- exists _, JSMap.get _ (sentTasks (snd (retryReaper _ ?w))) = _ /\ _ =>
      destruct (@retry_reaper_reschedules Toy.platform w "task-0"
                  (Sent.mk "nobody" "queued_for_retry" Toy.somePayload
                     "general" 300000 None (Some 1) (Some 400000)
                     (Some 510000) true None None JUndefined JUndefined
                     None None None false))
        as (_ & task' & k & _ & H & _ & Ha & _)
  end.
  - vm_compute. repeat constructor. intros [].
  - vm_compute. reflexivity.
  - reflexivity.
  - reflexivity.
  - vm_compute. reflexivity.
  - vm_compute. reflexivity.
  - reflexivity.
  - exists task'. split; [exact H|exact Ha].
Defined.

(** ** Sent and dead-letter tables stay disjoint *)

Lemma consistent_update (u : nat -> string) (s d : JSMap.t Sent.t)
    (i : string) (t : Sent.t) :
  tablesConsistent u s d -> JSMap.get i s <> None ->
  tablesConsistent u (JSMap.set i t s) d.
Proof.
  intros (Hinj & Hfresh & Hdis) Hi. split; [assumption|]. split.
  - intros n. destruct (Hfresh n) as [Hs Hd]. split; [|assumption].
    rewrite JSMapFacts.get_set.
    destruct (String.eqb_spec (u n) i) as [E|_]; [|assumption].
    rewrite E in Hs. contradiction.
  - intros id. rewrite JSMapFacts.get_set.
    destruct (String.eqb_spec id i) as [->|_]; [intros _|]; auto.
Qed.

Lemma consistent_to_dead (u : nat -> string) (s d : JSMap.t Sent.t)
    (i : string) (t : Sent.t) :
  tablesConsistent u s d -> JSMap.get i s <> None ->
  tablesConsistent u (JSMap.delete i s) (JSMap.set i t d).
Proof.
  intros (Hinj & Hfresh & Hdis) Hi. split; [assumption|]. split.
  - intros n. destruct (Hfresh n) as [Hs Hd].
    rewrite JSMapFacts.get_delete, JSMapFacts.get_set.
    destruct (String.eqb_spec (u n) i) as [E|_]; [|now split].
    rewrite E in Hs. contradiction.
  - intros id. rewrite JSMapFacts.get_delete, JSMapFacts.get_set.
    destruct (String.eqb_spec id i) as [->|_]; [congruence|]. auto.
Qed.

Lemma consistent_to_sent (u : nat -> string) (s d : JSMap.t Sent.t)
    (i : string) (t : Sent.t) :
  tablesConsistent u s d -> JSMap.get i d <> None ->
  tablesConsistent u (JSMap.set i t s) (JSMap.delete i d).
Proof.
  intros (Hinj & Hfresh & Hdis) Hi. split; [assumption|]. split.
  - intros n. destruct (Hfresh n) as [Hs Hd].
    rewrite JSMapFacts.get_delete, JSMapFacts.get_set.
    destruct (String.eqb_spec (u n) i) as [E|_]; [|now split].
    rewrite E in Hd. contradiction.
  - intros id. rewrite JSMapFacts.get_delete, JSMapFacts.get_set.
    destruct (String.eqb_spec id i) as [->|_]; auto.
Qed.

Lemma consistent_fresh (u : nat -> string) (s d : JSMap.t Sent.t)
    (t : Sent.t) :
  tablesConsistent u s d ->
  tablesConsistent (fun n => u (S n)) (JSMap.set (u 0%nat) t s) d.
Proof.
  intros (Hinj & Hfresh & Hdis). split; [|split].
  - intros n m E. apply Hinj in E. now injection E.
  - intros n. destruct (Hfresh (S n)) as [Hs Hd]. split; [|assumption].
    rewrite JSMapFacts.get_set.
    destruct (String.eqb_spec (u (S n)) (u 0%nat)) as [E|_]; [|assumption].
    apply Hinj in E. discriminate.
  - intros id. rewrite JSMapFacts.get_set.
    destruct (String.eqb_spec id (u 0%nat)) as [->|_]; [intros _|]; auto.
    apply Hfresh.
Qed.

Lemma retryTask_consistent (P : Platform) (now : Z) (x : string) (w : World) :
  tasksConsistent w -> tasksConsistent (snd (retryTask P now x w)).
Proof.
  unfold tasksConsistent. intros H.
  retryTask_cases x task w; try exact H;
    match goal with
    | Hget : JSMap.get x (sentTasks w) = Some _ |- _ =>
        assert (Hx : JSMap.get x (sentTasks w) <> None) by congruence
    end;
    first [now apply consistent_to_dead | now apply consistent_update].
Qed.

(** An id that is generated and not stored is no longer to come. *)
Lemma consistent_skip (u : nat -> string) (s d : JSMap.t Sent.t) :
  tablesConsistent u s d -> tablesConsistent (fun n => u (S n)) s d.
Proof.
  intros (Hinj & Hfresh & Hdis). split; [|split].
  - intros n m E. apply Hinj in E. now injection E.
  - intros n. apply Hfresh.
  - exact Hdis.
Qed.

Lemma timeoutPeer_tasks (now : Z) (key : string) (w : World) :
  let w' := snd (timeoutPeer now key w) in
  uuids w' = uuids w /\ sentTasks w' = sentTasks w
  /\ deadLetterTasks w' = deadLetterTasks w.
Proof.
  unfold timeoutPeer, cleanupPeer. run_monad.
  destruct (JSMap.get key (peers w)) as [p|]; [|now cbn].
  now destruct (10000 <? now - lastSeen p).
Qed.

Lemma ktpTaskToA2ATask_tasks (task : Sent.t) (i d : string) (w : World) :
  let w' := snd (ktpTaskToA2ATask task i d w) in
  sentTasks w' = sentTasks w
  /\ deadLetterTasks w' = deadLetterTasks w
  /\ uuids w' = uuids w.
Proof.
  unfold ktpTaskToA2ATask. run_monad.
  now destruct (Sent.createdAt task =? 0).
Qed.

Lemma handleMessageSend_tasks (P : Platform) (i : JSValue)
    (params : option A2A.SendParams) (w : World) :
  validateMessageSendParams params = None ->
  let w' := snd (handleMessageSend P i params w) in
  uuids w' = (fun n => uuids w (S n))
  /\ deadLetterTasks w' = deadLetterTasks w
  /\ (sentTasks w' = sentTasks w
      \/ exists task,
           sentTasks w' = JSMap.set (uuids w 0%nat) task (sentTasks w)).
Proof.
  intros Hv. cbv zeta.
  destruct (handleMessageSend_valid P i params w Hv)
    as (p & m & -> & Hm & ->).
  match goal with
  | |- context [messageSend_deliver P ?t ?f ?w1] =>
      destruct (messageSend_deliver_cases P t f w1)
        as [(e & -> & _)|[(kp & -> & _)|[(-> & _)|(-> & _)]]]
  end; cbv beta iota zeta;
    try (repeat split; now left);
    match goal with
    | |- context [ktpTaskToA2ATask ?t ?a ?b ?w0] =>
        pose proof (ktpTaskToA2ATask_tasks t a b w0) as Hk;
        destruct (ktpTaskToA2ATask t a b w0) as [a2a w4]
    end;
    cbn in Hk |- *; destruct Hk as (Hk1 & Hk2 & Hk3);
    rewrite Hk1, Hk2, Hk3;
    (split; [reflexivity|]); (split; [reflexivity|]);
    right; eexists; reflexivity.
Qed.

Lemma step_consistent (P : Platform) (e : Event) (w : World) :
  tasksConsistent w -> tasksConsistent (step P e w).
Proof.
  unfold tasksConsistent. intros H. destruct e; cbn [step].
  - exact H.
  - (* data *)
    unfold onData. destruct frame as [raw|]; [|exact H].
    destruct (is_str "ping" (type raw)).
    { run_monad. now destruct (JSMap.get remoteKey (peers w)). }
    destruct (truthy (signature raw) && truthy (senderKey raw)); [|exact H].
    destruct (negb (verifyMessage P raw)); [exact H|].
    destruct (JSON_parse P (content raw)) as [[|m|i ty pl dl s|i st r e s|j]|];
      unfold dispatch, handleTaskRequestFrame, handleTaskResponseFrame,
        push_from;
      run_monad; try exact H.
    + now destruct (JSMap.get remoteKey (peers w)).
    + destruct (JSMap.get i (sentTasks w)) as [task|] eqn:Hget; cbn;
        [|exact H].
      apply consistent_update; [assumption|congruence].
  - exact H.
  - unfold timeoutReaper. run_monad.
    apply (@forEach_preserves _
             (fun w1 => tablesConsistent (uuids w1) (sentTasks w1)
                          (deadLetterTasks w1))); [|exact H].
    intros x w1 H1. destruct (timeoutPeer_tasks (clock w 0%nat) x w1)
      as (-> & -> & ->). exact H1.
  - rewrite retryReaper_unfold.
    apply (@forEachC_preserves _ tasksConsistent); [|exact H].
    intros x w1. apply retryTask_consistent.
  - exact H.
  - unfold postJoin. destruct (topic =? "")%string; [exact H|].
    unfold joinTopic. run_monad.
    now destruct (JSMap.get topic (activeTopics w)).
  - unfold postLeave. destruct (topic =? "")%string; [exact H|].
    unfold leaveTopic, swarm_leave. run_monad.
    now destruct (JSMap.get topic (activeTopics w)).
  - unfold postBroadcast. run_monad. rewrite writeAll_spec. exact H.
  - (* task request *)
    unfold postTaskRequest.
    destruct (validateTaskRequest b); [exact H|].
    run_monad.
    destruct (truthy (TaskRequest.target b)
              && negb (str_or (TaskRequest.target b) "" =? "*")%string).
    + cbn.
      destruct (findPeer
                  (requestMatches P (str_or (TaskRequest.target b) ""))
                  (peers w)); cbn;
        first [now apply consistent_fresh | now apply consistent_skip].
    + rewrite writeAll_spec. cbn. now apply consistent_fresh.
  - unfold postTaskRespond.
    destruct (TaskRespond.task_id b =? "")%string; [exact H|].
    match goal with |- context [if ?c then _ else _] => destruct c end;
      [exact H|].
    run_monad.
    destruct (JSMap.get (TaskRespond.task_id b) (receivedTasks w));
      [|exact H].
    cbn. match goal with |- context [find ?f ?l] => destruct (find f l) end;
      exact H.
  - unfold postTasksRetry. run_monad.
    destruct (JSMap.get task_id (deadLetterTasks w)) eqn:Hget; [|exact H].
    cbn. apply consistent_to_sent; [assumption|congruence].
  - destruct (validateMessageSendParams params) as [err|] eqn:Hv.
    + unfold handleMessageSend. now rewrite Hv.
    + destruct (handleMessageSend_tasks P id params w Hv)
        as (-> & -> & [->|(task & ->)]).
      * now apply consistent_skip.
      * now apply consistent_fresh.
Qed.

Lemma run_consistent (P : Platform) (evs : list Event) (w : World) :
  tasksConsistent w -> tasksConsistent (run P evs w).
Proof.
  revert w. induction evs as [|e r IH]; intros w H; cbn; [exact H|].
  apply IH. now apply step_consistent.
Qed.

(** If [generateTaskId] never returns the same id twice, then after any
    sequence of events from start-up no task id is in both [sentTasks]
    and [deadLetterTasks]. *)
Theorem sent_and_dead_letter_disjoint (P : Platform) (c : nat -> Z)
    (u : nat -> string) (evs : list Event) (id : string) :
  (forall n m, u n = u m -> n = m) ->
  let w := run P evs (boot P c u) in
  JSMap.has id (sentTasks w) && JSMap.has id (deadLetterTasks w) = false.
Proof.
  intros Hinj w.
  assert (H : tasksConsistent w).
  { subst w. apply run_consistent.
    split; [assumption|]. split; [now split|].
    intros i Hi. reflexivity. }
  destruct H as (_ & _ & Hdis). unfold JSMap.has.
  destruct (JSMap.get id (sentTasks w)) eqn:Hs; [|reflexivity].
  rewrite Hdis by congruence. reflexivity.
Qed.

Lemma index_text_inj (n m : nat) : index_text n = index_text m -> n = m.
Proof.
  unfold index_text. intros H.
  assert (Hnn : forall k, Nat.to_uint k <> Decimal.Nil).
  { intros k. rewrite <- (DecimalNat.Unsigned.of_to k) at 1.
    rewrite DecimalNat.Unsigned.to_of. apply DecimalFacts.unorm_nonnil. }
  apply (f_equal NilZero.uint_of_string) in H.
  rewrite !NilZero.usu in H by apply Hnn. injection H as H.
  now apply DecimalNat.Unsigned.to_uint_inj.
Qed.

Lemma toy_uuids_inj (n m : nat) : Toy.uuids0 n = Toy.uuids0 m -> n = m.
Proof.
  unfold Toy.uuids0. intros H. apply index_text_inj.
  now injection H.
Qed.

Lemma sent_and_dead_letter_disjoint_witness :
  let w := run Toy.platform
             [EvTaskRequest (Sample.request (JStr "nobody") None);
              EvRetryReaper; EvRetryReaper; EvRetryReaper]
             (boot Toy.platform Toy.clock0 Toy.uuids0) in
  JSMap.has "task-0" (sentTasks w) && JSMap.has "task-0" (deadLetterTasks w)
  = false.
Proof.
  exact (@sent_and_dead_letter_disjoint Toy.platform Toy.clock0 Toy.uuids0
           [EvTaskRequest (Sample.request (JStr "nobody") None);
            EvRetryReaper; EvRetryReaper; EvRetryReaper]
           "task-0" toy_uuids_inj).
Defined.

(** ** Manual requeue *)

(** [POST /tasks/retry/:task_id] moves a dead-lettered task back to
    [sentTasks] as queued_for_retry with a fresh budget
    ([attemptCount = 0]), due at once ([nextRetryTime = now]) and with
    [failureReason] and [failedAt] removed, every other property kept, and
    removes it from the dead-letter table; for an id that is not
    dead-lettered it answers 404 and changes nothing. *)
Theorem manual_requeue (w : World) (id : string) :
  (forall task,
     JSMap.get id (deadLetterTasks w) = Some task ->
     let w' := snd (postTasksRetry id w) in
     fst (postTasksRetry id w) = json (BRequeued id)
     /\ JSMap.get id (sentTasks w') =
          Some (Sent.set_failedAt None
                  (Sent.set_failureReason None
                     (Sent.set_nextRetryTime (Some (clock w 0%nat))
                        (Sent.set_attemptCount (Some 0)
                           (Sent.set_status "queued_for_retry" task)))))
     /\ JSMap.get id (deadLetterTasks w') = None
     /\ (forall i, i <> id ->
           JSMap.get i (sentTasks w') = JSMap.get i (sentTasks w)
           /\ JSMap.get i (deadLetterTasks w')
              = JSMap.get i (deadLetterTasks w)))
  /\ (JSMap.get id (deadLetterTasks w) = None ->
      postTasksRetry id w
      = (status_json 404 (BError "Task not found in dead letter queue"), w)).
Proof.
  unfold postTasksRetry. run_monad.
  destruct (JSMap.get id (deadLetterTasks w)) as [task|].
  - split; [|discriminate]. intros t [= <-]. cbn.
    split; [reflexivity|].
    split; [apply JSMapFacts.get_set_eq|].
    split; [apply JSMapFacts.get_delete_eq|].
    intros i Hne.
    now rewrite JSMapFacts.get_set_ne, JSMapFacts.get_delete_ne.
  - split; [discriminate|reflexivity].
Qed.

Lemma manual_requeue_witness :
  postTasksRetry "task-9" Toy.world0
  = (status_json 404 (BError "Task not found in dead letter queue"),
     Toy.world0).
Proof.
  apply (proj2 (manual_requeue Toy.world0 "task-9")). reflexivity.
Defined.

Lemma postTasksRetry_requeued (id : string) (task : Sent.t) (w : World) :
  JSMap.get id (deadLetterTasks w) = Some task ->
  let w' := snd (postTasksRetry id w) in
  JSMap.get id (sentTasks w') =
    Some (Sent.set_failedAt None
            (Sent.set_failureReason None
               (Sent.set_nextRetryTime (Some (clock w 0%nat))
                  (Sent.set_attemptCount (Some 0)
                     (Sent.set_status "queued_for_retry" task)))))
  /\ peers w' = peers w
  /\ clock w' = (fun n => clock w (S n)).
Proof.
  intros Hget. unfold postTasksRetry. run_monad. rewrite Hget. cbn.
  split; [apply JSMapFacts.get_set_eq|]. now split.
Qed.

(** Requeueing does not revive an expired task: a dead-lettered task
    whose deadline lies before the next tick is, once requeued by hand,
    dead-lettered again by that tick, when the tick runs to its end, as
    it does when every connected peer has announced a string as agent_id
    or none: the requeued entry leaves [sentTasks] and is in the dead-letter table,
    otherwise unchanged, with status failed, failureReason
    "Deadline exceeded" and a new [failedAt]. *)
Theorem requeue_of_expired_task_fails_again (P : Platform) (w : World)
    (id : string) (task : Sent.t) (d : Z) :
  JSMap.get id (deadLetterTasks w) = Some task ->
  Sent.deadline task = Some d -> d <> 0 ->
  let w1 := snd (postTasksRetry id w) in
  let requeued :=
    Sent.set_failedAt None
      (Sent.set_failureReason None
         (Sent.set_nextRetryTime (Some (clock w 0%nat))
            (Sent.set_attemptCount (Some 0)
               (Sent.set_status "queued_for_retry" task)))) in
  d < clock w1 0%nat ->
  agentIdsTyped (peers w) = true \/ fst (retryReaper P w1) = Normal ->
  let w2 := snd (retryReaper P w1) in
  JSMap.get id (sentTasks w1) = Some requeued
  /\ JSMap.get id (sentTasks w2) = None
  /\ exists failedAt,
       JSMap.get id (deadLetterTasks w2) =
         Some (Sent.set_failedAt (Some failedAt)
                 (Sent.set_failureReason (Some "Deadline exceeded")
                    (Sent.set_status "failed" requeued))).
Proof.
  intros Hget Hd Hnz w1 requeued Hlt Hrun w2.
  destruct (postTasksRetry_requeued id w Hget) as (Hs & Hps & _).
  fold w1 in Hs, Hps. fold requeued in Hs. split; [exact Hs|].
  subst w2. rewrite retryReaper_unfold in *.
  assert (Hrun' : fst (forEachC (JSMap.keys (sentTasks w1))
                         (retryTask P (clock w1 0%nat))
                         (set_clock (fun n => clock w1 (S n)) w1)) = Normal).
  { destruct Hrun as [Ht|Hrun]; [|exact Hrun].
    apply retry_pass_completes. cbn. now rewrite Hps. }
  clear Hrun.
  apply (@retry_pass_deadLetters P (clock w1 0%nat) id requeued
           "Deadline exceeded" (peers w1) (JSMap.keys (sentTasks w1)));
    try assumption; try reflexivity.
  - intros w3 H3 _. apply retryTask_deadline; [assumption|reflexivity|].
    unfold deadlinePassed. cbn. rewrite Hd.
    apply andb_true_intro. split.
    + now apply negb_true_iff, Z.eqb_neq.
    + now apply Z.ltb_lt.
  - eapply JSMapFacts.get_In_keys; eassumption.
Qed.

Lemma requeue_of_expired_task_fails_again_witness :
  let w := run Toy.platform
             [EvTaskRequest (Sample.request (JStr "nobody") (Some 5));
              EvRetryReaper]
             Toy.world0 in
  JSMap.get "task-0"
    (sentTasks (snd (retryReaper Toy.platform
                       (snd (postTasksRetry "task-0" w))))) = None.
Proof.
  cbv zeta.
  match goal with
  | |- context [postTasksRetry _ ?w] =>
      refine (proj1 (proj2
                (@requeue_of_expired_task_fails_again Toy.platform w
                   "task-0"
                   (Sent.mk "nobody" "failed" Toy.somePayload "general"
                      300000 (Some 5) (Some 1) (Some 400000) (Some 510000)
                      true (Some "Deadline exceeded") (Some 800000)
                      JUndefined JUndefined None None None false)
                   5 _ _ _ _ _)))
  end.
  - vm_compute. reflexivity.
  - reflexivity.
  - discriminate.
  - vm_compute. reflexivity.
  - left. vm_compute. reflexivity.
Defined.

(** ** Broadcast submissions *)

Lemma retry_pass_idle (P : Platform) (now : Z) (id : string)
    (task : Sent.t) (l : list string) (w : World) :
  deadlinePassed task now = false ->
  Sent.status task = "pending"
  \/ (Sent.status task = "queued_for_retry" /\ notReady task now = true) ->
  JSMap.get id (sentTasks w) = Some task ->
  JSMap.get id (sentTasks (snd (forEachC l (retryTask P now) w))) = Some task.
Proof.
  intros Hd Hs Hget.
  apply (@forEachC_preserves _
           (fun w1 => JSMap.get id (sentTasks w1) = Some task));
    [|assumption].
  intros x w1 H1.
  destruct (String.eqb_spec x id) as [->|Hne].
  - now rewrite retryTask_idle with (task := task).
  - destruct (retryTask_frame P now x id w1) as [_ Hf].
    destruct (Hf Hne) as [Hf1 _]. now rewrite Hf1.
Qed.

Lemma step_keeps_pending (P : Platform) (e : Event) (id : string)
    (task : Sent.t) (w : World) :
  presenceOrTick e = true ->
  Sent.status task = "pending" -> Sent.deadline task = None ->
  JSMap.get id (sentTasks w) = Some task ->
  JSMap.get id (sentTasks (step P e w)) = Some task.
Proof.
  intros He Hs Hd Hget. destruct e; try discriminate; cbn [step].
  - exact Hget.
  - exact Hget.
  - unfold timeoutReaper. run_monad.
    apply (@forEach_preserves _
             (fun w1 => JSMap.get id (sentTasks w1) = Some task));
      [|exact Hget].
    intros x w1 H1.
    destruct (timeoutPeer_tasks (clock w 0%nat) x w1) as (_ & -> & _).
    exact H1.
  - rewrite retryReaper_unfold. apply retry_pass_idle; try assumption.
    + unfold deadlinePassed. now rewrite Hd.
    + now left.
Qed.

(** A valid task submitted without a target, with an empty target or
    with ['*'] is signed once and that one envelope, which carries the
    request under the generated id, is written to every connected peer;
    the answer gives their number (0 when nobody is connected); the task
    is stored as pending for ['*'] with the submitted description,
    context, priority, type and deadline and no retry bookkeeping.  When
    it has no deadline, no reaper tick and no arrival or departure of
    peers ever changes the stored task, so it is never queued for
    retry. *)
Theorem broadcast_is_never_retried (P : Platform) (b : TaskRequest.t)
    (w : World) (evs : list Event) :
  validateTaskRequest b = None ->
  TaskRequest.target b = JUndefined \/ TaskRequest.target b = JStr ""
  \/ TaskRequest.target b = JStr "*" ->
  let id := uuids w 0%nat in
  let w1 := snd (postTaskRequest P b w) in
  let task_type := str_or (TaskRequest.task_type b) "general" in
  let payload :=
    {| description := str_or (TaskRequest.description b) "";
       context := CtxJson match TaskRequest.context b with
                          | Some c => c
                          | None => "{}"
                          end;
       priority := str_or (TaskRequest.priority b) "medium" |} in
  let deadline := or_null (TaskRequest.deadline b) in
  let f := fst (signMessage P
                  (JSON_stringify P
                     (PTaskRequest id task_type payload deadline
                        (prefix 8 (myPeerIdRaw P)))) w) in
  let task := newSentTask "*" "pending" payload task_type (clock w 1%nat)
                deadline in
  fst (postTaskRequest P b w)
  = json (BTaskSent id "*" (Z.of_nat (List.length (peers w))))
  /\ wire w1 = (wire w ++ map (fun k => (k, f)) (JSMap.keys (peers w)))%list
  /\ (KeyPairOk P -> verifyMessage P f = true)
  /\ JSMap.get id (sentTasks w1) = Some task
  /\ Sent.attemptCount task = None
  /\ Sent.nextRetryTime task = None
  /\ (deadline = None ->
      Forall (fun e => presenceOrTick e = true) evs ->
      JSMap.get id (sentTasks (run P evs w1)) = Some task).
Proof.
  intros Hv Ht. cbv zeta.
  unfold postTaskRequest. rewrite Hv. run_monad.
  assert (Hb : truthy (TaskRequest.target b)
               && negb (str_or (TaskRequest.target b) "" =? "*")%string
               = false)
    by (destruct Ht as [-> | [-> | ->]]; reflexivity).
  rewrite Hb. rewrite writeAll_spec. cbn.
  split; [reflexivity|]. split; [reflexivity|]. split.
  { intros HP.
    match goal with
    | |- verifyMessage P ?f = true =>
        match f with
        | {| content := JStr ?c |} => change f with (fst (signMessage P c w))
        end
    end.
    now apply sign_verify_envelope. }
  split; [apply JSMapFacts.get_set_eq|].
  split; [reflexivity|]. split; [reflexivity|].
  intros Hd Hevs.
  match goal with
  | |- JSMap.get ?i (sentTasks (run P evs ?w1)) = Some ?t =>
      assert (H1 : JSMap.get i (sentTasks w1) = Some t)
        by apply JSMapFacts.get_set_eq;
      assert (Hs : Sent.status t = "pending") by reflexivity;
      assert (Hdl : Sent.deadline t = None) by exact Hd;
      generalize dependent w1; generalize dependent t
  end.
  intros t Hs Hdl.
  induction Hevs as [|e r He Hr IH]; intros w1 H1; cbn; [exact H1|].
  apply IH. now apply step_keeps_pending.
Qed.

Lemma broadcast_is_never_retried_witness :
  fst (postTaskRequest Toy.platform (Sample.request JUndefined None)
         Toy.world0)
  = json (BTaskSent "task-0" "*" 0).
Proof.
  refine (proj1 (@broadcast_is_never_retried Toy.platform
            (Sample.request JUndefined None) Toy.world0
            [EvRetryReaper; EvConnection "00000000peer0001"; EvRetryReaper]
            _ _)).
  - reflexivity.
  - now left.
Defined.

(** ** Targeted submission and delivery *)

(** A search finds the first entry its test passes on, the test having
    failed, without raising, on every entry before it. *)
Lemma findPeer_Found (test : string * Peer -> option bool)
    (ps : JSMap.t Peer) (kp : string * Peer) :
  findPeer test ps = Found kp ->
  exists before after,
    ps = (before ++ kp :: after)%list
    /\ Forall (fun x => test x = Some false) before
    /\ test kp = Some true.
Proof.
  induction ps as [|x r IH]; cbn; [discriminate|].
  destruct (test x) as [[|]|] eqn:E; [| |discriminate].
  - intros [= <-]. exists [], r. repeat split; [constructor|assumption].
  - intros H. destruct (IH H) as (l1 & l2 & -> & Hl & Hk).
    exists (x :: l1), l2. repeat split; [now constructor|assumption].
Qed.

(** A valid [POST /task/request] for whose target the peer search finds a
    peer (the first one whose short id is the target or whose announced
    agent_id is a string equal to it after [toLowerCase], the test having
    raised on no peer before it) writes one signed [task_request], which
    carries the request under the generated id, to that peer and to
    nobody else, answers [{status:'sent', sent_to: 1}] with the peer's
    short id as target, and stores the task as pending for that short id
    with the submitted fields and no retry bookkeeping; the envelope
    verifies when the node's key pair is sound. *)
Theorem task_request_delivered_to_target (P : Platform)
    (b : TaskRequest.t) (w : World) (t : string) (kp : string * Peer) :
  validateTaskRequest b = None ->
  TaskRequest.target b = JStr t -> t <> "" -> t <> "*" ->
  findPeer (requestMatches P t) (peers w) = Found kp ->
  let id := uuids w 0%nat in
  let w1 := snd (postTaskRequest P b w) in
  let shortId := or_star (Some (slice_last8 (fst kp))) in
  let task_type := str_or (TaskRequest.task_type b) "general" in
  let payload :=
    {| description := str_or (TaskRequest.description b) "";
       context := CtxJson match TaskRequest.context b with
                          | Some c => c
                          | None => "{}"
                          end;
       priority := str_or (TaskRequest.priority b) "medium" |} in
  let deadline := or_null (TaskRequest.deadline b) in
  let f := fst (signMessage P
                  (JSON_stringify P
                     (PTaskRequest id task_type payload deadline
                        (prefix 8 (myPeerIdRaw P)))) w) in
  let task := newSentTask shortId "pending" payload task_type
                (clock w 1%nat) deadline in
  (exists before after,
     peers w = (before ++ kp :: after)%list
     /\ Forall (fun x => requestMatches P t x = Some false) before)
  /\ (slice_last8 (fst kp) = t
      \/ exists a, agent_id_of (manifest (snd kp)) = JStr a
                   /\ toLowerCase P a = toLowerCase P t)
  /\ fst (postTaskRequest P b w) = json (BTaskSent id shortId 1)
  /\ wire w1 = (wire w ++ [(fst kp, f)])%list
  /\ (KeyPairOk P -> verifyMessage P f = true)
  /\ JSMap.get id (sentTasks w1) = Some task
  /\ Sent.attemptCount task = None
  /\ Sent.nextRetryTime task = None.
Proof.
  intros Hv Ht Hne Hstar Hfind. cbv zeta.
  destruct (findPeer_Found _ _ Hfind) as (l1 & l2 & Hps & Hl & Hk).
  split; [now exists l1, l2|]. split.
  { unfold requestMatches, agentIdMatches in Hk.
    destruct (String.eqb_spec (slice_last8 (fst kp)) t) as [E|_];
      [now left|right].
    destruct (agent_id_of (manifest (snd kp))) as [| | | |a|o];
      cbn in Hk; try discriminate.
    exists a. split; [reflexivity|].
    injection Hk as Hk. now apply String.eqb_eq in Hk. }
  unfold postTaskRequest. rewrite Hv, Ht. run_monad.
  destruct (String.eqb_spec t ""); [contradiction|].
  destruct (String.eqb_spec t "*"); [contradiction|].
  cbn. rewrite Hfind. cbn.
  split; [reflexivity|]. split; [reflexivity|]. split.
  { intros HP.
    match goal with
    | |- verifyMessage P ?f = true =>
        match f with
        | {| content := JStr ?c |} => change f with (fst (signMessage P c w))
        end
    end.
    now apply sign_verify_envelope. }
  split; [apply JSMapFacts.get_set_eq|]. split; reflexivity.
Qed.

Lemma task_request_delivered_to_target_witness :
  let w := run Toy.platform [EvConnection "00000000peer0001"] Toy.world0 in
  fst (postTaskRequest Toy.platform (Sample.request (JStr "peer0001") None) w)
  = json (BTaskSent "task-0" "peer0001" 1).
Proof.
  cbv zeta.
  match goal with
  | |- fst (postTaskRequest _ _ ?w) = _ =>
      refine (proj1 (proj2 (proj2
                (@task_request_delivered_to_target Toy.platform
                   (Sample.request (JStr "peer0001") None) w "peer0001"
                   ("00000000peer0001",
                    {| lastSeen := 300000; manifest := None |})
                   _ _ _ _ _))))
  end.
  - reflexivity.
  - reflexivity.
  - discriminate.
  - discriminate.
  - vm_compute. reflexivity.
Defined.

(** ** Frames from peers *)

Lemma toString_hex_truthy (b : bytes) :
  b <> [] -> truthy (JStr (toString_hex b)) = true.
Proof. destruct b; [contradiction|reflexivity]. Qed.

(** Sign, send, receive: the envelope that [signMessage] builds for a
    [task_request], arriving on the connection of [remoteKey], passes the
    signature check, is parsed back and installs a pending received task
    under the same [task_id], attributed to [remoteKey], and one inbox
    message carrying the request; the sent-task table is not touched.
    The JSON codec is assumed to parse back what it printed, and
    signatures and exported keys to be non-empty. *)
Theorem signed_task_request_is_received (P : Platform) (HP : KeyPairOk P)
    (w0 w : World) (remoteKey id ty : string) (pl : TaskPayload)
    (dl : option Z) (s : string) :
  let p := PTaskRequest id ty pl dl s in
  let f := fst (signMessage P (JSON_stringify P p) w0) in
  JSON_parse P (JStr (JSON_stringify P p)) = Some p ->
  (forall data, crypto_sign P (privateKey P) data <> []) ->
  export_spki P (publicKey P) <> [] ->
  let w' := snd (onData P remoteKey (Some f) w) in
  JSMap.get id (receivedTasks w') =
    Some {| Received.from := remoteKey;
            Received.fromShortId := slice_last8 remoteKey;
            Received.status := "pending";
            Received.payload := pl;
            Received.task_type := ty;
            Received.createdAt := clock w 0%nat;
            Received.deadline := dl;
            Received.result := JUndefined;
            Received.error := JUndefined |}
  /\ inbox w' =
       (inbox w ++ [ {| sender := remoteKey;
                        senderShortId := slice_last8 remoteKey;
                        msg_timestamp := clock w 1%nat;
                        msg_content := p |} ])%list
  /\ sentTasks w' = sentTasks w.
Proof.
  intros p f Hparse Hsig Hkey w'. subst w'.
  assert (Hver : verifyMessage P f = true)
    by (subst f; now apply sign_verify_envelope).
  unfold onData.
  replace (is_str "ping" (type f)) with false by reflexivity.
  replace (truthy (signature f)) with true
    by (symmetry; apply toString_hex_truthy, Hsig).
  replace (truthy (senderKey f)) with true
    by (symmetry; apply toString_hex_truthy, Hkey).
  rewrite Hver.
  replace (content f) with (JStr (JSON_stringify P p)) by reflexivity.
  rewrite Hparse. cbn.
  unfold handleTaskRequestFrame, push_from. run_monad.
  split; [apply JSMapFacts.get_set_eq|]. now split.
Qed.

Lemma signed_task_request_is_received_witness :
  option_map Received.status
    (JSMap.get "t1"
       (receivedTasks
          (snd (onData Toy.platform "00000000peer0001"
                  (Some Scenario2.request_frame) Toy.world0))))
  = Some "pending".
Proof.
  unfold Scenario2.request_frame.
  assert (Hsig : forall data,
            crypto_sign Toy.platform (privateKey Toy.platform) data <> [])
    by (intros data; discriminate).
  assert (Hkey : export_spki Toy.platform (publicKey Toy.platform) <> [])
    by discriminate.
  rewrite (proj1 (@signed_task_request_is_received Toy.platform
                    toy_keypair_ok Toy.world0 Toy.world0 "00000000peer0001"
                    "t1" "general" Toy.somePayload None "" eq_refl Hsig
                    Hkey)).
  reflexivity.
Defined.

(** A [task_response] from any connected peer is applied to the sent task
    it names, whoever the task was sent to and whatever the status
    string: status, result and error are taken from the frame,
    [completedAt] is the current time and [responder] the short id of the
    connection.  When no sent task has that id the table is unchanged.
    Either way the response is appended to the inbox, attributed to the
    connection, and the other task tables are not touched. *)
Theorem task_response_updates_sent_task (P : Platform) (w : World)
    (remoteKey : string) (raw : Frame) (id st : string) (r e : JSValue)
    (s : string) :
  is_str "ping" (type raw) = false ->
  truthy (signature raw) = true -> truthy (senderKey raw) = true ->
  verifyMessage P raw = true ->
  JSON_parse P (content raw) = Some (PTaskResponse id st r e s) ->
  let w' := snd (onData P remoteKey (Some raw) w) in
  (forall task,
     JSMap.get id (sentTasks w) = Some task ->
     sentTasks w' =
       JSMap.set id
         (Sent.set_responder (Some (slice_last8 remoteKey))
            (Sent.set_completedAt (Some (clock w 0%nat))
               (Sent.set_error e
                  (Sent.set_result r (Sent.set_status st task)))))
         (sentTasks w))
  /\ (JSMap.get id (sentTasks w) = None -> sentTasks w' = sentTasks w)
  /\ (exists t,
        inbox w' =
          (inbox w ++ [ {| sender := remoteKey;
                           senderShortId := slice_last8 remoteKey;
                           msg_timestamp := t;
                           msg_content := PTaskResponse id st r e s |} ])%list)
  /\ receivedTasks w' = receivedTasks w
  /\ deadLetterTasks w' = deadLetterTasks w.
Proof.
  intros Hping Hsig Hkey Hver Hparse. cbv zeta.
  unfold onData. rewrite Hping, Hsig, Hkey, Hver, Hparse. cbn.
  unfold handleTaskResponseFrame, push_from. run_monad.
  destruct (JSMap.get id (sentTasks w)) as [task|]; cbn.
  - split; [now intros t [= <-]|]. split; [discriminate|].
    split; [eexists; reflexivity|]. now split.
  - split; [discriminate|]. split; [reflexivity|].
    split; [eexists; reflexivity|]. now split.
Qed.

Lemma task_response_updates_sent_task_witness :
  let w := run Toy.platform
             [EvConnection "00000000peer0001";
              EvTaskRequest (Sample.request JUndefined (Some 5))]
             Toy.world0 in
  let w' := snd (onData Toy.platform "00000000peer0001"
                   (Some Scenario.accepted_frame) w) in
  verifyMessage Toy.platform Scenario.accepted_frame = true
  /\ receivedTasks w' = receivedTasks w
  /\ deadLetterTasks w' = deadLetterTasks w.
Proof.
  cbv zeta.
  assert (Hping : is_str "ping" (type Scenario.accepted_frame) = false)
    by (vm_compute; reflexivity).
  assert (Hsig : truthy (signature Scenario.accepted_frame) = true)
    by (vm_compute; reflexivity).
  assert (Hkey : truthy (senderKey Scenario.accepted_frame) = true)
    by (vm_compute; reflexivity).
  assert (Hver : verifyMessage Toy.platform Scenario.accepted_frame = true)
    by (vm_compute; reflexivity).
  assert (Hparse : JSON_parse Toy.platform (content Scenario.accepted_frame)
                   = Some (PTaskResponse "task-0" "accepted" JNull JNull ""))
    by (vm_compute; reflexivity).
  split; [exact Hver|].
  match goal with
  | |- context [onData _ _ _ ?w] =>
      exact (proj2 (proj2 (proj2
               (@task_response_updates_sent_task Toy.platform w
                  "00000000peer0001" Scenario.accepted_frame
                  "task-0" "accepted" JNull JNull ""
                  Hping Hsig Hkey Hver Hparse))))
  end.
Defined.

(** A frame that is not a ping changes nothing unless it carries a
    signature and a sender key, verifies, and has parseable content:
    unparseable buffers, unsigned frames, bad signatures and envelopes
    with unparseable content are dropped without a trace, and the session
    goes on. *)
Theorem onData_drops_bad_frames (P : Platform) (w : World)
    (remoteKey : string) (frame : option Frame) :
  (forall raw, frame = Some raw ->
     is_str "ping" (type raw) = false
     /\ (truthy (signature raw) = false
         \/ truthy (senderKey raw) = false
         \/ verifyMessage P raw = false
         \/ JSON_parse P (content raw) = None)) ->
  onData P remoteKey frame w = (tt, w).
Proof.
  intros H. unfold onData. destruct frame as [raw|]; [|reflexivity].
  destruct (H raw eq_refl) as [Hping Hbad]. rewrite Hping.
  destruct (truthy (signature raw)) eqn:Hs; [|reflexivity].
  destruct (truthy (senderKey raw)) eqn:Hk; [|reflexivity].
  cbn. destruct (verifyMessage P raw) eqn:Hv; [|reflexivity].
  cbn. destruct Hbad as [Hb|[Hb|[Hb|Hb]]]; try discriminate.
  now rewrite Hb.
Qed.

Lemma onData_drops_bad_frames_witness :
  onData Toy.platform "00000000peer0001" (Some Sample.no_content) Toy.world0
  = (tt, Toy.world0).
Proof.
  apply onData_drops_bad_frames.
  intros raw [= <-]. split; [reflexivity|].
  right. right. left. reflexivity.
Defined.

(** A verified frame whose content is a JSON value other than [null]
    and of none of the three known types is only buffered: the inbox
    gains one message attributed to the connection it arrived on (not to
    the [senderKey] of the envelope), stamped with the current time, and
    nothing else in the state changes.  A verified frame whose content is
    [null] is dropped without a trace: reading its [type] raises and the
    handler swallows the exception. *)
Theorem free_form_frame_is_buffered (P : Platform) (w : World)
    (remoteKey : string) (raw : Frame) :
  is_str "ping" (type raw) = false ->
  truthy (signature raw) = true -> truthy (senderKey raw) = true ->
  verifyMessage P raw = true ->
  (forall j,
     JSON_parse P (content raw) = Some (POther j) ->
     snd (onData P remoteKey (Some raw) w) =
       set_inbox
         (inbox w ++ [ {| sender := remoteKey;
                          senderShortId := slice_last8 remoteKey;
                          msg_timestamp := clock w 0%nat;
                          msg_content := POther j |} ])
         (set_clock (fun n => clock w (S n)) w))
  /\ (JSON_parse P (content raw) = Some PNull ->
      onData P remoteKey (Some raw) w = (tt, w)).
Proof.
  intros Hping Hsig Hkey Hver.
  unfold onData. rewrite Hping, Hsig, Hkey, Hver.
  split; [intros j Hparse|intros Hparse]; rewrite Hparse; reflexivity.
Qed.

Lemma free_form_frame_is_buffered_witness :
  List.length
    (inbox (snd (onData Toy.platform "00000000peer0001"
                   (Some (fst (signMessage Toy.platform "hello" Toy.world0)))
                   Toy.world0))) = 1%nat
  /\ onData Toy.platform "00000000peer0001"
       (Some (fst (signMessage Toy.platform "null" Toy.world0))) Toy.world0
     = (tt, Toy.world0).
Proof.
  split.
  - rewrite (proj1 (@free_form_frame_is_buffered Toy.platform Toy.world0
               "00000000peer0001"
               (fst (signMessage Toy.platform "hello" Toy.world0))
               eq_refl eq_refl eq_refl eq_refl) "hello" eq_refl).
    reflexivity.
  - apply (proj2 (@free_form_frame_is_buffered Toy.platform Toy.world0
             "00000000peer0001"
             (fst (signMessage Toy.platform "null" Toy.world0))
             eq_refl eq_refl eq_refl eq_refl)).
    reflexivity.
Defined.

(** ** Peer table *)

Lemma timeoutPeer_peers (now : Z) (x k : string) (w : World) :
  JSMap.get k (peers (snd (timeoutPeer now x w))) =
    if String.eqb x k then keepFresh now (JSMap.get k (peers w))
    else JSMap.get k (peers w).
Proof.
  unfold timeoutPeer, cleanupPeer. run_monad.
  destruct (String.eqb_spec x k) as [->|Hne].
  - destruct (JSMap.get k (peers w)) as [p|] eqn:Hget; cbn.
    + destruct (10000 <? now - lastSeen p); cbn.
      * apply JSMapFacts.get_delete_eq.
      * exact Hget.
    + exact Hget.
  - destruct (JSMap.get x (peers w)) as [p|]; cbn; [|reflexivity].
    destruct (10000 <? now - lastSeen p); cbn; [|reflexivity].
    apply JSMapFacts.get_delete_ne. congruence.
Qed.

Lemma keepFresh_idem (now : Z) (o : option Peer) :
  keepFresh now (keepFresh now o) = keepFresh now o.
Proof.
  destruct o as [p|]; cbn; [|reflexivity].
  destruct (10000 <? now - lastSeen p) eqn:E; cbn; [reflexivity|].
  now rewrite E.
Qed.

Lemma timeout_pass_peers (now : Z) (k : string) (l : list string)
    (w : World) :
  JSMap.get k (peers (snd (forEach l (timeoutPeer now) w))) =
    if existsb (String.eqb k) l then keepFresh now (JSMap.get k (peers w))
    else JSMap.get k (peers w).
Proof.
  revert w. induction l as [|x r IH]; intros w; cbn; [reflexivity|].
  unfold bind. pose proof (timeoutPeer_peers now x k w) as Hx.
  destruct (timeoutPeer now x w) as [u w1]. cbn in Hx.
  rewrite IH, Hx. rewrite (String.eqb_sym k x).
  destruct (String.eqb x k); cbn.
  - destruct (existsb (String.eqb k) r); [apply keepFresh_idem|reflexivity].
  - reflexivity.
Qed.

(** The timeout reaper removes exactly the stale peers: after a tick at
    time [now] a peer is in the table if and only if it was there with
    [now - lastSeen <= 10000], and its entry is unchanged. *)
Theorem timeout_reaper_evicts_stale (w : World) (k : string) :
  let now := clock w 0%nat in
  JSMap.get k (peers (snd (timeoutReaper w))) =
    keepFresh now (JSMap.get k (peers w))
  /\ forall p, JSMap.get k (peers (snd (timeoutReaper w))) = Some p <->
               JSMap.get k (peers w) = Some p /\ now - lastSeen p <= 10000.
Proof.
  cbv zeta.
  assert (H : JSMap.get k (peers (snd (timeoutReaper w))) =
              keepFresh (clock w 0%nat) (JSMap.get k (peers w))).
  { unfold timeoutReaper. run_monad. rewrite timeout_pass_peers. cbn.
    change (map fst (peers w)) with (JSMap.keys (peers w)).
    destruct (existsb (String.eqb k) (JSMap.keys (peers w))) eqn:E;
      [reflexivity|].
    destruct (JSMap.get k (peers w)) as [p|] eqn:Hget; [|reflexivity].
    apply JSMapFacts.get_In_keys in Hget.
    assert (existsb (String.eqb k) (JSMap.keys (peers w)) = true).
    { apply existsb_exists. exists k. split; [assumption|].
      apply String.eqb_refl. }
    congruence. }
  split; [exact H|]. intros p. rewrite H. unfold keepFresh.
  destruct (JSMap.get k (peers w)) as [q|].
  - destruct (10000 <? clock w 0%nat - lastSeen q) eqn:E.
    + split; [discriminate|]. intros [[= ->] Hle].
      apply Z.ltb_lt in E. lia.
    + split.
      * intros [= ->]. split; [reflexivity|]. apply Z.ltb_ge in E. lia.
      * now intros [[= ->] _].
  - split; [discriminate|]. now intros [? _].
Qed.

Lemma retryTask_observed (P : Platform) (now : Z) (x : string) (w : World) :
  totalUniquePeers (snd (retryTask P now x w)) = totalUniquePeers w.
Proof.
  retryTask_cases x task w; reflexivity.
Qed.

Lemma timeoutPeer_observed (now : Z) (key : string) (w : World) :
  totalUniquePeers (snd (timeoutPeer now key w)) = totalUniquePeers w.
Proof.
  unfold timeoutPeer, cleanupPeer. run_monad.
  destruct (JSMap.get key (peers w)) as [p|]; [|reflexivity].
  now destruct (10000 <? now - lastSeen p).
Qed.

Lemma handleMessageSend_observed (P : Platform) (i : JSValue)
    (params : option A2A.SendParams) (w : World) :
  totalUniquePeers (snd (handleMessageSend P i params w))
  = totalUniquePeers w.
Proof.
  destruct (validateMessageSendParams params) eqn:Hv.
  { unfold handleMessageSend. now rewrite Hv. }
  destruct (handleMessageSend_valid P i params w Hv)
    as (p & m & -> & Hm & ->).
  match goal with
  | |- context [messageSend_deliver P ?t ?f ?w1] =>
      destruct (messageSend_deliver_cases P t f w1)
        as [(e & -> & _)|[(kp & -> & _)|[(-> & _)|(-> & _)]]]
  end; cbv beta iota zeta; try reflexivity;
    match goal with
    | |- context [ktpTaskToA2ATask ?t ?a ?b ?w0] =>
        assert (Hk : totalUniquePeers (snd (ktpTaskToA2ATask t a b w0))
                     = totalUniquePeers w0)
          by (unfold ktpTaskToA2ATask, bind, Date_now, ret;
              now destruct (Sent.createdAt t =? 0));
        destruct (ktpTaskToA2ATask t a b w0) as [a2a w4]
    end;
    cbn in Hk |- *; now rewrite Hk.
Qed.

Lemma step_observed (P : Platform) (e : Event) (w : World) :
  totalUniquePeers (step P e w) =
    match e with
    | EvConnection k => set_add k (totalUniquePeers w)
    | _ => totalUniquePeers w
    end.
Proof.
  destruct e; cbn [step].
  - reflexivity.
  - unfold onData. destruct frame as [raw|]; [|reflexivity].
    destruct (is_str "ping" (type raw)).
    { run_monad. now destruct (JSMap.get remoteKey (peers w)). }
    destruct (truthy (signature raw) && truthy (senderKey raw));
      [|reflexivity].
    destruct (negb (verifyMessage P raw)); [reflexivity|].
    destruct (JSON_parse P (content raw)) as [[|m|i ty pl dl s|i st r e s|j]|];
      unfold dispatch, handleTaskRequestFrame, handleTaskResponseFrame,
        push_from;
      run_monad; try reflexivity.
    + now destruct (JSMap.get remoteKey (peers w)).
    + now destruct (JSMap.get i (sentTasks w)).
  - reflexivity.
  - unfold timeoutReaper. run_monad.
    apply (@forEach_preserves _
             (fun w1 => totalUniquePeers w1 = totalUniquePeers w));
      [|reflexivity].
    intros x w1 H1. now rewrite timeoutPeer_observed.
  - rewrite retryReaper_unfold.
    apply (@forEachC_preserves _
             (fun w1 => totalUniquePeers w1 = totalUniquePeers w));
      [|reflexivity].
    intros x w1 H1. now rewrite retryTask_observed.
  - reflexivity.
  - unfold postJoin. destruct (topic =? "")%string; [reflexivity|].
    unfold joinTopic. run_monad.
    now destruct (JSMap.get topic (activeTopics w)).
  - unfold postLeave. destruct (topic =? "")%string; [reflexivity|].
    unfold leaveTopic, swarm_leave. run_monad.
    now destruct (JSMap.get topic (activeTopics w)).
  - unfold postBroadcast. run_monad. now rewrite writeAll_spec.
  - unfold postTaskRequest.
    destruct (validateTaskRequest b); [reflexivity|].
    run_monad.
    destruct (truthy (TaskRequest.target b)
              && negb (str_or (TaskRequest.target b) "" =? "*")%string).
    + cbn.
      now destruct (findPeer
                      (requestMatches P (str_or (TaskRequest.target b) ""))
                      (peers w)).
    + now rewrite writeAll_spec.
  - unfold postTaskRespond.
    destruct (TaskRespond.task_id b =? "")%string; [reflexivity|].
    match goal with |- context [if ?c then _ else _] => destruct c end;
      [reflexivity|].
    run_monad.
    destruct (JSMap.get (TaskRespond.task_id b) (receivedTasks w));
      [|reflexivity].
    cbn. match goal with |- context [find ?f ?l] => destruct (find f l) end;
      reflexivity.
  - unfold postTasksRetry. run_monad.
    now destruct (JSMap.get task_id (deadLetterTasks w)).
  - apply handleMessageSend_observed.
Qed.

Lemma set_add_In (x y : string) (s : list string) :
  In y (set_add x s) <-> y = x \/ In y s.
Proof.
  unfold set_add. destruct (existsb (String.eqb x) s) eqn:E.
  - split; [now right|]. intros [->|H]; [|assumption].
    apply existsb_exists in E as (z & Hz & Heq).
    apply String.eqb_eq in Heq. now subst.
  - rewrite in_app_iff. cbn. intuition.
Qed.

Lemma run_observed_mono (P : Platform) (evs : list Event) (w : World)
    (k : string) :
  In k (totalUniquePeers w) -> In k (totalUniquePeers (run P evs w)).
Proof.
  revert w. induction evs as [|e r IH]; intros w H; cbn; [exact H|].
  apply IH. rewrite step_observed.
  destruct e; try exact H. apply set_add_In. now right.
Qed.

(** The observed-peers set only grows, and it holds the node's own id and
    the key of every peer that ever connected: nothing removes a key from
    it, not even the peer's eviction. *)
Theorem observed_peers_only_grow (P : Platform) (c : nat -> Z)
    (u : nat -> string) (evs more : list Event) (k : string) :
  let w := run P evs (boot P c u) in
  (k = myPeerId P \/ In (EvConnection k) evs \/ In k (totalUniquePeers w)) ->
  In k (totalUniquePeers w)
  /\ In k (totalUniquePeers (run P more w)).
Proof.
  intros w H.
  assert (Hin : In k (totalUniquePeers w)).
  { destruct H as [->|[H|H]]; [| |exact H].
    - subst w. apply run_observed_mono. cbn. now left.
    - subst w. generalize (boot P c u). intros w0.
      revert w0. induction evs as [|e r IH]; intros w0; [destruct H|].
      cbn. destruct H as [->|H].
      + apply run_observed_mono. rewrite step_observed.
        apply set_add_In. now left.
      + now apply IH. }
  split; [exact Hin|]. now apply run_observed_mono.
Qed.

Lemma observed_peers_only_grow_witness :
  In "00000000peer0001"
    (totalUniquePeers
       (run Toy.platform [EvClose "00000000peer0001"; EvTimeoutReaper]
          (run Toy.platform [EvConnection "00000000peer0001"]
             (boot Toy.platform Toy.clock0 Toy.uuids0)))).
Proof.
  apply (@observed_peers_only_grow Toy.platform Toy.clock0 Toy.uuids0
           [EvConnection "00000000peer0001"]
           [EvClose "00000000peer0001"; EvTimeoutReaper]
           "00000000peer0001").
  right. left. now left.
Defined.

(** ** Topics *)

(** Joining is idempotent and the first join wins: joining a topic that
    is already joined returns the hash stored at the first join and
    changes nothing, even when it is given a different secret.  A first
    join returns the SHA-256 of the name, or of [name:secret] for a
    private topic, in hexadecimal. *)
Theorem join_is_idempotent (P : Platform) (w : World)
    (topic secret secret' : string) :
  let w1 := snd (joinTopic P topic secret w) in
  joinTopic P topic secret' w1 = (fst (joinTopic P topic secret w), w1)
  /\ (JSMap.get topic (activeTopics w) = None ->
      fst (joinTopic P topic secret w) =
        toString_hex
          (sha256 P (list_ascii_of_string
                       (if String.eqb secret "" then topic
                        else topic ++ ":" ++ secret)))
      /\ option_map hasSecret (JSMap.get topic (activeTopics w1))
         = Some (negb (String.eqb secret ""))).
Proof.
  cbv zeta. unfold joinTopic. run_monad.
  destruct (JSMap.get topic (activeTopics w)) as [info|] eqn:Hget; cbn.
  - rewrite Hget. split; [reflexivity|discriminate].
  - rewrite JSMapFacts.get_set_eq. cbn. split; [reflexivity|].
    intros _. split; reflexivity.
Qed.

(** Public and private topics share one hash space: the public topic
    named [name:secret] has the hash of the private topic [name] with
    that secret. *)
Theorem topic_hash_is_not_domain_separated (P : Platform) (w : World)
    (name secret : string) :
  secret <> "" ->
  JSMap.get name (activeTopics w) = None ->
  JSMap.get (name ++ ":" ++ secret) (activeTopics w) = None ->
  fst (joinTopic P (name ++ ":" ++ secret) "" w)
  = fst (joinTopic P name secret w).
Proof.
  intros Hs H1 H2. unfold joinTopic. run_monad. cbn in H2.
  rewrite H1, H2. cbn.
  destruct (String.eqb_spec secret ""); [contradiction|reflexivity].
Qed.

Lemma topic_hash_is_not_domain_separated_witness :
  fst (joinTopic Toy.platform "room:pw" "" Toy.world0)
  = fst (joinTopic Toy.platform "room" "pw" Toy.world0).
Proof.
  apply (@topic_hash_is_not_domain_separated Toy.platform Toy.world0
           "room" "pw").
  - discriminate.
  - reflexivity.
  - reflexivity.
Defined.

(** Leaving undoes joining, and a second leave fails: after
    [POST /leave] of any name, successful or not, the name is not in
    [activeTopics] and leaving it again answers 404 without changing the
    state. *)
Theorem leave_twice (w : World) (topic : string) :
  topic <> "" ->
  let w1 := snd (postLeave topic w) in
  JSMap.get topic (activeTopics w1) = None
  /\ postLeave topic w1 = (status_json 404 (BError "Not in topic"), w1).
Proof.
  intros Hne. cbv zeta.
  assert (H1 : JSMap.get topic (activeTopics (snd (postLeave topic w)))
               = None).
  { unfold postLeave, leaveTopic, swarm_leave. run_monad.
    destruct (String.eqb_spec topic ""); [contradiction|]. cbn.
    destruct (JSMap.get topic (activeTopics w)) eqn:Hget; cbn.
    - apply JSMapFacts.get_delete_eq.
    - exact Hget. }
  split; [exact H1|].
  generalize dependent (snd (postLeave topic w)). intros w1 H1.
  unfold postLeave, leaveTopic. run_monad.
  destruct (String.eqb_spec topic ""); [contradiction|]. cbn.
  now rewrite H1.
Qed.

Lemma leave_twice_witness :
  let w1 := snd (postLeave defaultTopic Toy.world0) in
  postLeave defaultTopic w1 = (status_json 404 (BError "Not in topic"), w1).
Proof.
  cbv zeta.
  apply (proj2 (@leave_twice Toy.world0 defaultTopic
                  ltac:(discriminate))).
Defined.

(** Joining a topic that is not joined and leaving it again restores the
    topic table: the name is no longer listed, every other name is as
    before, and [POST /leave] answers [{status:'left'}]. *)
Theorem join_then_leave (P : Platform) (w : World) (topic secret : string) :
  topic <> "" ->
  JSMap.get topic (activeTopics w) = None ->
  let w1 := snd (postJoin P topic secret w) in
  let w2 := snd (postLeave topic w1) in
  fst (postLeave topic w1) = json (BLeft topic)
  /\ forall name, JSMap.get name (activeTopics w2)
                  = JSMap.get name (activeTopics w).
Proof.
  intros Hne Hget. cbv zeta.
  unfold postJoin, postLeave, joinTopic, leaveTopic, swarm_leave. run_monad.
  destruct (String.eqb_spec topic ""); [contradiction|]. cbn.
  rewrite Hget. cbn. rewrite JSMapFacts.get_set_eq. cbn.
  split; [reflexivity|]. intros name.
  rewrite JSMapFacts.get_delete, JSMapFacts.get_set.
  destruct (String.eqb_spec name topic) as [->|_]; [now rewrite Hget|].
  reflexivity.
Qed.

Lemma join_then_leave_witness :
  fst (postLeave "room"
         (snd (postJoin Toy.platform "room" "pw" Toy.world0)))
  = json (BLeft "room").
Proof.
  apply (proj1 (@join_then_leave Toy.platform Toy.world0 "room" "pw"
                  ltac:(discriminate) eq_refl)).
Defined.

(** ** Validation of task requests *)

Lemma includes_In (l : list string) (v : JSValue) :
  includes l v = true <-> exists s, v = JStr s /\ In s l.
Proof.
  destruct v; cbn; try (split; [discriminate|intros (s0 & [=] & _)]).
  rewrite existsb_exists. split.
  - intros (x & Hx & Heq). apply String.eqb_eq in Heq. subst.
    now exists x.
  - intros (s0 & [= <-] & Hin). exists s. split; [assumption|].
    apply String.eqb_refl.
Qed.

(** On ASCII text the length in UTF-16 code units is the number of
    bytes. *)
Lemma js_length_ascii (s : string) :
  forallb (fun c => (N_of_ascii c <? 128)%N) (list_ascii_of_string s) = true ->
  js_length s = String.length s.
Proof.
  induction s as [|c r IH]; cbn; [reflexivity|].
  intros H. apply andb_true_iff in H as [Hc Hr].
  unfold units_of_byte. rewrite Hc, (IH Hr). reflexivity.
Qed.

(** [POST /task/request] accepts exactly the bodies whose description is
    a non-empty string of at most 10000 UTF-16 code units, whose target
    is absent or a string, whose task_type and priority are falsy or in
    their closed lists, and whose context, if any, serialises to at most
    50000 UTF-16 code units; any other body is answered 400 with the
    reason, and then nothing changes: no task id is drawn, no frame is
    written, no table is touched. *)
Theorem task_request_validation (P : Platform) (b : TaskRequest.t)
    (w : World) :
  (validateTaskRequest b = None <->
   (exists d, TaskRequest.description b = JStr d /\ d <> ""
              /\ Z.of_nat (js_length d) <= 10000)
   /\ (TaskRequest.target b = JUndefined
       \/ exists t, TaskRequest.target b = JStr t)
   /\ (truthy (TaskRequest.task_type b) = false
       \/ exists s, TaskRequest.task_type b = JStr s
                    /\ In s VALID_TASK_TYPES)
   /\ (truthy (TaskRequest.priority b) = false
       \/ exists s, TaskRequest.priority b = JStr s
                    /\ In s VALID_PRIORITIES)
   /\ (forall c, TaskRequest.context b = Some c ->
                 Z.of_nat (js_length c) <= 50000))
  /\ (forall err, validateTaskRequest b = Some err ->
        postTaskRequest P b w = (status_json 400 (BError err), w)).
Proof.
  split.
  2:{ intros err He. unfold postTaskRequest. now rewrite He. }
  unfold validateTaskRequest, MAX_DESCRIPTION_LENGTH, MAX_CONTEXT_SIZE.
  split.
  - (* accepted bodies are well formed *)
    destruct (truthy (TaskRequest.description b)) eqn:Htd; cbn;
      [|discriminate].
    destruct (TaskRequest.description b) as [| | | | d |]; try discriminate.
    destruct (10000 <? Z.of_nat (js_length d)) eqn:Hlen;
      [discriminate|].
    destruct (match TaskRequest.target b with
              | JUndefined | JStr _ => false
              | _ => true
              end) eqn:Htgt; [discriminate|].
    destruct (truthy (TaskRequest.task_type b)
              && negb (includes VALID_TASK_TYPES (TaskRequest.task_type b)))
      eqn:Htt; [discriminate|].
    destruct (truthy (TaskRequest.priority b)
              && negb (includes VALID_PRIORITIES (TaskRequest.priority b)))
      eqn:Htp; [discriminate|].
    destruct (match TaskRequest.context b with
              | Some c => 50000 <? Z.of_nat (js_length c)
              | None => false
              end) eqn:Hctx; [discriminate|].
    intros _. split; [|split; [|split; [|split]]].
    + exists d. split; [reflexivity|]. split.
      * intros ->. discriminate.
      * now apply Z.ltb_ge.
    + destruct (TaskRequest.target b); try discriminate;
        [now left | right; eexists; reflexivity].
    + apply andb_false_iff in Htt as [Htt|Htt]; [now left|right].
      apply negb_false_iff in Htt. apply includes_In in Htt. exact Htt.
    + apply andb_false_iff in Htp as [Htp|Htp]; [now left|right].
      apply negb_false_iff in Htp. apply includes_In in Htp. exact Htp.
    + intros c Hc. rewrite Hc in Hctx. now apply Z.ltb_ge.
  - (* well-formed bodies are accepted *)
    intros ((d & -> & Hd & Hlen) & Htgt & Htt & Htp & Hctx). cbn.
    destruct (String.eqb_spec d ""); [contradiction|]. cbn.
    apply Z.ltb_ge in Hlen. rewrite Hlen.
    replace (match TaskRequest.target b with
             | JUndefined | JStr _ => false
             | _ => true
             end) with false
      by (destruct Htgt as [->|(t & ->)]; reflexivity).
    replace (truthy (TaskRequest.task_type b)
             && negb (includes VALID_TASK_TYPES (TaskRequest.task_type b)))
      with false
      by (destruct Htt as [->|Hex]; [reflexivity|];
          apply includes_In in Hex; rewrite Hex;
          now rewrite andb_false_r).
    replace (truthy (TaskRequest.priority b)
             && negb (includes VALID_PRIORITIES (TaskRequest.priority b)))
      with false
      by (destruct Htp as [->|Hex]; [reflexivity|];
          apply includes_In in Hex; rewrite Hex;
          now rewrite andb_false_r).
    destruct (TaskRequest.context b) as [c|]; [|reflexivity].
    specialize (Hctx c eq_refl). apply Z.ltb_ge in Hctx.
    now rewrite Hctx.
Qed.

(** ** Responding to a received task *)

Lemma find_by_key {V} (k : string) (m : JSMap.t V) :
  find (fun kp => String.eqb (fst kp) k) m
  = option_map (fun v => (k, v)) (JSMap.get k m).
Proof.
  induction m as [|[k' v] r IH]; cbn; [reflexivity|].
  rewrite (String.eqb_sym k k').
  destruct (String.eqb_spec k' k) as [->|_]; [reflexivity|exact IH].
Qed.

(** [POST /task/respond] on a received task with one of the five accepted
    statuses records the status, and the result and error when given, on
    the local entry, whether or not the requester is still connected.
    When it is, one signed [task_response] goes to it; when it is not,
    nothing is written and the response is lost: the answer says
    [sent_to_requester: false] and nothing is queued.  The sent-task
    table is not touched.  An unknown [task_id] is answered 404 and a
    status outside the list 400, without any change. *)
Theorem task_respond (P : Platform) (w : World) (b : TaskRespond.t)
    (task : Received.t) :
  TaskRespond.task_id b <> "" ->
  let id := TaskRespond.task_id b in
  let st := TaskRespond.status b in
  let w' := snd (postTaskRespond P b w) in
  (In st validStatuses ->
   JSMap.get id (receivedTasks w) = Some task ->
   fst (postTaskRespond P b w)
   = json (BResponded id st (JSMap.has (Received.from task) (peers w)))
   /\ JSMap.get id (receivedTasks w') =
        Some {| Received.from := Received.from task;
                Received.fromShortId := Received.fromShortId task;
                Received.status := st;
                Received.payload := Received.payload task;
                Received.task_type := Received.task_type task;
                Received.createdAt := Received.createdAt task;
                Received.deadline := Received.deadline task;
                Received.result :=
                  or_old (TaskRespond.result b) (Received.result task);
                Received.error :=
                  or_old (TaskRespond.error b) (Received.error task) |}
   /\ (JSMap.has (Received.from task) (peers w) = true ->
       let f := fst (signMessage P
                       (JSON_stringify P
                          (PTaskResponse id st
                             (or_JNull (TaskRespond.result b))
                             (or_JNull (TaskRespond.error b))
                             (prefix 8 (myPeerIdRaw P)))) w) in
       wire w' = (wire w ++ [(Received.from task, f)])%list
       /\ (KeyPairOk P -> verifyMessage P f = true))
   /\ (JSMap.has (Received.from task) (peers w) = false ->
       wire w' = wire w)
   /\ sentTasks w' = sentTasks w)
  /\ (In st validStatuses ->
      JSMap.get id (receivedTasks w) = None ->
      postTaskRespond P b w
      = (status_json 404 (BError "Task not found in received tasks"), w))
  /\ (~ In st validStatuses ->
      fst (postTaskRespond P b w) = status_json 400
        (BError "status must be one of: accepted, rejected, in_progress, completed, failed")
      /\ w' = w).
Proof.
  intros Hid. cbv zeta. unfold postTaskRespond.
  destruct (String.eqb_spec (TaskRespond.task_id b) ""); [contradiction|].
  change ["accepted"; "rejected"; "in_progress"; "completed"; "failed"]
    with validStatuses.
  destruct (existsb (String.eqb (TaskRespond.status b)) validStatuses)
    eqn:Hst; cbn [negb].
  - assert (Hin : In (TaskRespond.status b) validStatuses).
    { apply existsb_exists in Hst as (x & Hx & Heq).
      apply String.eqb_eq in Heq. now rewrite Heq. }
    split; [|split; [|contradiction]].
    + intros _ Hget. unfold JSMap.has.
      destruct (TaskRespond.error b) eqn:He;
        destruct (TaskRespond.result b) eqn:Hr;
        run_monad; rewrite Hget; cbn; rewrite find_by_key; cbn;
        destruct (JSMap.get (Received.from task) (peers w)) as [p|]; cbn;
        (split; [reflexivity|]);
        (split; [now rewrite JSMapFacts.get_set_eq|]);
        (split; [first [discriminate
                       | intros _; split;
                         [reflexivity
                         | intros HP;
                           match goal with
                           | |- verifyMessage P ?f = true =>
                               match f with
                               | {| content := JStr ?c |} =>
                                   change f with (fst (signMessage P c w))
                               end
                           end;
                           now apply sign_verify_envelope]]|]);
        (split; [first [discriminate | reflexivity]|]);
        reflexivity.
    + intros _ Hget. run_monad. now rewrite Hget.
  - split; [|split].
    + intros Hin. exfalso.
      assert (existsb (String.eqb (TaskRespond.status b)) validStatuses
              = true); [|congruence].
      apply existsb_exists. exists (TaskRespond.status b).
      split; [assumption|apply String.eqb_refl].
    + intros Hin. exfalso.
      assert (existsb (String.eqb (TaskRespond.status b)) validStatuses
              = true); [|congruence].
      apply existsb_exists. exists (TaskRespond.status b).
      split; [assumption|apply String.eqb_refl].
    + intros _. split; reflexivity.
Qed.

Lemma task_respond_witness :
  let w := run Toy.platform
             [EvConnection "00000000peer0001";
              EvData "00000000peer0001" (Some Scenario2.request_frame)]
             Toy.world0 in
  fst (postTaskRespond Toy.platform
         {| TaskRespond.task_id := "t1";
            TaskRespond.status := "accepted";
            TaskRespond.result := JUndefined;
            TaskRespond.error := JUndefined |} w)
  = json (BResponded "t1" "accepted" true).
Proof.
  cbv zeta.
  match goal with
  | |- fst (postTaskRespond _ ?b ?w) = _ =>
      assert (Hget : JSMap.get "t1" (receivedTasks w)
                     = Some (Received.mk "00000000peer0001" "peer0001"
                               "pending" Toy.somePayload "general" 400000
                               None JUndefined JUndefined))
        by (vm_compute; reflexivity);
      assert (Hhas : JSMap.has "00000000peer0001" (peers w) = true)
        by (vm_compute; reflexivity);
      pose proof (proj1 (proj1 (@task_respond Toy.platform w b _
                                  ltac:(discriminate))
                           ltac:(cbn; tauto) Hget)) as H
  end.
  cbn [Received.from] in H. rewrite Hhas in H. exact H.
Defined.

(** ** Broadcast and loopback *)

(** [POST /broadcast] signs the content once and writes that one envelope
    to every connected peer, answers with their number, and appends the
    original content to the node's own inbox under its own id; the next
    [GET /inbox] returns it after the messages already buffered, also
    when no peer is connected. *)
Theorem broadcast_loopback (P : Platform) (w : World) (c : Payload) :
  let w1 := snd (postBroadcast P c w) in
  fst (postBroadcast P c w)
  = json (BBroadcast (Z.of_nat (List.length (peers w))))
  /\ (exists f,
        wire w1 = (wire w ++ map (fun k => (k, f)) (JSMap.keys (peers w)))%list
        /\ content f = JStr (JSON_stringify P c)
        /\ (KeyPairOk P -> verifyMessage P f = true))
  /\ fst (getInbox w1) =
       json (BInbox (Z.of_nat (List.length (inbox w) + 1))
               (inbox w ++ [ {| sender := myPeerId P;
                                senderShortId := prefix 8 (myPeerIdRaw P);
                                msg_timestamp := clock w 1%nat;
                                msg_content := c |} ])%list)
  /\ inbox (snd (getInbox w1)) = [].
Proof.
  cbv zeta. unfold postBroadcast, getInbox. run_monad.
  rewrite writeAll_spec. cbn.
  split; [reflexivity|]. split.
  - eexists. split; [reflexivity|]. split; [reflexivity|].
    intros HP.
    match goal with
    | |- verifyMessage P ?f = true =>
        change f with (fst (signMessage P (JSON_stringify P c) w))
    end.
    now apply sign_verify_envelope.
  - rewrite length_app. cbn. split; reflexivity.
Qed.

(** ** Authentication *)

Lemma split_on_no_sep (s : string) :
  no_space s = true -> split_on " " s = [s].
Proof.
  unfold no_space. induction s as [|c r IH]; cbn; [reflexivity|].
  intros H. apply andb_true_iff in H as [Hc Hr].
  apply negb_true_iff in Hc. rewrite Hc. now rewrite IH.
Qed.

Lemma split_on_app (a b : string) :
  no_space a = true ->
  split_on " " (a ++ String " " b) = a :: split_on " " b.
Proof.
  unfold no_space. induction a as [|c r IH]; cbn; [reflexivity|].
  intros H. apply andb_true_iff in H as [Hc Hr].
  apply negb_true_iff in Hc. rewrite Hc. now rewrite IH.
Qed.

(** [requireAuth] lets every request through when no API key is
    configured.  With a key, a request passes only if its authorization
    header splits at spaces into a scheme whose [toLowerCase] is "bearer",
    then exactly the key (anything after a further space is ignored);
    such a header passes when scheme and key have no space; a missing
    header is answered 401.  A different, non-empty token is answered 403
    when it differs from the key in length, counted in UTF-16 code units,
    or has as many bytes as the key; when it has as many code units as
    the key and another number of bytes, the comparison raises a
    [RangeError]. *)
Theorem requireAuth_spec (P : Platform) (API_KEY : string) :
  (API_KEY = "" -> forall h, requireAuth P API_KEY h = AuthNext)
  /\ (API_KEY <> "" ->
      (forall h, requireAuth P API_KEY h = AuthNext ->
         exists header scheme rest,
           h = Some header
           /\ split_on " " header = scheme :: API_KEY :: rest
           /\ toLowerCase P scheme = "bearer")
      /\ (forall scheme,
            toLowerCase P scheme = "bearer" -> no_space scheme = true ->
            no_space API_KEY = true ->
            requireAuth P API_KEY (Some (scheme ++ " " ++ API_KEY))
            = AuthNext)
      /\ requireAuth P API_KEY None
         = AuthReject 401 "Unauthorized" "Bearer token required"
      /\ (forall scheme token,
            toLowerCase P scheme = "bearer" -> no_space scheme = true ->
            token <> "" -> token <> API_KEY -> no_space token = true ->
            requireAuth P API_KEY (Some (scheme ++ " " ++ token))
            = if (js_length token =? js_length API_KEY)%nat
                 && negb (String.length token =? String.length API_KEY)%nat
              then AuthThrow RangeError
              else AuthReject 403 "Forbidden" "Invalid API key")).
Proof.
  split.
  - intros -> h. reflexivity.
  - intros Hk. unfold requireAuth.
    destruct (String.eqb_spec API_KEY ""); [contradiction|].
    split; [|split; [|split]].
    + intros [header|]; [|discriminate].
      destruct (String.eqb header ""); [discriminate|].
      destruct (split_on " " header) as [|scheme [|token rest]] eqn:Hsp;
        cbn; try discriminate.
      destruct (String.eqb_spec (toLowerCase P scheme) "bearer") as [Hb|];
        cbn; [|discriminate].
      destruct (String.eqb token ""); [discriminate|].
      destruct (js_length token =? js_length API_KEY)%nat; cbn;
        [|discriminate].
      destruct (String.length token =? String.length API_KEY)%nat; cbn;
        [|discriminate].
      destruct (String.eqb_spec token API_KEY) as [->|]; cbn;
        [|discriminate].
      intros _. now exists header, scheme, rest.
    + intros scheme Hb Hs Hkey.
      assert (Hne : (scheme ++ " " ++ API_KEY =? "")%string = false)
        by (destruct scheme; reflexivity).
      rewrite Hne. change (scheme ++ " " ++ API_KEY)%string
        with (scheme ++ String " " API_KEY)%string.
      rewrite split_on_app, split_on_no_sep by assumption. cbn.
      rewrite Hb. cbn.
      destruct (String.eqb_spec API_KEY ""); [contradiction|].
      now rewrite !Nat.eqb_refl, String.eqb_refl.
    + reflexivity.
    + intros scheme token Hb Hsch Ht Hneq Hs.
      assert (Hne : (scheme ++ " " ++ token =? "")%string = false)
        by (destruct scheme; reflexivity).
      rewrite Hne. change (scheme ++ " " ++ token)%string
        with (scheme ++ String " " token)%string.
      rewrite split_on_app, split_on_no_sep by assumption.
      cbn. rewrite Hb. cbn.
      destruct (String.eqb_spec token ""); [contradiction|].
      destruct (js_length token =? js_length API_KEY)%nat; cbn;
        [|reflexivity].
      destruct (String.length token =? String.length API_KEY)%nat; cbn;
        [|reflexivity].
      destruct (String.eqb_spec token API_KEY); [contradiction|].
      reflexivity.
Qed.

(** ** A2A [message/send] *)

Lemma validateParts_cons (i : nat) (part : A2A.Part)
    (r : list A2A.Part) :
  validateParts i (part :: r) =
    if negb (truthy (A2A.kind part)) || negb (is_string (A2A.kind part))
    then Some ("message.parts[" ++ index_text i ++ "].kind is required")
    else if is_str "text" (A2A.kind part)
            && negb (is_string (A2A.text part))
    then Some ("message.parts[" ++ index_text i
               ++ "].text is required for text parts")
    else validateParts (S i) r.
Proof. reflexivity. Qed.

Lemma validateParts_ok (i : nat) (parts : list A2A.Part) :
  validateParts i parts = None <-> Forall partOk parts.
Proof.
  revert i. induction parts as [|part r IH]; intros i.
  - split; [constructor|reflexivity].
  - rewrite validateParts_cons.
    destruct (A2A.kind part) as [| | | | k |] eqn:Hk; cbn -[validateParts];
      try (split; [discriminate|];
           intros H; inversion H as [|? ? (k0 & Hk0 & _) _]; subst;
           congruence).
    + destruct b; (split; [discriminate|]);
        intros H; inversion H as [|? ? (k0 & Hk0 & _) _]; congruence.
    + destruct (n =? 0); (split; [discriminate|]);
        intros H; inversion H as [|? ? (k0 & Hk0 & _) _]; congruence.
    + destruct (String.eqb_spec k "") as [->|Hne]; cbn -[validateParts].
      { split; [discriminate|].
        intros H. inversion H as [|? ? (k0 & Hk0 & Hne0 & _) _].
        congruence. }
      destruct (String.eqb_spec k "text") as [->|Hnt]; cbn -[validateParts].
      * destruct (A2A.text part) as [| | | | t |] eqn:Ht;
          cbn -[validateParts];
          try (split; [discriminate|];
               intros H; inversion H as [|? ? (k0 & Hk0 & _ & Htx) _];
               rewrite Hk in Hk0; injection Hk0 as <-;
               destruct (Htx eq_refl) as (t0 & Ht0);
               rewrite Ht in Ht0; discriminate).
        rewrite IH. split.
        -- intros Hr. constructor; [|assumption].
           exists "text". repeat split; try assumption; try discriminate.
           intros _. now exists t.
        -- intros H. now inversion H.
      * rewrite IH. split.
        -- intros Hr. constructor; [|assumption].
           exists k. repeat split; try assumption. intros ->. contradiction.
        -- intros H. now inversion H.
Qed.

(** [message/send] accepts exactly the params that are an object with a
    message whose role is a non-empty string and whose parts are an array
    of well-formed parts (an empty array and empty texts included).
    Anything else is answered with JSON-RPC error -32602 carrying the
    reason, under the request id or [null] when the id is falsy (so id 0
    is echoed as null), and changes nothing. *)
Theorem message_send_validation (P : Platform) (i : JSValue)
    (params : option A2A.SendParams) (w : World) :
  (validateMessageSendParams params = None <->
   exists p m r parts,
     params = Some p /\ A2A.message p = Some m
     /\ A2A.role m = JStr r /\ r <> ""
     /\ A2A.parts m = Some parts /\ Forall partOk parts)
  /\ (forall err, validateMessageSendParams params = Some err ->
        handleMessageSend P i params w
        = (json (BRpcError (if truthy i then i else JNull) (-32602)
                   "Invalid params" (Some err)), w)).
Proof.
  split.
  2:{ intros err He. unfold handleMessageSend. now rewrite He. }
  unfold validateMessageSendParams.
  destruct params as [p|].
  2:{ split; [discriminate|]. intros (p & m & r & parts & [=] & _). }
  destruct (A2A.message p) as [m|] eqn:Hm.
  2:{ split; [discriminate|].
      intros (p0 & m & r & parts & [= <-] & Hm0 & _). congruence. }
  destruct (A2A.role m) as [| | | | r |] eqn:Hr; cbn;
    try (split; [discriminate|];
         intros (p0 & m0 & r0 & parts & [= <-] & Hm0 & Hr0 & _);
         congruence).
  - destruct b; (split; [discriminate|]);
      intros (p0 & m0 & r0 & parts & [= <-] & Hm0 & Hr0 & _); congruence.
  - destruct (n =? 0); (split; [discriminate|]);
      intros (p0 & m0 & r0 & parts & [= <-] & Hm0 & Hr0 & _); congruence.
  - destruct (String.eqb_spec r "") as [->|Hne]; cbn.
    { split; [discriminate|].
      intros (p0 & m0 & r0 & parts & [= <-] & Hm0 & Hr0 & Hne0 & _).
      congruence. }
    destruct (A2A.parts m) as [parts|] eqn:Hp.
    + rewrite validateParts_ok. split.
      * intros Hf. now exists p, m, r, parts.
      * intros (p0 & m0 & r0 & parts0 & [= <-] & Hm0 & _ & _ & Hp0 & Hf).
        congruence.
    + split; [discriminate|].
      intros (p0 & m0 & r0 & parts0 & [= <-] & Hm0 & _ & _ & Hp0 & _).
      congruence.
Qed.

Lemma a2a_description (message : A2A.Message) (contextId : JSValue) :
  let d := description (a2aMessageToKtpPayload message contextId) in
  d <> ""
  /\ d = (let texts := textsOf match A2A.parts message with
                               | Some l => l
                               | None => []
                               end in
          if String.eqb (join (String "010" "") texts) "" then "A2A task"
          else join (String "010" "") texts)
  /\ priority (a2aMessageToKtpPayload message contextId) = "medium".
Proof.
  cbn. unfold textsOf.
  destruct (String.eqb_spec
              (join (String "010" "")
                 (flat_map textOf match A2A.parts message with
                                  | Some l => l
                                  | None => []
                                  end)) "") as [E|E].
  - split; [discriminate|]. now split.
  - split; [assumption|]. now split.
Qed.

(** A valid [message/send] whose peer search does not raise creates one
    KTP task under a fresh id and answers with its A2A projection: the
    task is of type general with priority medium, marked as coming from
    A2A, its description is the non-empty texts of the message joined by
    newlines, or "A2A task" when there is none, so it is never empty; the
    projection has that id, direction sent, state submitted when a peer
    was written to and working otherwise, the given contextId or else the
    task id, and one history entry of role user carrying the description.
    When the search raises (a target other than ['*'] is given and the
    test meets, before any match, a peer whose announced agent_id is
    neither absent, null nor a string, or the target itself is not a
    string and a peer is connected), the request is answered 500 and
    nothing is written or stored. *)
Theorem message_send_creates_task (P : Platform) (i : JSValue)
    (p : A2A.SendParams) (w : World) :
  validateMessageSendParams (Some p) = None ->
  let id := uuids w 0%nat in
  let w' := snd (handleMessageSend P i (Some p) w) in
  let targeted :=
    truthy (A2A.target p) && negb (is_str "*" (A2A.target p)) in
  let search := findPeer (sendMatches P (A2A.target p)) (peers w) in
  (forall e, targeted = true -> search = Threw e ->
     fst (handleMessageSend P i (Some p) w) = express_error e
     /\ sentTasks w' = sentTasks w
     /\ wire w' = wire w)
  /\ (targeted = false \/ (forall e, search <> Threw e) ->
  exists a2a task,
    fst (handleMessageSend P i (Some p) w) = json (BRpcTask i a2a)
    /\ JSMap.get id (sentTasks w') = Some task
    /\ Sent.task_type task = "general"
    /\ priority (Sent.payload task) = "medium"
    /\ Sent.a2aSource task = true
    /\ description (Sent.payload task) <> ""
    /\ (forall m parts,
          A2A.message p = Some m -> A2A.parts m = Some parts ->
          description (Sent.payload task)
          = if String.eqb (join (String "010" "") (textsOf parts)) ""
            then "A2A task" else join (String "010" "") (textsOf parts))
    /\ A2ATask.id a2a = id
    /\ A2ATask.direction a2a = "sent"
    /\ (Sent.status task = "pending"
        /\ A2ATask.state a2a = JStr "submitted"
        \/ Sent.status task = "queued_for_retry"
           /\ A2ATask.state a2a = JStr "working")
    /\ Sent.status task =
         (if (List.length (wire w) <? List.length (wire w'))%nat
          then "pending" else "queued_for_retry")
    /\ A2ATask.history a2a = Some ("user", description (Sent.payload task))
    /\ A2ATask.contextId a2a =
         if truthy (A2A.contextId p) then A2A.contextId p else JStr id).
Proof.
  intros Hv. cbv zeta.
  destruct (handleMessageSend_valid P i (Some p) w Hv)
    as (p' & m & [= <-] & Hm & ->).
  destruct (a2a_description m (A2A.contextId p)) as (Hd1 & Hd2 & Hd3).
  set (pl := a2aMessageToKtpPayload m (A2A.contextId p)) in *.
  assert (Hhist :
    (if (description pl =? "")%string then None
     else Some ("user", description pl))
    = Some ("user", description pl)).
  { destruct (String.eqb_spec (description pl) ""); [contradiction|].
    reflexivity. }
  assert (Hctx :
    (let c := if truthy (A2A.contextId p) then A2A.contextId p
              else JStr (uuids w 0%nat) in
     if truthy c then c else JStr (uuids w 0%nat))
    = if truthy (A2A.contextId p) then A2A.contextId p
      else JStr (uuids w 0%nat)).
  { cbv zeta. destruct (truthy (A2A.contextId p)) eqn:E.
    - now rewrite E.
    - cbn. now destruct (negb (uuids w 0%nat =? "")%string). }
  assert (Hparts : forall m0 parts,
            A2A.message p = Some m0 -> A2A.parts m0 = Some parts ->
            description pl
            = if String.eqb (join (String "010" "") (textsOf parts)) ""
              then "A2A task" else join (String "010" "") (textsOf parts)).
  { intros m0 parts Hm0 Hp. rewrite Hm in Hm0. injection Hm0 as <-.
    rewrite Hd2. cbv zeta. now rewrite Hp. }
  assert (Hstate : forall n,
    (if 0 <? n then "pending" else "queued_for_retry") = "pending"
    /\ ktpToA2AState (if 0 <? n then "pending" else "queued_for_retry")
       = JStr "submitted"
    \/ (if 0 <? n then "pending" else "queued_for_retry")
       = "queued_for_retry"
       /\ ktpToA2AState (if 0 <? n then "pending" else "queued_for_retry")
          = JStr "working").
  { intros n. destruct (0 <? n); [left|right]; split; reflexivity. }
  assert (Hlen1 : forall x : string * Frame,
            (List.length (wire w) <? List.length (wire w ++ [x]))%nat = true).
  { intros x. rewrite length_app. cbn. apply Nat.ltb_lt. lia. }
  assert (Hlen0 : (List.length (wire w) <? List.length (wire w))%nat = false)
    by apply Nat.ltb_irrefl.
  assert (HlenB : forall g : string -> string * Frame,
            (List.length (wire w)
             <? List.length (wire w ++ map g (JSMap.keys (peers w))))%nat
            = (0 <? Z.of_nat (List.length (peers w)))).
  { intros g. unfold JSMap.keys. rewrite length_app, !length_map.
    destruct (peers w) as [|kp r]; cbn -[Nat.ltb Z.of_nat].
    - rewrite Nat.add_0_r. apply Nat.ltb_irrefl.
    - transitivity true; [apply Nat.ltb_lt; lia|].
      symmetry. apply Z.ltb_lt. lia. }
  match goal with
  | |- context [messageSend_deliver P ?t ?f ?w1] =>
      destruct (messageSend_deliver_cases P t f w1)
        as [(e & -> & Ht & Hf)|[(kp & -> & Ht & Hf)
                               |[(-> & Ht & Hf)|(-> & Ht)]]]
  end; cbv beta iota zeta; cbn [peers set_clock set_uuids] in *.
  - split.
    + intros e' _ He'. rewrite Hf in He'. injection He' as <-.
      repeat split.
    + intros [H|H]; [congruence|]. now destruct (H e).
  - split; [intros e' _ He'; congruence|]. intros _.
    unfold ktpTaskToA2ATask, bind, ret, Date_now. cbn -[Nat.ltb].
    match goal with
    | |- context [if ?c =? 0 then _ else _] => destruct (c =? 0)
    end; cbn -[Nat.ltb];
      do 2 eexists; (split; [reflexivity|]);
      (split; [apply JSMapFacts.get_set_eq|]); cbn -[Nat.ltb];
      (split; [reflexivity|]); (split; [exact Hd3|]);
      (split; [reflexivity|]); (split; [exact Hd1|]);
      (split; [exact Hparts|]);
      (split; [reflexivity|]); (split; [reflexivity|]);
      (split; [exact (Hstate 1)|]);
      (split; [first [rewrite Hlen1 | rewrite Hlen0 | rewrite HlenB];
               reflexivity|]);
      (split; [exact Hhist|]);
      exact Hctx.
  - split; [intros e' _ He'; congruence|]. intros _.
    unfold ktpTaskToA2ATask, bind, ret, Date_now. cbn -[Nat.ltb].
    match goal with
    | |- context [if ?c =? 0 then _ else _] => destruct (c =? 0)
    end; cbn -[Nat.ltb];
      do 2 eexists; (split; [reflexivity|]);
      (split; [apply JSMapFacts.get_set_eq|]); cbn -[Nat.ltb];
      (split; [reflexivity|]); (split; [exact Hd3|]);
      (split; [reflexivity|]); (split; [exact Hd1|]);
      (split; [exact Hparts|]);
      (split; [reflexivity|]); (split; [reflexivity|]);
      (split; [exact (Hstate 0)|]);
      (split; [first [rewrite Hlen1 | rewrite Hlen0 | rewrite HlenB];
               reflexivity|]);
      (split; [exact Hhist|]);
      exact Hctx.
  - split; [intros e' He'; congruence|]. intros _.
    unfold ktpTaskToA2ATask, bind, ret, Date_now. cbn -[Nat.ltb].
    match goal with
    | |- context [if ?c =? 0 then _ else _] => destruct (c =? 0)
    end; cbn -[Nat.ltb];
      do 2 eexists; (split; [reflexivity|]);
      (split; [apply JSMapFacts.get_set_eq|]); cbn -[Nat.ltb];
      (split; [reflexivity|]); (split; [exact Hd3|]);
      (split; [reflexivity|]); (split; [exact Hd1|]);
      (split; [exact Hparts|]);
      (split; [reflexivity|]); (split; [reflexivity|]);
      (split; [exact (Hstate (Z.of_nat (List.length (peers w))))|]);
      (split; [first [rewrite Hlen1 | rewrite Hlen0 | rewrite HlenB];
               reflexivity|]);
      (split; [exact Hhist|]);
      exact Hctx.
Qed.

Lemma message_send_creates_task_witness :
  exists a2a,
    fst (handleMessageSend Toy.platform (JNum 1)
           (Some Scenario2.send_params) Toy.world0)
    = json (BRpcTask (JNum 1) a2a)
    /\ A2ATask.history a2a = Some ("user", "Do X").
Proof.
  destruct (proj2 (@message_send_creates_task Toy.platform (JNum 1)
              Scenario2.send_params Toy.world0 eq_refl)
              (or_introl eq_refl))
    as (a2a & task & Hr & _ & _ & _ & _ & _ & Hd & _ & _ & _ & _ & Hh & _).
  exists a2a. split; [exact Hr|]. rewrite Hh.
  now rewrite (Hd _ _ eq_refl eq_refl).
Defined.

(** [message/send] forgets a target it cannot reach: when a target other
    than ['*'] is given and the peer search ends without a match, nothing
    is written and the task is stored queued for retry with target ['*'],
    on which the test of the retry reaper's search passes for every
    peer. *)
Theorem message_send_drops_unmatched_target (P : Platform) (i : JSValue)
    (p : A2A.SendParams) (w : World) :
  validateMessageSendParams (Some p) = None ->
  truthy (A2A.target p) && negb (is_str "*" (A2A.target p)) = true ->
  findPeer (sendMatches P (A2A.target p)) (peers w) = NotFound ->
  let w' := snd (handleMessageSend P i (Some p) w) in
  wire w' = wire w
  /\ exists task,
       JSMap.get (uuids w 0%nat) (sentTasks w') = Some task
       /\ Sent.status task = "queued_for_retry"
       /\ Sent.target task = "*"
       /\ forall kp, reaperMatches P (Sent.target task) kp = Some true.
Proof.
  intros Hv Ht Hfind. cbv zeta.
  destruct (handleMessageSend_valid P i (Some p) w Hv)
    as (p' & m & [= <-] & Hm & ->).
  match goal with
  | |- context [messageSend_deliver P ?t ?f ?w1] =>
      destruct (messageSend_deliver_cases P t f w1)
        as [(e & -> & _ & Hf)|[(kp & -> & _ & Hf)
                              |[(-> & _ & Hf)|(-> & Ht')]]]
  end; cbv beta iota zeta; cbn [peers set_clock set_uuids] in *;
    try congruence.
  unfold ktpTaskToA2ATask, bind, ret, Date_now. cbn.
  match goal with
  | |- context [if ?c =? 0 then _ else _] => destruct (c =? 0)
  end; cbn;
    (split; [reflexivity|]); eexists;
    (split; [apply JSMapFacts.get_set_eq|]); cbn; repeat split.
Qed.

Lemma message_send_drops_unmatched_target_witness :
  wire (snd (handleMessageSend Toy.platform (JNum 1)
               (Some {| A2A.message := A2A.message Scenario2.send_params;
                        A2A.contextId := JUndefined;
                        A2A.target := JStr "ghost" |}) Toy.world0))
  = wire Toy.world0.
Proof.
  refine (proj1 (@message_send_drops_unmatched_target Toy.platform (JNum 1)
            _ Toy.world0 _ _ _)).
  - reflexivity.
  - reflexivity.
  - reflexivity.
Defined.

(** ** Identifiers *)

Lemma length_toString_hex (b : bytes) :
  String.length (toString_hex b) = (2 * List.length b)%nat.
Proof. induction b as [|c r IH]; cbn; [reflexivity|]. rewrite IH. lia. Qed.

Lemma substring_all (s : string) : substring 0 (String.length s) s = s.
Proof. induction s as [|c r IH]; cbn; [reflexivity|]. now rewrite IH. Qed.

Lemma substring_hex (n : nat) (b : bytes) :
  substring (2 * n) (String.length (toString_hex b) - 2 * n) (toString_hex b)
  = toString_hex (skipn n b).
Proof.
  revert b. induction n as [|n IH]; intros b.
  - cbn [Nat.mul skipn]. rewrite Nat.sub_0_r. apply substring_all.
  - replace (2 * S n)%nat with (S (S (2 * n))) by lia.
    destruct b as [|c r]; [reflexivity|].
    cbn [toString_hex skipn String.length substring Nat.sub]. apply IH.
Qed.

(** The "raw" id is the hexadecimal export of the public key without its
    first 22 bytes (44 characters), whatever the length of the export,
    and the export itself when that has at most 22 bytes. *)
Theorem raw_id_drops_22_bytes (b : bytes) :
  getRawKeyHex (toString_hex b) =
    (if (22 <? List.length b)%nat then toString_hex (skipn 22 b)
     else toString_hex b)
  /\ ((22 < List.length b)%nat ->
      String.length (getRawKeyHex (toString_hex b))
      = (2 * (List.length b - 22))%nat).
Proof.
  assert (H : getRawKeyHex (toString_hex b) =
              (if (22 <? List.length b)%nat then toString_hex (skipn 22 b)
               else toString_hex b)).
  { unfold getRawKeyHex. rewrite length_toString_hex.
    destruct (22 <? List.length b)%nat eqn:E.
    - replace (44 <? 2 * List.length b)%nat with true
        by (symmetry; apply Nat.ltb_lt; apply Nat.ltb_lt in E; lia).
      rewrite <- (length_toString_hex b).
      exact (substring_hex 22 b).
    - replace (44 <? 2 * List.length b)%nat with false
        by (symmetry; apply Nat.ltb_ge; apply Nat.ltb_ge in E; lia).
      reflexivity. }
  split; [exact H|]. intros Hlt. rewrite H.
  replace (22 <? List.length b)%nat with true
    by (symmetry; now apply Nat.ltb_lt).
  rewrite length_toString_hex, length_skipn. reflexivity.
Qed.

(** ** Capability search *)

Lemma capabilityMatch_ids (P : Platform) (skill wanted : JSValue)
    (kp : string * Peer) (m : CapabilityMatch) :
  capabilityMatch P skill wanted kp = Some (Some m) ->
  m = {| peer_id := slice_last8 (fst kp);
         full_id := fst kp;
         match_agent_id :=
           (let a := agent_id_of (manifest (snd kp)) in
            if truthy a then a else JStr "Anonymous");
         match_role :=
           (let r := peerRole_of (manifest (snd kp)) in
            if truthy r then r else JStr "Unknown");
         match_skills := peerSkills_of (manifest (snd kp)) |}.
Proof.
  unfold capabilityMatch.
  destruct (bySkill P skill _) as [m1|]; [|discriminate].
  destruct (byRole P wanted _) as [m2|]; [|discriminate].
  destruct (m1 || m2 || _); [|discriminate].
  intros [= <-]. reflexivity.
Qed.

(** The loop answers with the entries pushed for the peers, in table
    order, when no iteration raises. *)
Lemma capabilityMatches_spec (P : Platform) (skill wanted : JSValue)
    (ps : JSMap.t Peer) (matches : list CapabilityMatch) :
  capabilityMatches P skill wanted ps = Some matches ->
  (forall kp, In kp ps -> capabilityMatch P skill wanted kp <> None)
  /\ (forall m, In m matches <->
                exists kp, In kp ps
                           /\ capabilityMatch P skill wanted kp
                              = Some (Some m)).
Proof.
  revert matches. induction ps as [|kp r IH]; intros matches; cbn.
  - intros [= <-]. split; [intros kp []|].
    intros m. split; [intros []|intros (kp & [] & _)].
  - destruct (capabilityMatch P skill wanted kp) as [here|] eqn:E;
      [|discriminate].
    destruct (capabilityMatches P skill wanted r) as [rest|];
      [|discriminate].
    destruct (IH rest eq_refl) as [IH1 IH2].
    intros [= <-]. split.
    + intros kp' [<-|Hin]; [congruence|now apply IH1].
    + intros m. destruct here as [m0|]; cbn; rewrite ?IH2; split.
      * intros [<-|(kp' & Hin & Hk)];
          [exists kp; split; [now left|assumption]|].
        exists kp'. split; [now right|assumption].
      * intros (kp' & [<-|Hin] & Hk); [left; congruence|].
        right. now exists kp'.
      * intros (kp' & Hin & Hk). exists kp'. split; [now right|assumption].
      * intros (kp' & [<-|Hin] & Hk); [congruence|]. now exists kp'.
Qed.

Lemma capabilityMatches_total (P : Platform) (skill wanted : JSValue)
    (ps : JSMap.t Peer) :
  (forall kp, In kp ps -> capabilityMatch P skill wanted kp <> None) ->
  exists matches, capabilityMatches P skill wanted ps = Some matches.
Proof.
  induction ps as [|kp r IH]; intros H; cbn; [now exists []|].
  pose proof (H kp (or_introl eq_refl)) as Hk.
  destruct (capabilityMatch P skill wanted kp) as [here|]; [|contradiction].
  destruct IH as [rest ->]; [intros kp' Hin; apply H; now right|].
  eexists. reflexivity.
Qed.

Lemma some_typed (test : JSValue -> option bool) (l : list JSValue) :
  (forall x, In x l -> test x <> None) -> some test l <> None.
Proof.
  induction l as [|x r IH]; intros H; cbn; [discriminate|].
  pose proof (H x (or_introl eq_refl)) as Hx.
  destruct (test x) as [[|]|]; [discriminate| |contradiction].
  apply IH. intros y Hy. apply H. now right.
Qed.

(** [GET /capabilities/search].  Without filters the search never raises
    and lists every connected peer, in table order.  With filters that
    are strings, over peers whose manifests have the documented types, it
    does not raise either.  Whenever it answers, [count] is the number of
    matches, every match is a connected peer with [peer_id] the last
    eight characters of its key and with the agent_id, role and skills of
    its manifest (['Anonymous'], ['Unknown'] and no skills in their
    absence), and the two filters are alternatives: a
    peer whose role is a string that contains the wanted role, both
    folded by [toLowerCase], is listed whatever skill is asked for.  It
    raises only with a filter, and then a [TypeError]: on a skill or role
    that a peer announced and that is not a string, or on a filter that
    is not a string. *)
Theorem capabilities_search (P : Platform) (skill wanted : JSValue)
    (w : World) :
  (truthy skill = false -> truthy wanted = false ->
   exists matches,
     capabilitiesSearch P skill wanted w
     = inr (Z.of_nat (List.length matches), matches)
     /\ map full_id matches = JSMap.keys (peers w))
  /\ ((is_string skill = true \/ truthy skill = false) ->
      (is_string wanted = true \/ truthy wanted = false) ->
      forallb (fun kp => manifestTyped (snd kp)) (peers w) = true ->
      exists r, capabilitiesSearch P skill wanted w = inr r)
  /\ (forall count matches,
        capabilitiesSearch P skill wanted w = inr (count, matches) ->
        count = Z.of_nat (List.length matches)
        /\ (forall m, In m matches ->
              exists k p,
                In (k, p) (peers w)
                /\ m = {| peer_id := slice_last8 k;
                          full_id := k;
                          match_agent_id :=
                            (let a := agent_id_of (manifest p) in
                             if truthy a then a else JStr "Anonymous");
                          match_role :=
                            (let r := peerRole_of (manifest p) in
                             if truthy r then r else JStr "Unknown");
                          match_skills := peerSkills_of (manifest p) |})
        /\ (forall q k p r,
              wanted = JStr q -> q <> "" ->
              In (k, p) (peers w) ->
              peerRole_of (manifest p) = JStr r ->
              str_includes (toLowerCase P q) (toLowerCase P r) = true ->
              exists m, In m matches /\ full_id m = k))
  /\ (forall e,
        capabilitiesSearch P skill wanted w = inl e ->
        e = TypeError /\ (truthy skill = true \/ truthy wanted = true)).
Proof.
  assert (Hnone : truthy skill = false -> truthy wanted = false ->
                  forall kp, exists m,
                    capabilityMatch P skill wanted kp = Some (Some m)
                    /\ full_id m = fst kp).
  { intros Hs Hw kp. unfold capabilityMatch, bySkill, byRole.
    rewrite Hs, Hw. cbn. eexists. split; reflexivity. }
  unfold capabilitiesSearch. split; [|split; [|split]].
  - intros Hs Hw.
    assert (H : exists matches,
              capabilityMatches P skill wanted (peers w) = Some matches
              /\ map full_id matches = JSMap.keys (peers w)).
    { unfold JSMap.keys. induction (peers w) as [|kp r IH]; cbn.
      - now exists [].
      - destruct (Hnone Hs Hw kp) as (m & -> & Hm).
        destruct IH as (rest & -> & Hr).
        exists (m :: rest). split; [reflexivity|]. cbn. now rewrite Hm, Hr. }
    destruct H as (matches & -> & Hk). now exists matches.
  - intros Hs Hw Ht.
    destruct (@capabilityMatches_total P skill wanted (peers w))
      as [matches ->]; [|eexists; reflexivity].
    intros [k p] Hin. rewrite forallb_forall in Ht.
    specialize (Ht _ Hin). cbn in Ht. unfold manifestTyped in Ht.
    apply andb_true_iff in Ht as [Ht Hsk].
    apply andb_true_iff in Ht as [_ Hr].
    unfold capabilityMatch. cbn [fst snd].
    assert (H1 : bySkill P skill (peerSkills_of (manifest p)) <> None).
    { unfold bySkill. destruct (truthy skill) eqn:E; [|discriminate].
      destruct Hs as [Hs|Hs]; [|congruence].
      destruct (peerSkills_of (manifest p)) as [l|v]; [|discriminate].
      apply some_typed. intros x Hx. rewrite forallb_forall in Hsk.
      specialize (Hsk _ Hx). unfold includes_folded.
      destruct x; try discriminate. destruct skill; discriminate. }
    assert (H2 : byRole P wanted (peerRole_of (manifest p)) <> None).
    { unfold byRole. destruct (truthy wanted) eqn:E; [|discriminate].
      destruct Hw as [Hw|Hw]; [|congruence].
      unfold includes_folded.
      destruct (peerRole_of (manifest p)); try discriminate.
      destruct wanted; discriminate. }
    destruct (bySkill P skill _); [|contradiction].
    destruct (byRole P wanted _); [|contradiction]. discriminate.
  - intros count matches.
    destruct (capabilityMatches P skill wanted (peers w)) as [ms|] eqn:E;
      [|discriminate].
    intros [= <- <-]. split; [reflexivity|].
    destruct (capabilityMatches_spec _ _ _ _ E) as [Hall Hin]. split.
    + intros m Hm. apply Hin in Hm as ([k p] & Hkp & Hm).
      exists k, p. split; [exact Hkp|].
      exact (capabilityMatch_ids _ _ _ _ Hm).
    + intros q k p r -> Hq Hkp Hr Hinc.
      pose proof (Hall _ Hkp) as Hne.
      assert (H : exists m, capabilityMatch P skill (JStr q) (k, p)
                            = Some (Some m) /\ full_id m = k).
      { unfold capabilityMatch in *. cbn [fst snd] in *.
        destruct (bySkill P skill _) as [m1|]; [|contradiction].
        unfold byRole, includes_folded in *. rewrite Hr in *. cbn.
        destruct (String.eqb_spec q ""); [contradiction|]. cbn.
        rewrite Hinc, orb_true_r. cbn. eexists. split; reflexivity. }
      destruct H as (m & Hm & Hf). exists m. split; [|exact Hf].
      apply Hin. now exists (k, p).
  - intros e.
    destruct (capabilityMatches P skill wanted (peers w)) as [ms|] eqn:E;
      [discriminate|].
    intros [= <-]. split; [reflexivity|].
    destruct (truthy skill) eqn:Hs; [now left|].
    destruct (truthy wanted) eqn:Hw; [now right|]. exfalso.
    destruct (@capabilityMatches_total P skill wanted (peers w))
      as [ms E']; [|congruence].
    intros kp _. destruct (Hnone eq_refl eq_refl kp) as (m & -> & _).
    discriminate.
Qed.
